(** * The file layer of the cozy-stack virtual file system (pkg/vfs/file.go)

    A shallow embedding of the file documents, of the staged writer
    ([CreateFile], [File_Write], [File_Close]) and of the metadata
    operations ([ModifyFileMetadata], [TrashFile], [DestroyFile],
    [safeRenameFile]), with the content store (afero) and the metadata store
    (couchdb) as interfaces threaded through an explicit context. *)

From Stdlib Require Import ZArith Lia Bool List String Ascii DecimalString.
From Stdlib.Strings Require Import Byte.
From stdpp Require Import base option strings gmap.
Import ListNotations.

Local Open Scope string_scope.
Local Open Scope Z_scope.

(** ** Go base types *)

(** [[]byte]: a slice is either nil or holds bytes. *)
Definition bytes := list byte.
Definition slice := option bytes.

(** [time.Time], as nanoseconds since the epoch. *)
Definition Time := Z.

(** [os.FileMode] *)
Definition FileMode := Z.

Fixpoint bytes_eqb (a b : bytes) : bool :=
  match a, b with
  | [], [] => true
  | x :: a', y :: b' => Byte.eqb x y && bytes_eqb a' b'
  | _, _ => false
  end.

Definition slice_bytes (s : slice) : bytes :=
  match s with Some b => b | None => [] end.

(** [bytes.Equal]: a nil argument is equivalent to an empty slice. *)
Definition bytes_Equal (a b : slice) : bool :=
  bytes_eqb (slice_bytes a) (slice_bytes b).

(** Two's complement wrap-around of the [int64] arithmetic. *)
Definition wrap64 (z : Z) : Z := (z + 2 ^ 63) mod 2 ^ 64 - 2 ^ 63.

Definition int64_add (a b : Z) : Z := wrap64 (a + b).

(** ** Go's [path] and [strings] packages (slash-separated paths) *)

Module path.

Definition slash : ascii := "/"%char.

(** [path.IsAbs]: the path begins with a slash. *)
Definition IsAbs (p : string) : bool :=
  match p with
  | String c _ => Ascii.eqb c slash
  | EmptyString => false
  end.

(** The elements between slashes, empty ones included. *)
Fixpoint elements (cur : string) (p : string) : list string :=
  match p with
  | EmptyString => [cur]
  | String c p' =>
      if Ascii.eqb c slash then cur :: elements "" p'
      else elements (cur ++ String c "") p'
  end.

(** One step of [path.Clean] over the elements kept so far (last kept
    element first). *)
Definition clean_step (rooted : bool) (kept : list string) (e : string)
  : list string :=
  if String.eqb e "" then kept
  else if String.eqb e "." then kept
  else if String.eqb e ".." then
    match kept with
    | top :: rest =>
        if String.eqb top ".." then ".." :: kept else rest
    | [] => if rooted then [] else [".."]
    end
  else e :: kept.

Fixpoint join_slash (l : list string) : string :=
  match l with
  | [] => ""
  | [e] => e
  | e :: l' => e ++ "/" ++ join_slash l'
  end.

(** [path.Clean]: the shortest path equivalent to [p] by purely lexical
    processing: slashes collapsed, [.] elements dropped, inner [..]
    elements cancelled against the element before them, [..] at the start
    of a rooted path dropped; the empty result is ["."]. *)
Definition Clean (p : string) : string :=
  let rooted := IsAbs p in
  let kept := rev (fold_left (clean_step rooted) (elements "" p) []) in
  if rooted then "/" ++ join_slash kept
  else match kept with
       | [] => "."
       | _ => join_slash kept
       end.

(** [path.Join] of two elements: empty elements are ignored and the result
    is cleaned. *)
Definition Join (a b : string) : string :=
  if String.eqb a "" then
    if String.eqb b "" then "" else Clean b
  else Clean (a ++ "/" ++ b).

(** The prefix of [p] up to and including its last slash. *)
Fixpoint upto_last_slash (p : string) : string :=
  match p with
  | EmptyString => ""
  | String c p' =>
      let r := upto_last_slash p' in
      if Ascii.eqb c slash then String c r
      else match r with
           | EmptyString => ""
           | _ => String c r
           end
  end.

(** [path.Dir]: all but the last element of the path, cleaned. *)
Definition Dir (p : string) : string := Clean (upto_last_slash p).

(** The string contains a slash. *)
Fixpoint has_slash (s : string) : bool :=
  match s with
  | EmptyString => false
  | String c s' => Ascii.eqb c slash || has_slash s'
  end.

End path.

(** [strings.HasPrefix] *)
Definition strings_HasPrefix (s pre : string) : bool := String.prefix pre s.

(** ** Errors *)

Inductive errno := ENOENT | EEXIST | EACCES | ENOSPC | EBADF | EIO.

(** Errors of Go's [os] package, the only ones the content store returns:
    the sentinel values and [*os.PathError] around a system error. *)
Inductive os_error :=
| os_ErrInvalid
| os_ErrPermission
| os_ErrExist
| os_ErrNotExist
| os_PathError (op : string) (name : string) (e : errno).

(** [couchdb.Error], the only errors the metadata store returns. *)
Record couchdb_Error := {
  StatusCode : Z;
  Reason : string;
}.

(** The package-level errors of [vfs] this file returns, the errors it
    forwards from the two stores, and the other errors of the package
    (returned by helpers of other files) by name. *)
Inductive error :=
| ErrInvalidHash
| ErrContentLengthMismatch
| ErrConflict
| ErrNonAbsolutePath
| ErrFileInTrash
| ErrVfs (name : string)
| OsError (e : os_error)
| CouchError (e : couchdb_Error).

Coercion OsError : os_error >-> error.

Definition os_error_IsNotExist (e : os_error) : bool :=
  match e with
  | os_ErrNotExist => true
  | os_PathError _ _ ENOENT => true
  | _ => false
  end.

Definition os_error_IsExist (e : os_error) : bool :=
  match e with
  | os_ErrExist => true
  | os_PathError _ _ EEXIST => true
  | _ => false
  end.

(** [os.IsNotExist] *)
Definition os_IsNotExist (e : error) : bool :=
  match e with
  | OsError e' => os_error_IsNotExist e'
  | _ => false
  end.

(** [os.IsExist] *)
Definition os_IsExist (e : error) : bool :=
  match e with
  | OsError e' => os_error_IsExist e'
  | _ => false
  end.

(** A Go result [(T, error)] of which exactly one component is set. *)
Inductive result (T : Type) :=
| Ok (v : T)
| Err (e : error).
Arguments Ok {T} v.
Arguments Err {T} e.

(** ** Documents *)

(** Modelled from the spec: the directory node (dir.go is not among the
    sources): identity, revision, name, parent, timestamps and tags. *)
Record DirDoc := {
  dir_DocID : string;
  dir_DocRev : string;
  dir_Name : string;
  dir_DirID : string;
  dir_CreatedAt : Time;
  dir_UpdatedAt : Time;
  dir_Tags : list string;
}.

(** [jsonapi.ResourceIdentifier] *)
Record ResourceIdentifier := {
  ri_ID : string;
  ri_Type : string;
}.

Record FileDoc := {
  Type_ : string;
  DocID : string;
  DocRev : string;
  Name : string;
  DirID : string;
  RestorePath : string;
  CreatedAt : Time;
  UpdatedAt : Time;
  Size : Z;
  MD5Sum : slice;
  Mime : string;
  Class_ : string;
  Executable : bool;
  Tags : list string;
  ReferencedBy : list ResourceIdentifier;
  parent : option DirDoc;
}.

Definition ID (f : FileDoc) : string := DocID f.
Definition Rev (f : FileDoc) : string := DocRev f.

Definition SetID (id : string) (f : FileDoc) : FileDoc :=
  {| Type_ := Type_ f; DocID := id; DocRev := DocRev f; Name := Name f;
     DirID := DirID f; RestorePath := RestorePath f; CreatedAt := CreatedAt f;
     UpdatedAt := UpdatedAt f; Size := Size f; MD5Sum := MD5Sum f;
     Mime := Mime f; Class_ := Class_ f; Executable := Executable f;
     Tags := Tags f; ReferencedBy := ReferencedBy f; parent := parent f |}.

Definition SetRev (rev : string) (f : FileDoc) : FileDoc :=
  {| Type_ := Type_ f; DocID := DocID f; DocRev := rev; Name := Name f;
     DirID := DirID f; RestorePath := RestorePath f; CreatedAt := CreatedAt f;
     UpdatedAt := UpdatedAt f; Size := Size f; MD5Sum := MD5Sum f;
     Mime := Mime f; Class_ := Class_ f; Executable := Executable f;
     Tags := Tags f; ReferencedBy := ReferencedBy f; parent := parent f |}.

Definition set_RestorePath (p : string) (f : FileDoc) : FileDoc :=
  {| Type_ := Type_ f; DocID := DocID f; DocRev := DocRev f; Name := Name f;
     DirID := DirID f; RestorePath := p; CreatedAt := CreatedAt f;
     UpdatedAt := UpdatedAt f; Size := Size f; MD5Sum := MD5Sum f;
     Mime := Mime f; Class_ := Class_ f; Executable := Executable f;
     Tags := Tags f; ReferencedBy := ReferencedBy f; parent := parent f |}.

Definition set_CreatedAt (t : Time) (f : FileDoc) : FileDoc :=
  {| Type_ := Type_ f; DocID := DocID f; DocRev := DocRev f; Name := Name f;
     DirID := DirID f; RestorePath := RestorePath f; CreatedAt := t;
     UpdatedAt := UpdatedAt f; Size := Size f; MD5Sum := MD5Sum f;
     Mime := Mime f; Class_ := Class_ f; Executable := Executable f;
     Tags := Tags f; ReferencedBy := ReferencedBy f; parent := parent f |}.

Definition set_UpdatedAt (t : Time) (f : FileDoc) : FileDoc :=
  {| Type_ := Type_ f; DocID := DocID f; DocRev := DocRev f; Name := Name f;
     DirID := DirID f; RestorePath := RestorePath f; CreatedAt := CreatedAt f;
     UpdatedAt := t; Size := Size f; MD5Sum := MD5Sum f;
     Mime := Mime f; Class_ := Class_ f; Executable := Executable f;
     Tags := Tags f; ReferencedBy := ReferencedBy f; parent := parent f |}.

Definition set_Size (n : Z) (f : FileDoc) : FileDoc :=
  {| Type_ := Type_ f; DocID := DocID f; DocRev := DocRev f; Name := Name f;
     DirID := DirID f; RestorePath := RestorePath f; CreatedAt := CreatedAt f;
     UpdatedAt := UpdatedAt f; Size := n; MD5Sum := MD5Sum f;
     Mime := Mime f; Class_ := Class_ f; Executable := Executable f;
     Tags := Tags f; ReferencedBy := ReferencedBy f; parent := parent f |}.

Definition set_MD5Sum (s : slice) (f : FileDoc) : FileDoc :=
  {| Type_ := Type_ f; DocID := DocID f; DocRev := DocRev f; Name := Name f;
     DirID := DirID f; RestorePath := RestorePath f; CreatedAt := CreatedAt f;
     UpdatedAt := UpdatedAt f; Size := Size f; MD5Sum := s;
     Mime := Mime f; Class_ := Class_ f; Executable := Executable f;
     Tags := Tags f; ReferencedBy := ReferencedBy f; parent := parent f |}.

Definition set_parent (p : option DirDoc) (f : FileDoc) : FileDoc :=
  {| Type_ := Type_ f; DocID := DocID f; DocRev := DocRev f; Name := Name f;
     DirID := DirID f; RestorePath := RestorePath f; CreatedAt := CreatedAt f;
     UpdatedAt := UpdatedAt f; Size := Size f; MD5Sum := MD5Sum f;
     Mime := Mime f; Class_ := Class_ f; Executable := Executable f;
     Tags := Tags f; ReferencedBy := ReferencedBy f; parent := p |}.

(** The patch of [ModifyFileMetadata]: a nil pointer field means that the
    field is not changed (the type is declared outside this file; these are
    the fields file.go sets and reads). *)
Record DocPatch := {
  patch_Name : option string;
  patch_DirID : option string;
  patch_RestorePath : option string;
  patch_Tags : option (list string);
  patch_UpdatedAt : option Time;
  patch_Executable : option bool;
}.

(** A patch after normalisation: file.go dereferences every field. *)
Record FullPatch := {
  full_Name : string;
  full_DirID : string;
  full_RestorePath : string;
  full_Tags : list string;
  full_UpdatedAt : Time;
  full_Executable : bool;
}.

(** ** The stores *)

(** The content store ([afero.Fs] and the [afero.File] handles it opens), as
    transitions of its state [FS]. *)
Class ContentStore (FS Handle : Type) := {
  afero_Stat : string -> FS -> option os_error;
  afero_Rename : string -> string -> FS -> FS * option os_error;
  afero_Remove : string -> FS -> FS * option os_error;
  afero_Chmod : string -> FileMode -> FS -> FS * option os_error;
  afero_OpenFile : string -> Z -> FileMode -> FS -> FS * (os_error + Handle);
  afero_File_Write : Handle -> bytes -> FS -> FS * (Z * option os_error);
  afero_File_Close : Handle -> FS -> FS * option os_error;
}.

(** The metadata store (package couchdb), as transitions of its state [DB].
    The store sees a document through the [couchdb.Doc] interface: on
    success [CreateDoc] assigns an id and a revision and [UpdateDoc] a
    revision. *)
Class MetadataStore (DB : Type) := {
  couchdb_CreateDoc : FileDoc -> DB -> DB * (couchdb_Error + string * string);
  couchdb_UpdateDoc : FileDoc -> DB -> DB * (couchdb_Error + string);
  couchdb_DeleteDoc : FileDoc -> DB -> DB * option couchdb_Error;
}.

(** Calls to the stores, in the order they are made. *)
Inductive Event :=
| EvStat (name : string)
| EvRename (oldname newname : string)
| EvRemove (name : string)
| EvChmod (name : string) (mode : FileMode)
| EvOpenFile (name : string) (flag : Z) (mode : FileMode)
| EvWrite (p : bytes)
| EvClose
| EvCreateDoc (doc : FileDoc)
| EvUpdateDoc (doc : FileDoc)
| EvDeleteDoc (doc : FileDoc).

(** The vfs context: the content store [c.FS()], the database of the
    instance, and the calls made so far. *)
Record Context (FS DB : Type) := {
  fs : FS;
  db : DB;
  calls : list Event;
}.
Arguments fs {FS DB} c.
Arguments db {FS DB} c.
Arguments calls {FS DB} c.

(** What file.go takes from the rest of the repository and from Go's
    standard library without it being part of the sources: the constants of
    package consts and of package vfs, the helpers of the other files of
    package vfs, and the MD5 digest. *)
Class Package (FS DB : Type) := {
  consts_RootDirID : string;
  consts_TrashDirID : string;
  consts_FileType : string;
  TrashDirName : string;
  conflictFormat : string;
  (** validation of a file name: nil when the name is valid *)
  checkFileName : string -> option error;
  uniqueTags : list string -> list string;
  (** look-up of a parent directory, given the cached one and its id *)
  getParentDir : Context FS DB -> option DirDoc -> string -> result DirDoc;
  (** [DirDoc.Path] *)
  DirDoc_Path : DirDoc -> Context FS DB -> result string;
  (** the check [normalizeDocPatch] makes on the completed patch *)
  validatePatch : FullPatch -> Time -> option error;
  (** the [n]-th alternate name the conflict namer tries *)
  suffixedName : string -> string -> nat -> string;
  (** the number of alternate names the conflict namer tries *)
  maxConflictRetries : nat;
  (** [md5.Sum] *)
  md5_Sum : bytes -> bytes;
}.

(** [fileCreation]: the state of a file open for writing. [fc_hash] is the
    running digest, held as the bytes fed to it so far. *)
Record fileCreation := {
  fc_w : Z;
  fc_newdoc : FileDoc;
  fc_olddoc : option FileDoc;
  fc_newpath : string;
  fc_bakpath : string;
  fc_checkHash : bool;
  fc_hash : bytes;
  fc_err : option error;
}.

(** [File]: a handle, for reading ([f_fc] nil) or for writing. The context
    it points to is threaded through the operations. *)
Record File (Handle : Type) := {
  f_f : Handle;
  f_fc : option fileCreation;
}.
Arguments f_f {Handle} f.
Arguments f_fc {Handle} f.

Definition set_fc_newdoc (d : FileDoc) (fc : fileCreation) : fileCreation :=
  {| fc_w := fc_w fc; fc_newdoc := d; fc_olddoc := fc_olddoc fc;
     fc_newpath := fc_newpath fc; fc_bakpath := fc_bakpath fc;
     fc_checkHash := fc_checkHash fc; fc_hash := fc_hash fc;
     fc_err := fc_err fc |}.

Definition set_fc_err (e : option error) (fc : fileCreation) : fileCreation :=
  {| fc_w := fc_w fc; fc_newdoc := fc_newdoc fc; fc_olddoc := fc_olddoc fc;
     fc_newpath := fc_newpath fc; fc_bakpath := fc_bakpath fc;
     fc_checkHash := fc_checkHash fc; fc_hash := fc_hash fc;
     fc_err := e |}.

(** The effect of a successful write on the handle state: the count and the
    running digest advance. *)
Definition fc_written (n : Z) (p : bytes) (fc : fileCreation) : fileCreation :=
  {| fc_w := int64_add (fc_w fc) n; fc_newdoc := fc_newdoc fc;
     fc_olddoc := fc_olddoc fc; fc_newpath := fc_newpath fc;
     fc_bakpath := fc_bakpath fc; fc_checkHash := fc_checkHash fc;
     fc_hash := (fc_hash fc ++ p)%list; fc_err := fc_err fc |}.

Definition os_O_WRONLY : Z := 1.
Definition os_O_CREATE : Z := 64.
Definition os_O_EXCL : Z := 128.

Definition getFileMode (executable : bool) : FileMode :=
  if executable then 493 (* 0755 *) else 420 (* 0644 *).

Definition is_nil {A} (o : option A) : bool :=
  match o with None => true | Some _ => false end.

Section Operations.
Context {FS DB Handle : Type}.
Context {CS : ContentStore FS Handle} {MS : MetadataStore DB}
  {Pkg : Package FS DB}.

Abbreviation Ctx := (Context FS DB).

(** *** Calls to the stores *)

Definition called (e : Event) (fs' : FS) (db' : DB) (c : Ctx) : Ctx :=
  {| fs := fs'; db := db'; calls := (calls c ++ [e])%list |}.

Definition FS_Stat (name : string) (c : Ctx) : Ctx * option os_error :=
  (called (EvStat name) (fs c) (db c) c, afero_Stat name (fs c)).

Definition FS_Rename (oldname newname : string) (c : Ctx)
  : Ctx * option os_error :=
  let '(s, r) := afero_Rename oldname newname (fs c) in
  (called (EvRename oldname newname) s (db c) c, r).

Definition FS_Remove (name : string) (c : Ctx) : Ctx * option os_error :=
  let '(s, r) := afero_Remove name (fs c) in
  (called (EvRemove name) s (db c) c, r).

Definition FS_Chmod (name : string) (mode : FileMode) (c : Ctx)
  : Ctx * option os_error :=
  let '(s, r) := afero_Chmod name mode (fs c) in
  (called (EvChmod name mode) s (db c) c, r).

Definition FS_OpenFile (name : string) (flag : Z) (mode : FileMode) (c : Ctx)
  : Ctx * (os_error + Handle) :=
  let '(s, r) := afero_OpenFile name flag mode (fs c) in
  (called (EvOpenFile name flag mode) s (db c) c, r).

Definition Handle_Write (h : Handle) (p : bytes) (c : Ctx)
  : Ctx * (Z * option os_error) :=
  let '(s, r) := afero_File_Write h p (fs c) in
  (called (EvWrite p) s (db c) c, r).

Definition Handle_Close (h : Handle) (c : Ctx) : Ctx * option os_error :=
  let '(s, r) := afero_File_Close h (fs c) in
  (called EvClose s (db c) c, r).

Definition DB_CreateDoc (doc : FileDoc) (c : Ctx)
  : Ctx * (couchdb_Error + string * string) :=
  let '(d, r) := couchdb_CreateDoc doc (db c) in
  (called (EvCreateDoc doc) (fs c) d c, r).

Definition DB_UpdateDoc (doc : FileDoc) (c : Ctx)
  : Ctx * (couchdb_Error + string) :=
  let '(d, r) := couchdb_UpdateDoc doc (db c) in
  (called (EvUpdateDoc doc) (fs c) d c, r).

Definition DB_DeleteDoc (doc : FileDoc) (c : Ctx)
  : Ctx * option couchdb_Error :=
  let '(d, r) := couchdb_DeleteDoc doc (db c) in
  (called (EvDeleteDoc doc) (fs c) d c, r).

(** [couchdb.CreateDoc]: on success the document receives its id and
    revision; the result is the document as the caller sees it afterwards
    and the error. *)
Definition CreateDoc (doc : FileDoc) (c : Ctx) : Ctx * FileDoc * option error :=
  let '(c', r) := DB_CreateDoc doc c in
  match r with
  | inl e => (c', doc, Some (CouchError e))
  | inr (id, rev) => (c', SetRev rev (SetID id doc), None)
  end.

(** [couchdb.UpdateDoc] *)
Definition UpdateDoc (doc : FileDoc) (c : Ctx) : Ctx * FileDoc * option error :=
  let '(c', r) := DB_UpdateDoc doc c in
  match r with
  | inl e => (c', doc, Some (CouchError e))
  | inr rev => (c', SetRev rev doc, None)
  end.

(** [couchdb.DeleteDoc] *)
Definition DeleteDoc (doc : FileDoc) (c : Ctx) : Ctx * option error :=
  let '(c', r) := DB_DeleteDoc doc c in
  (c', option_map CouchError r).

(** *** Documents *)

(** [FileDoc.Parent]: the parent directory, kept in the document's
    cache. *)
Definition FileDoc_Parent (c : Ctx) (f : FileDoc) : FileDoc * result DirDoc :=
  match getParentDir c (parent f) (DirID f) with
  | Err e => (f, Err e)
  | Ok p => (set_parent (Some p) f, Ok p)
  end.

(** [FileDoc.Path] *)
Definition FileDoc_Path (c : Ctx) (f : FileDoc) : FileDoc * result string :=
  if String.eqb (DirID f) consts_RootDirID then
    (f, Ok (path.Join "/" (Name f)))
  else
    match FileDoc_Parent c f with
    | (f', Err e) => (f', Err e)
    | (f', Ok p) =>
        match DirDoc_Path p c with
        | Err e => (f', Err e)
        | Ok parentPath => (f', Ok (path.Join parentPath (Name f')))
        end
    end.

(** [NewFileDoc] *)
Definition NewFileDoc (name dirID : string) (size : Z) (md5Sum : slice)
    (mime class : string) (cdate : Time) (executable : bool)
    (tags : list string) : result FileDoc :=
  match checkFileName name with
  | Some e => Err e
  | None =>
      let dirID := if String.eqb dirID "" then consts_RootDirID else dirID in
      let tags := uniqueTags tags in
      Ok {| Type_ := consts_FileType; DocID := ""; DocRev := "";
            Name := name; DirID := dirID; RestorePath := "";
            CreatedAt := cdate; UpdatedAt := cdate; Size := size;
            MD5Sum := md5Sum; Mime := mime; Class_ := class;
            Executable := executable; Tags := tags; ReferencedBy := [];
            parent := None |}
  end.

(** *** Safe primitives *)

Definition safeCreateFile (name : string) (executable : bool) (c : Ctx)
  : Ctx * (os_error + Handle) :=
  let flag := Z.lor (Z.lor os_O_WRONLY os_O_CREATE) os_O_EXCL in
  let mode := getFileMode executable in
  FS_OpenFile name flag mode c.

Definition safeRenameFile (oldpath newpath : string) (c : Ctx)
  : Ctx * option error :=
  let newpath := path.Clean newpath in
  let oldpath := path.Clean oldpath in
  if negb (path.IsAbs newpath) || negb (path.IsAbs oldpath) then
    (c, Some ErrNonAbsolutePath)
  else
    let '(c1, err) := FS_Stat newpath c in
    match err with
    | None => (c1, Some (OsError os_ErrExist))
    | Some e =>
        if negb (os_IsNotExist e) then (c1, Some (OsError e))
        else
          let '(c2, r) := FS_Rename oldpath newpath c1 in
          (c2, option_map OsError r)
    end.

(** *** The staged writer *)

(** [CreateFile]; [now] is the value [time.Now()] returns. The new
    document the handle holds is the caller's document, as changed by the
    call. *)
Definition CreateFile (now : Time) (newdoc : FileDoc) (olddoc : option FileDoc)
    (c : Ctx) : Ctx * result (File Handle) :=
  let '(newdoc, r) := FileDoc_Path c newdoc in
  match r with
  | Err e => (c, Err e)
  | Ok newpath =>
      let bakpath :=
        match olddoc with
        | Some old => "/." ++ ID old ++ "_" ++ Rev old
        | None => ""
        end in
      let '(c1, err) :=
        match olddoc with
        | Some _ => safeRenameFile newpath bakpath c
        | None => (c, None)
        end in
      match err with
      | Some e => (c1, Err (if os_IsNotExist e then ErrConflict else e))
      | None =>
          let newdoc :=
            match olddoc with
            | Some old =>
                set_UpdatedAt now
                  (set_CreatedAt (CreatedAt old)
                     (SetRev (Rev old) (SetID (ID old) newdoc)))
            | None => newdoc
            end in
          let '(c2, r) := safeCreateFile newpath (Executable newdoc) c1 in
          match r with
          | inl e => (c2, Err (OsError e))
          | inr f =>
              (c2, Ok {| f_f := f;
                         f_fc := Some {| fc_w := 0;
                                         fc_newdoc := newdoc;
                                         fc_olddoc := olddoc;
                                         fc_newpath := newpath;
                                         fc_bakpath := bakpath;
                                         fc_checkHash := negb (is_nil (MD5Sum newdoc));
                                         fc_hash := [];
                                         fc_err := None |} |})
          end
      end
  end.

(** [File.Write]: the handle after the call, the count and the error. The
    running digest never fails. *)
Definition File_Write (f : File Handle) (p : bytes) (c : Ctx)
  : Ctx * File Handle * (Z * option error) :=
  match f_fc f with
  | None => (c, f, (0, Some (OsError os_ErrInvalid)))
  | Some fc =>
      let '(c1, (n, err)) := Handle_Write (f_f f) p c in
      match err with
      | Some e =>
          (c1, {| f_f := f_f f;
                  f_fc := Some (set_fc_err (Some (OsError e)) fc) |},
           (n, Some (OsError e)))
      | None =>
          (c1, {| f_f := f_f f; f_fc := Some (fc_written n p fc) |},
           (n, None))
      end
  end.

(** The body of [File.Close] in write mode, up to its [return]: the
    handle state (with the new document as changed) and the value of
    [err]. *)
Definition File_Close_body (h : Handle) (fc : fileCreation) (c : Ctx)
  : Ctx * fileCreation * option error :=
  let '(c1, err) := Handle_Close h c in
  match err with
  | Some e => (c1, fc, Some (OsError e))
  | None =>
      let newdoc := fc_newdoc fc in
      let olddoc := fc_olddoc fc in
      let written := fc_w fc in
      let md5sum := Some (md5_Sum (fc_hash fc)) in
      if fc_checkHash fc && negb (bytes_Equal (MD5Sum newdoc) md5sum) then
        (c1, fc, Some ErrInvalidHash)
      else
        let newdoc :=
          if Size newdoc <? 0 then set_Size written newdoc else newdoc in
        let newdoc :=
          if is_nil (MD5Sum newdoc) then set_MD5Sum md5sum newdoc
          else newdoc in
        if negb (Size newdoc =? written) then
          (c1, set_fc_newdoc newdoc fc, Some ErrContentLengthMismatch)
        else
          let '(c2, newdoc, err) :=
            match olddoc with
            | Some _ => UpdateDoc newdoc c1
            | None => CreateDoc newdoc c1
            end in
          (c2, set_fc_newdoc newdoc fc, err)
  end.

(** The function [File.Close] defers: it runs after the body, with the
    final value of [err]. The results of the calls it makes are dropped. *)
Definition File_Close_deferred (fc : fileCreation) (err : option error)
    (c : Ctx) : Ctx :=
  let werr := fc_err fc in
  match fc_olddoc fc with
  | Some _ =>
      if negb (is_nil err) || negb (is_nil werr) then
        fst (FS_Rename (fc_bakpath fc) (fc_newpath fc) c)
      else
        fst (FS_Remove (fc_bakpath fc) c)
  | None =>
      if negb (is_nil err) || negb (is_nil werr) then
        fst (FS_Remove (fc_newpath fc) c)
      else c
  end.

(** [File.Close] *)
Definition File_Close (f : File Handle) (c : Ctx)
  : Ctx * File Handle * option error :=
  match f_fc f with
  | None =>
      let '(c1, err) := Handle_Close (f_f f) c in
      (c1, f, option_map OsError err)
  | Some fc =>
      let '(c1, fc1, err) := File_Close_body (f_f f) fc c in
      (File_Close_deferred fc1 err c1,
       {| f_f := f_f f; f_fc := Some fc1 |}, err)
  end.

(** *** The metadata mutator *)

(** Modelled from the spec: [normalizeDocPatch] (not among the sources)
    fills every field the patch leaves unset from the current values of
    the document, and checks the result against the creation time.
    [data] holds the current values: file.go sets all its fields. *)
Definition normalizeDocPatch (data : FullPatch) (patch : DocPatch)
    (cdate : Time) : result FullPatch :=
  let full :=
    {| full_Name := default (full_Name data) (patch_Name patch);
       full_DirID := default (full_DirID data) (patch_DirID patch);
       full_RestorePath :=
         default (full_RestorePath data) (patch_RestorePath patch);
       full_Tags := default (full_Tags data) (patch_Tags patch);
       full_UpdatedAt := default (full_UpdatedAt data) (patch_UpdatedAt patch);
       full_Executable :=
         default (full_Executable data) (patch_Executable patch) |} in
  match validatePatch full cdate with
  | Some e => Err e
  | None => Ok full
  end.

(** [ModifyFileMetadata]: the context, the old document (its parent cache
    may have been filled), and the two results [(newdoc, err)]. *)
Definition ModifyFileMetadata (c : Ctx) (olddoc : FileDoc) (patch : DocPatch)
  : Ctx * FileDoc * option FileDoc * option error :=
  let cdate := CreatedAt olddoc in
  let data :=
    {| full_Name := Name olddoc;
       full_DirID := DirID olddoc;
       full_RestorePath := RestorePath olddoc;
       full_Tags := Tags olddoc;
       full_UpdatedAt := UpdatedAt olddoc;
       full_Executable := Executable olddoc |} in
  match normalizeDocPatch data patch cdate with
  | Err e => (c, olddoc, None, Some e)
  | Ok patch =>
  match NewFileDoc (full_Name patch) (full_DirID patch) (Size olddoc)
          (MD5Sum olddoc) (Mime olddoc) (Class_ olddoc) cdate
          (full_Executable patch) (full_Tags patch) with
  | Err e => (c, olddoc, None, Some e)
  | Ok newdoc =>
  let newdoc := set_RestorePath (full_RestorePath patch) newdoc in
  let '(newdoc, parent', err) :=
    if negb (String.eqb (DirID newdoc) (DirID olddoc)) then
      match FileDoc_Parent c newdoc with
      | (newdoc, Ok p) => (newdoc, Some p, None)
      | (newdoc, Err e) => (newdoc, None, Some e)
      end
    else (newdoc, parent olddoc, None) in
  match err with
  | Some e => (c, olddoc, None, Some e)
  | None =>
  let newdoc :=
    set_parent parent'
      (set_UpdatedAt (full_UpdatedAt patch)
         (SetRev (Rev olddoc) (SetID (ID olddoc) newdoc))) in
  let '(olddoc, r) := FileDoc_Path c olddoc in
  match r with
  | Err e => (c, olddoc, None, Some e)
  | Ok oldpath =>
  let '(newdoc, r) := FileDoc_Path c newdoc in
  match r with
  | Err e => (c, olddoc, None, Some e)
  | Ok newpath =>
  let '(c1, err) :=
    if negb (String.eqb newpath oldpath) then
      safeRenameFile oldpath newpath c
    else (c, None) in
  match err with
  | Some e => (c1, olddoc, None, Some e)
  | None =>
  let '(c2, err) :=
    if negb (Bool.eqb (Executable newdoc) (Executable olddoc)) then
      let '(c2, r) :=
        FS_Chmod newpath (getFileMode (Executable newdoc)) c1 in
      (c2, option_map OsError r)
    else (c1, None) in
  match err with
  | Some e => (c2, olddoc, None, Some e)
  | None =>
  let '(c3, newdoc, err) := UpdateDoc newdoc c2 in
  (c3, olddoc, Some newdoc, err)
  end end end end end end end.

(** *** The trash *)

(** Modelled from the spec: [tryOrUseSuffix] (not among the sources) calls
    the operation with the candidate name and, as long as it fails with a
    naming collision, calls it again with the next alternate name made
    from the candidate and the pattern, a bounded number of times. The
    operation acts on the variables [st] its closure has captured. *)
Fixpoint tryOrUseSuffix_from {St : Type} (retries : nat) (n : nat)
    (name format : string) (do : string -> St -> St * option error)
    (st : St) : St * option error :=
  let candidate :=
    match n with
    | O => name
    | _ => suffixedName format name n
    end in
  let '(st1, err) := do candidate st in
  match err with
  | None => (st1, None)
  | Some e =>
      if os_IsExist e then
        match retries with
        | O => (st1, Some e)
        | S retries' =>
            tryOrUseSuffix_from retries' (S n) name format do st1
        end
      else (st1, Some e)
  end.

Definition tryOrUseSuffix {St : Type} (name format : string)
    (do : string -> St -> St * option error) (st : St)
  : St * option error :=
  tryOrUseSuffix_from maxConflictRetries 0 name format do st.

(** The variables the closure of [TrashFile] acts on: the context, the old
    document, and the captured [newdoc] and [err]. *)
Definition TrashVars : Type := Ctx * FileDoc * option FileDoc * option error.

(** The closure [TrashFile] passes to the conflict namer. *)
Definition TrashFile_do (trashDirID restorePath : string) (name : string)
    (st : TrashVars) : TrashVars * option error :=
  let '(c, olddoc, _, _) := st in
  let '(c', olddoc', newdoc, err) :=
    ModifyFileMetadata c olddoc
      {| patch_Name := Some name;
         patch_DirID := Some trashDirID;
         patch_RestorePath := Some restorePath;
         patch_Tags := None;
         patch_UpdatedAt := None;
         patch_Executable := None |} in
  ((c', olddoc', newdoc, err), err).

(** [TrashFile]: the context, the old document, and [(newdoc, err)]. *)
Definition TrashFile (c : Ctx) (olddoc : FileDoc) : TrashVars :=
  let '(olddoc, r) := FileDoc_Path c olddoc in
  match r with
  | Err e => (c, olddoc, None, Some e)
  | Ok oldpath =>
      if strings_HasPrefix oldpath TrashDirName then
        (c, olddoc, None, Some ErrFileInTrash)
      else
        let trashDirID := consts_TrashDirID in
        let restorePath := path.Dir oldpath in
        fst (tryOrUseSuffix (Name olddoc) conflictFormat
               (TrashFile_do trashDirID restorePath)
               (c, olddoc, None, None))
  end.

(** [DestroyFile]: the error is returned, the document's parent cache is
    not. *)
Definition DestroyFile (c : Ctx) (doc : FileDoc) : Ctx * option error :=
  let '(doc, r) := FileDoc_Path c doc in
  match r with
  | Err e => (c, Some e)
  | Ok path =>
      let '(c1, err) := FS_Remove path c in
      match err with
      | Some e => (c1, Some (OsError e))
      | None => DeleteDoc doc c1
      end
  end.
End Operations.

(** ** An in-memory instance

    A content store and a metadata store held in finite maps, on which the
    operations run: a file system with a per-file capacity (a write beyond
    it is cut short with ENOSPC) and with paths that cannot be examined
    (EACCES), and a database with revision checks that can be offline. *)

Module Mem.

Record MemFile := {
  content : bytes;
  mode : FileMode;
}.

Record MemFS := {
  files : gmap string MemFile;
  capacity : Z;
  unreadable : list string;
}.

Definition with_files (m : gmap string MemFile) (s : MemFS) : MemFS :=
  {| files := m; capacity := capacity s; unreadable := unreadable s |}.

Definition mem_elem (p : string) (l : list string) : bool :=
  existsb (String.eqb p) l.

Definition Stat (name : string) (s : MemFS) : option os_error :=
  if mem_elem name (unreadable s) then Some (os_PathError "stat" name EACCES)
  else match files s !! name with
       | Some _ => None
       | None => Some (os_PathError "stat" name ENOENT)
       end.

(** As rename(2): an existing destination is replaced. *)
Definition Rename (oldname newname : string) (s : MemFS)
  : MemFS * option os_error :=
  if mem_elem oldname (unreadable s) then
    (s, Some (os_PathError "rename" oldname EACCES))
  else if mem_elem newname (unreadable s) then
    (s, Some (os_PathError "rename" newname EACCES))
  else
    match files s !! oldname with
    | Some f =>
        (with_files (<[newname := f]> (delete oldname (files s))) s, None)
    | None => (s, Some (os_PathError "rename" oldname ENOENT))
    end.

Definition Remove (name : string) (s : MemFS) : MemFS * option os_error :=
  if mem_elem name (unreadable s) then
    (s, Some (os_PathError "remove" name EACCES))
  else
    match files s !! name with
    | Some _ => (with_files (delete name (files s)) s, None)
    | None => (s, Some (os_PathError "remove" name ENOENT))
    end.

Definition Chmod (name : string) (m : FileMode) (s : MemFS)
  : MemFS * option os_error :=
  if mem_elem name (unreadable s) then
    (s, Some (os_PathError "chmod" name EACCES))
  else
    match files s !! name with
    | Some f =>
        (with_files
           (<[name := {| content := content f; mode := m |}]> (files s)) s,
         None)
    | None => (s, Some (os_PathError "chmod" name ENOENT))
    end.

(** The handle of an open file is its name. *)
Definition OpenFile (name : string) (flag : Z) (m : FileMode) (s : MemFS)
  : MemFS * (os_error + string) :=
  if mem_elem name (unreadable s) then
    (s, inl (os_PathError "open" name EACCES))
  else
    match files s !! name with
    | Some _ =>
        if Z.testbit flag 7 (* O_EXCL *) then
          (s, inl (os_PathError "open" name EEXIST))
        else (s, inr name)
    | None =>
        if Z.testbit flag 6 (* O_CREATE *) then
          (with_files (<[name := {| content := []; mode := m |}]> (files s)) s,
           inr name)
        else (s, inl (os_PathError "open" name ENOENT))
    end.

Definition Write (h : string) (p : bytes) (s : MemFS)
  : MemFS * (Z * option os_error) :=
  match files s !! h with
  | None => (s, (0, Some (os_PathError "write" h EBADF)))
  | Some f =>
      let room := Z.to_nat (capacity s - Z.of_nat (length (content f))) in
      let q := firstn room p in
      let f' := {| content := (content f ++ q)%list; mode := mode f |} in
      (with_files (<[h := f']> (files s)) s,
       (Z.of_nat (length q),
        if (length p <=? room)%nat then None
        else Some (os_PathError "write" h ENOSPC)))
  end.

Definition Close (h : string) (s : MemFS) : MemFS * option os_error :=
  (s, None).

#[export] Instance store : ContentStore MemFS string := {
  afero_Stat := Stat;
  afero_Rename := Rename;
  afero_Remove := Remove;
  afero_Chmod := Chmod;
  afero_OpenFile := OpenFile;
  afero_File_Write := Write;
  afero_File_Close := Close;
}.

Record MemDB := {
  docs : gmap string FileDoc;
  dirs : gmap string DirDoc;
  seq : nat;
  online : bool;
}.

Definition with_docs (m : gmap string FileDoc) (d : MemDB) : MemDB :=
  {| docs := m; dirs := dirs d; seq := S (seq d); online := online d |}.

Definition decimal (n : nat) : string :=
  NilEmpty.string_of_uint (Nat.to_uint n).

Definition unavailable : couchdb_Error :=
  {| StatusCode := 503; Reason := "service_unavailable" |}.
Definition conflict : couchdb_Error :=
  {| StatusCode := 409; Reason := "conflict" |}.
Definition not_found : couchdb_Error :=
  {| StatusCode := 404; Reason := "not_found" |}.
Definition bad_request : couchdb_Error :=
  {| StatusCode := 400; Reason := "bad_request" |}.

Definition mem_CreateDoc (doc : FileDoc) (d : MemDB)
  : MemDB * (couchdb_Error + string * string) :=
  if negb (online d) then (d, inl unavailable)
  else if negb (String.eqb (DocID doc) "") then (d, inl bad_request)
  else
    let id := "id" ++ decimal (seq d) in
    let rev := "1-" ++ decimal (seq d) in
    (with_docs (<[id := SetRev rev (SetID id doc)]> (docs d)) d,
     inr (id, rev)).

Definition mem_UpdateDoc (doc : FileDoc) (d : MemDB)
  : MemDB * (couchdb_Error + string) :=
  if negb (online d) then (d, inl unavailable)
  else match docs d !! DocID doc with
       | None => (d, inl not_found)
       | Some cur =>
           if String.eqb (DocRev cur) (DocRev doc) then
             let rev := "n-" ++ decimal (seq d) in
             (with_docs (<[DocID doc := SetRev rev doc]> (docs d)) d, inr rev)
           else (d, inl conflict)
       end.

Definition mem_DeleteDoc (doc : FileDoc) (d : MemDB)
  : MemDB * option couchdb_Error :=
  if negb (online d) then (d, Some unavailable)
  else match docs d !! DocID doc with
       | None => (d, Some not_found)
       | Some cur =>
           if String.eqb (DocRev cur) (DocRev doc) then
             (with_docs (delete (DocID doc) (docs d)) d, None)
           else (d, Some conflict)
       end.

#[export] Instance database : MetadataStore MemDB := {
  couchdb_CreateDoc := mem_CreateDoc;
  couchdb_UpdateDoc := mem_UpdateDoc;
  couchdb_DeleteDoc := mem_DeleteDoc;
}.

Definition RootDirID : string := "io.cozy.files.root-dir".
Definition TrashDirID : string := "io.cozy.files.trash-dir".

Definition mem_getParentDir (c : Context MemFS MemDB) (cached : option DirDoc)
    (dirID : string) : result DirDoc :=
  match cached with
  | Some p =>
      if String.eqb (dir_DocID p) dirID then Ok p
      else match dirs (db c) !! dirID with
           | Some p' => Ok p'
           | None => Err (OsError os_ErrNotExist)
           end
  | None =>
      match dirs (db c) !! dirID with
      | Some p' => Ok p'
      | None => Err (OsError os_ErrNotExist)
      end
  end.

(** The path of a directory: the join of its ancestors' names, by a walk
    to the root of bounded depth. *)
Fixpoint dirPath (depth : nat) (m : gmap string DirDoc) (d : DirDoc)
  : result string :=
  if String.eqb (dir_DocID d) RootDirID then Ok "/"
  else
    match depth with
    | O => Err (ErrVfs "ErrParentDoesNotExist")
    | S depth' =>
        match m !! dir_DirID d with
        | None => Err (OsError os_ErrNotExist)
        | Some p =>
            match dirPath depth' m p with
            | Ok pp => Ok (path.Join pp (dir_Name d))
            | Err e => Err e
            end
        end
    end.

Definition mem_DirDoc_Path (d : DirDoc) (c : Context MemFS MemDB)
  : result string :=
  dirPath 64 (dirs (db c)) d.

Definition mem_checkFileName (name : string) : option error :=
  if String.eqb name "" || path.has_slash name then
    Some (ErrVfs "ErrIllegalFilename")
  else None.

Fixpoint mem_uniqueTags (tags : list string) : list string :=
  match tags with
  | [] => []
  | t :: tags' =>
      t :: filter (fun x => negb (String.eqb x t)) (mem_uniqueTags tags')
  end.

Definition mem_validatePatch (p : FullPatch) (cdate : Time) : option error :=
  if full_UpdatedAt p <? cdate then Some (ErrVfs "ErrIllegalTime") else None.

(** [fmt.Sprintf] for a format whose only verbs are [%s]. *)
Fixpoint sprintf_s (format : string) (args : list string) : string :=
  match format with
  | String "%" (String "s" rest) =>
      match args with
      | a :: args' => a ++ sprintf_s rest args'
      | [] => "%!s(MISSING)" ++ sprintf_s rest []
      end
  | String c rest => String c (sprintf_s rest args)
  | EmptyString => ""
  end.

Definition mem_suffixedName (format name : string) (n : nat) : string :=
  sprintf_s format [name; decimal n].

(** A 16-byte checksum standing for the MD5 digest. *)
Definition checksum (b : bytes) : bytes :=
  let total := fold_left (fun acc x => (acc * 31 + Byte.to_N x) mod 65521)%N b 7%N in
  let lo := default x00 (Byte.of_N (total mod 256)%N) in
  let hi := default x00 (Byte.of_N (total / 256)%N) in
  [hi; lo; hi; lo; hi; lo; hi; lo; hi; lo; hi; lo; hi; lo; hi; lo].

#[export] Instance package : Package MemFS MemDB := {
  consts_RootDirID := RootDirID;
  consts_TrashDirID := TrashDirID;
  consts_FileType := "file";
  TrashDirName := "/.cozy_trash";
  conflictFormat := "%s (__cozy__: %s)";
  checkFileName := mem_checkFileName;
  uniqueTags := mem_uniqueTags;
  getParentDir := mem_getParentDir;
  DirDoc_Path := mem_DirDoc_Path;
  validatePatch := mem_validatePatch;
  suffixedName := mem_suffixedName;
  maxConflictRetries := 1000;
  md5_Sum := checksum;
}.

Definition rootDir : DirDoc :=
  {| dir_DocID := RootDirID; dir_DocRev := "1-root"; dir_Name := "";
     dir_DirID := ""; dir_CreatedAt := 0; dir_UpdatedAt := 0;
     dir_Tags := [] |}.

Definition trashDir : DirDoc :=
  {| dir_DocID := TrashDirID; dir_DocRev := "1-trash";
     dir_Name := ".cozy_trash"; dir_DirID := RootDirID;
     dir_CreatedAt := 0; dir_UpdatedAt := 0; dir_Tags := [] |}.

(** A fresh instance: no file, the root and the trash directories. *)
Definition init : Context MemFS MemDB :=
  {| fs := {| files := ∅; capacity := 1000; unreadable := [] |};
     db := {| docs := ∅;
              dirs := <[TrashDirID := trashDir]> (<[RootDirID := rootDir]> ∅);
              seq := 1; online := true |};
     calls := [] |}.

End Mem.

(** ** A scenario on the in-memory instance: the file /a.txt *)

Module Scenario.
Import Mem.

Abbreviation Ctx := (Context MemFS MemDB).

Definition hello : bytes := [x68; x65; x6c; x6c; x6f].

(** A new document for a.txt in the root directory, with the size and the
    digest the caller declares. *)
Definition doc_a (size : Z) (md5 : slice) : FileDoc :=
  {| Type_ := "file"; DocID := ""; DocRev := ""; Name := "a.txt";
     DirID := RootDirID; RestorePath := ""; CreatedAt := 5; UpdatedAt := 5;
     Size := size; MD5Sum := md5; Mime := "text/plain"; Class_ := "text";
     Executable := false; Tags := []; ReferencedBy := []; parent := None |}.

(** Nothing declared; the right size and digest; a wrong digest; a wrong
    size. *)
Definition doc_unset : FileDoc := doc_a (-1) None.
Definition doc_right : FileDoc := doc_a 5 (Some (checksum hello)).
Definition doc_badhash : FileDoc := doc_a 5 (Some [x00; x01]).
Definition doc_badsize : FileDoc := doc_a 12 None.

(** Creation of a handle and one write. *)
Definition stage (now : Time) (doc : FileDoc) (old : option FileDoc)
    (data : bytes) (c : Ctx) : option (Ctx * File string) :=
  match CreateFile now doc old c with
  | (c1, Ok f) => let '(c2, f2, _) := File_Write f data c1 in Some (c2, f2)
  | (_, Err _) => None
  end.

(** The handle over /a.txt once [hello] has been written, and the
    context then. *)
Definition fc_a (doc : FileDoc) : fileCreation :=
  {| fc_w := 5; fc_newdoc := doc; fc_olddoc := None;
     fc_newpath := "/a.txt"; fc_bakpath := "";
     fc_checkHash := negb (is_nil (MD5Sum doc)); fc_hash := hello;
     fc_err := None |}.

Definition file_a (doc : FileDoc) : File string :=
  {| f_f := "/a.txt"; f_fc := Some (fc_a doc) |}.

Definition ctx_written : Ctx :=
  {| fs := {| files := {["/a.txt" := {| content := hello; mode := 420 |}]};
              capacity := 1000; unreadable := [] |};
     db := db init;
     calls := [EvOpenFile "/a.txt" 193 420; EvWrite hello] |}.

(** The same with the database offline. *)
Definition ctx_offline : Ctx :=
  {| fs := fs ctx_written;
     db := {| docs := docs (db init); dirs := dirs (db init);
              seq := seq (db init); online := false |};
     calls := calls ctx_written |}.

(** The context once the handle is closed, and the document stored. *)
Definition ctx_stored : Ctx := fst (fst (File_Close (file_a doc_unset) ctx_written)).

Definition stored_a : FileDoc :=
  {| Type_ := "file"; DocID := "id1"; DocRev := "1-1"; Name := "a.txt";
     DirID := RootDirID; RestorePath := ""; CreatedAt := 5; UpdatedAt := 5;
     Size := 5; MD5Sum := Some (checksum hello); Mime := "text/plain";
     Class_ := "text"; Executable := false; Tags := []; ReferencedBy := [];
     parent := None |}.

(** A fresh instance whose files hold three bytes at most. *)
Definition ctx_small : Ctx :=
  {| fs := {| files := ∅; capacity := 3; unreadable := [] |};
     db := db init; calls := [] |}.

(** The handle over /a.txt as [CreateFile] returns it there, the context
    then, and both after the write of [hello] was cut short. *)
Definition file_created : File string :=
  {| f_f := "/a.txt";
     f_fc := Some {| fc_w := 0; fc_newdoc := doc_unset; fc_olddoc := None;
                     fc_newpath := "/a.txt"; fc_bakpath := "";
                     fc_checkHash := false; fc_hash := []; fc_err := None |} |}.

Definition ctx_created_small : Ctx :=
  {| fs := {| files := {["/a.txt" := {| content := []; mode := 420 |}]};
              capacity := 3; unreadable := [] |};
     db := db init;
     calls := [EvOpenFile "/a.txt" 193 420] |}.

Definition enospc : os_error := os_PathError "write" "/a.txt" ENOSPC.

Definition fc_short : fileCreation :=
  {| fc_w := 0; fc_newdoc := doc_unset; fc_olddoc := None;
     fc_newpath := "/a.txt"; fc_bakpath := "";
     fc_checkHash := false; fc_hash := [];
     fc_err := Some (OsError enospc) |}.

Definition file_short : File string :=
  {| f_f := "/a.txt"; f_fc := Some fc_short |}.

Definition ctx_short : Ctx :=
  {| fs := {| files := {["/a.txt" := {| content := [x68; x65; x6c];
                                        mode := 420 |}]};
              capacity := 3; unreadable := [] |};
     db := db init;
     calls := [EvOpenFile "/a.txt" 193 420; EvWrite hello] |}.

(** The replacement of the stored /a.txt: the handle [CreateFile] returns
    at time 20, and the context then. *)
Definition fc_replace : fileCreation :=
  {| fc_w := 0;
     fc_newdoc :=
       {| Type_ := "file"; DocID := "id1"; DocRev := "1-1"; Name := "a.txt";
          DirID := RootDirID; RestorePath := ""; CreatedAt := 5;
          UpdatedAt := 20; Size := -1; MD5Sum := None;
          Mime := "text/plain"; Class_ := "text"; Executable := false;
          Tags := []; ReferencedBy := []; parent := None |};
     fc_olddoc := Some stored_a;
     fc_newpath := "/a.txt"; fc_bakpath := "/.id1_1-1";
     fc_checkHash := false; fc_hash := []; fc_err := None |}.

Definition file_replace : File string :=
  {| f_f := "/a.txt"; f_fc := Some fc_replace |}.

Definition ctx_replacing : Ctx :=
  fst (CreateFile 20 doc_unset (Some stored_a) ctx_stored).

(** The stored document as a writer holds it who missed a revision, and
    the replacement of /a.txt by [world] from it, up to the close. *)
Definition stale_a : FileDoc := SetRev "0-9" stored_a.

Definition world : bytes := [x77; x6f; x72; x6c; x64].

Definition stale_replace : option (Ctx * File string) :=
  stage 20 doc_unset (Some stale_a) world ctx_stored.

(** /a.txt stored, /b.txt in a directory that cannot be searched. *)
Definition ctx_unreadable : Ctx :=
  {| fs := {| files := files (fs ctx_stored); capacity := 1000;
              unreadable := ["/b.txt"] |};
     db := db ctx_stored; calls := [] |}.

(** The document of /a.txt once trashed. *)
Definition trashed_a : FileDoc :=
  {| Type_ := "file"; DocID := "id1"; DocRev := "n-2"; Name := "a.txt";
     DirID := TrashDirID; RestorePath := "/"; CreatedAt := 5; UpdatedAt := 5;
     Size := 5; MD5Sum := Some (checksum hello); Mime := "text/plain";
     Class_ := "text"; Executable := false; Tags := []; ReferencedBy := [];
     parent := Some trashDir |}.

(** /a.txt trashed, and a second /a.txt stored. *)
Definition ctx_trashed : Ctx := fst (fst (fst (TrashFile ctx_stored stored_a))).

Definition ctx_second : Ctx :=
  match stage 30 doc_unset None hello ctx_trashed with
  | Some (c, f) => fst (fst (File_Close f c))
  | None => ctx_trashed
  end.

Definition second_a : FileDoc :=
  {| Type_ := "file"; DocID := "id3"; DocRev := "1-3"; Name := "a.txt";
     DirID := RootDirID; RestorePath := ""; CreatedAt := 5; UpdatedAt := 5;
     Size := 5; MD5Sum := Some (checksum hello); Mime := "text/plain";
     Class_ := "text"; Executable := false; Tags := []; ReferencedBy := [];
     parent := None |}.
End Scenario.

(** ** What the properties are stated with *)

(** A path lies under a directory when it is the directory or continues it
    after a slash. *)
Definition lies_under (dir p : string) : Prop :=
  p = dir \/ exists rest, p = dir ++ "/" ++ rest.

(** An element that [path.Clean] keeps as it is: no slash, and neither
    empty nor a dot nor two dots. *)
Definition plain_element (e : string) : Prop :=
  path.has_slash e = false /\ e <> "" /\ e <> "." /\ e <> "..".

Section Statements.
Context {FS DB Handle : Type}.
Context {CS : ContentStore FS Handle} {MS : MetadataStore DB}
  {Pkg : Package FS DB}.

Abbreviation Ctx := (Context FS DB).

(** The calls made between two contexts. *)
Definition calls_since (c c' : Ctx) : list Event :=
  skipn (length (calls c)) (calls c').

(** The digest validation of [File.Close]: a declared digest equals the
    computed one. *)
Definition digest_valid (fc : fileCreation) : Prop :=
  fc_checkHash fc = true ->
  slice_bytes (MD5Sum (fc_newdoc fc)) = md5_Sum (fc_hash fc).

(** The size validation of [File.Close]: a declared size equals the
    measured one. *)
Definition size_valid (fc : fileCreation) : Prop :=
  Size (fc_newdoc fc) < 0 \/ Size (fc_newdoc fc) = fc_w fc.

(** The new document as [File.Close] completes it before the commit: a
    negative size and a nil digest are replaced by the measured ones. *)
Definition completed_newdoc (fc : fileCreation) : FileDoc :=
  let d := fc_newdoc fc in
  let d := if Size d <? 0 then set_Size (fc_w fc) d else d in
  if is_nil (MD5Sum d) then set_MD5Sum (Some (md5_Sum (fc_hash fc))) d
  else d.

(** The answer of the metadata store to the commit of [File.Close]. *)
Definition commit_error (fc : fileCreation) (d : DB) : option couchdb_Error :=
  match fc_olddoc fc with
  | Some _ =>
      match snd (couchdb_UpdateDoc (completed_newdoc fc) d) with
      | inl e => Some e
      | inr _ => None
      end
  | None =>
      match snd (couchdb_CreateDoc (completed_newdoc fc) d) with
      | inl e => Some e
      | inr _ => None
      end
  end.

(** The metadata store after the commit of [File.Close]. *)
Definition commit_db (fc : fileCreation) (d : DB) : DB :=
  match fc_olddoc fc with
  | Some _ => fst (couchdb_UpdateDoc (completed_newdoc fc) d)
  | None => fst (couchdb_CreateDoc (completed_newdoc fc) d)
  end.

(** The call of the commit of [File.Close]. *)
Definition commit_call (fc : fileCreation) : Event :=
  match fc_olddoc fc with
  | Some _ => EvUpdateDoc (completed_newdoc fc)
  | None => EvCreateDoc (completed_newdoc fc)
  end.

(** The two validations as [File.Close] tests them. *)
Definition digest_test (fc : fileCreation) : bool :=
  fc_checkHash fc
  && negb (bytes_Equal (MD5Sum (fc_newdoc fc)) (Some (md5_Sum (fc_hash fc)))).

Definition size_test (fc : fileCreation) : bool :=
  negb (Size (completed_newdoc fc) =? fc_w fc).

(** The context after the underlying close. *)
Definition closed (h : Handle) (c : Ctx) : Ctx :=
  called EvClose (fst (afero_File_Close h (fs c))) (db c) c.

(** The context after the commit. *)
Definition committed (h : Handle) (fc : fileCreation) (c : Ctx) : Ctx :=
  called (commit_call fc) (fs (closed h c)) (commit_db fc (db c)) (closed h c).

(** The calls of the function [File.Close] defers. *)
Definition cleanup_calls (fc : fileCreation) (err : option error)
  : list Event :=
  match fc_olddoc fc with
  | Some _ =>
      if negb (is_nil err) || negb (is_nil (fc_err fc)) then
        [EvRename (fc_bakpath fc) (fc_newpath fc)]
      else [EvRemove (fc_bakpath fc)]
  | None =>
      if negb (is_nil err) || negb (is_nil (fc_err fc)) then
        [EvRemove (fc_newpath fc)]
      else []
  end.

(** A content store in which a removal that succeeds leaves nothing at
    the path. *)
Definition Remove_removes : Prop :=
  forall (name : string) (s : FS),
    snd (afero_Remove name s) = None ->
    exists e, afero_Stat name (fst (afero_Remove name s)) = Some e
              /\ os_error_IsNotExist e = true.

(** The name the conflict namer tries at its [n]-th call. *)
Definition candidate (name format : string) (n : nat) : string :=
  match n with
  | O => name
  | _ => suffixedName format name n
  end.

(** The patch [TrashFile] applies under a name. *)
Definition trash_patch (name restorePath : string) : DocPatch :=
  {| patch_Name := Some name;
     patch_DirID := Some consts_TrashDirID;
     patch_RestorePath := Some restorePath;
     patch_Tags := None;
     patch_UpdatedAt := None;
     patch_Executable := None |}.

(** C4 as the specification states it: when the underlying close and the
    validations succeed and the commit fails, [File.Close] returns the
    commit error and the content store is left as the underlying close
    left it, the new content at its target path. *)
Definition commit_failure_leaves_content (f : File Handle) (c : Ctx) : Prop :=
  forall fc e,
    f_fc f = Some fc ->
    snd (afero_File_Close (f_f f) (fs c)) = None ->
    digest_valid fc -> size_valid fc ->
    commit_error fc (db c) = Some e ->
    snd (File_Close f c) = Some (CouchError e)
    /\ fs (fst (fst (File_Close f c))) = fst (afero_File_Close (f_f f) (fs c))
    /\ afero_Stat (fc_newpath fc) (fs (fst (fst (File_Close f c)))) = None.

(** C9 as the specification states it: [safeRenameFile] has three cases
    only, and whenever the new path is not found occupied it returns the
    result of the store's rename. *)
Definition safeRenameFile_three_cases (oldpath newpath : string) (c : Ctx)
  : Prop :=
  let n := path.Clean newpath in
  let o := path.Clean oldpath in
  let c' := fst (safeRenameFile oldpath newpath c) in
  let err := snd (safeRenameFile oldpath newpath c) in
  if negb (path.IsAbs n) || negb (path.IsAbs o) then
    err = Some ErrNonAbsolutePath
  else
    match afero_Stat n (fs c) with
    | None => err = Some (OsError os_ErrExist)
    | Some _ =>
        In (EvRename o n) (calls_since c c')
        /\ err = option_map OsError (snd (afero_Rename o n (fs c)))
    end.
End Statements.

(** ** Further operations of file.go *)

(** Reading from the content store: [afero.Fs.Open] and the [Read] and
    [Seek] of the handles it opens. A read returns the bytes it has put in
    the buffer, a seek the new offset. *)
Class ContentReader (FS Handle : Type) := {
  afero_Open : string -> FS -> FS * (os_error + Handle);
  afero_File_Read : Handle -> nat -> FS -> FS * (bytes * option os_error);
  afero_File_Seek : Handle -> Z -> Z -> FS -> FS * (Z * option os_error);
}.

(** What [RestoreFile] takes from the other files of package vfs. *)
Class PackageRestore (FS DB : Type) := {
  conflictSuffix : string;
  stripSuffix : string -> string -> string;
  (** the directory to restore into, from the path of the file and its
      restore path *)
  getRestoreDir : Context FS DB -> string -> string -> result DirDoc;
}.

Definition set_ReferencedBy (l : list ResourceIdentifier) (f : FileDoc)
  : FileDoc :=
  {| Type_ := Type_ f; DocID := DocID f; DocRev := DocRev f; Name := Name f;
     DirID := DirID f; RestorePath := RestorePath f; CreatedAt := CreatedAt f;
     UpdatedAt := UpdatedAt f; Size := Size f; MD5Sum := MD5Sum f;
     Mime := Mime f; Class_ := Class_ f; Executable := Executable f;
     Tags := Tags f; ReferencedBy := l; parent := parent f |}.

(** [FileDoc.AddReferencedBy] *)
Definition AddReferencedBy (ri : list ResourceIdentifier) (f : FileDoc)
  : FileDoc :=
  set_ReferencedBy (ReferencedBy f ++ ri)%list f.

Section Reading.
Context {FS DB Handle : Type}.
Context {CS : ContentStore FS Handle} {CR : ContentReader FS Handle}
  {MS : MetadataStore DB} {Pkg : Package FS DB}.

Abbreviation Ctx := (Context FS DB).

(** [Open]: a handle for reading. The calls of the reading side ([Open],
    [Read], [Seek]) are not recorded: the record holds the calls that can
    change a store. *)
Definition Open (c : Ctx) (doc : FileDoc) : Ctx * result (File Handle) :=
  let '(doc, r) := FileDoc_Path c doc in
  match r with
  | Err e => (c, Err e)
  | Ok name =>
      let '(s, r) := afero_Open name (fs c) in
      let c1 := {| fs := s; db := db c; calls := calls c |} in
      match r with
      | inl e => (c1, Err (OsError e))
      | inr f => (c1, Ok {| f_f := f; f_fc := None |})
      end
  end.

(** [File.Read] into a buffer of [len] bytes: the bytes read, their number
    and the error. *)
Definition File_Read (f : File Handle) (len : nat) (c : Ctx)
  : Ctx * (bytes * Z * option error) :=
  match f_fc f with
  | Some _ => (c, ([], 0, Some (OsError os_ErrInvalid)))
  | None =>
      let '(s, (data, err)) := afero_File_Read (f_f f) len (fs c) in
      ({| fs := s; db := db c; calls := calls c |},
       (data, Z.of_nat (length data), option_map OsError err))
  end.

(** [File.Seek] *)
Definition File_Seek (f : File Handle) (offset whence : Z) (c : Ctx)
  : Ctx * (Z * option error) :=
  match f_fc f with
  | Some _ => (c, (0, Some (OsError os_ErrInvalid)))
  | None =>
      let '(s, (n, err)) := afero_File_Seek (f_f f) offset whence (fs c) in
      ({| fs := s; db := db c; calls := calls c |},
       (n, option_map OsError err))
  end.
End Reading.

Section Restoring.
Context {FS DB Handle : Type}.
Context {CS : ContentStore FS Handle} {MS : MetadataStore DB}
  {Pkg : Package FS DB} {PkgR : PackageRestore FS DB}.

Abbreviation Ctx := (Context FS DB).


End Restoring.

Section WriteSequences.
Context {FS DB Handle : Type}.
Context {CS : ContentStore FS Handle} {MS : MetadataStore DB}
  {Pkg : Package FS DB}.

Abbreviation Ctx := (Context FS DB).

(** A caller that writes buffers one after the other and stops at the
    first error, as [io.Copy] does. *)
Fixpoint File_Write_each (f : File Handle) (ps : list bytes) (c : Ctx)
  : Ctx * File Handle * option error :=
  match ps with
  | [] => (c, f, None)
  | p :: ps' =>
      let '(c1, f1, (_, err)) := File_Write f p c in
      match err with
      | Some e => (c1, f1, Some e)
      | None => File_Write_each f1 ps' c1
      end
  end.

(** Every write of the sequence is carried out in full by the store. *)
Fixpoint all_written (f : File Handle) (ps : list bytes) (c : Ctx) : Prop :=
  match ps with
  | [] => True
  | p :: ps' =>
      snd (File_Write f p c) = (Z.of_nat (length p), None)
      /\ all_written (snd (fst (File_Write f p c))) ps'
           (fst (fst (File_Write f p c)))
  end.

(** A caller that goes on writing whatever the writes return. *)
Fixpoint File_Write_all (f : File Handle) (ps : list bytes) (c : Ctx)
  : Ctx * File Handle :=
  match ps with
  | [] => (c, f)
  | p :: ps' =>
      let '(c1, f1, _) := File_Write f p c in
      File_Write_all f1 ps' c1
  end.

(** The call that rolls a failed write back: the backup is renamed back
    over the target, or the created target is removed. *)
Definition rollback_call (fc : fileCreation) : Event :=
  match fc_olddoc fc with
  | Some _ => EvRename (fc_bakpath fc) (fc_newpath fc)
  | None => EvRemove (fc_newpath fc)
  end.

(** A call that writes to the metadata store. The look-ups of directories
    behind [getParentDir] and [DirDoc_Path] read it and are not among the
    recorded calls. *)
Definition is_db_call (ev : Event) : bool :=
  match ev with
  | EvCreateDoc _ | EvUpdateDoc _ | EvDeleteDoc _ => true
  | _ => false
  end.

(** The patch as [ModifyFileMetadata] completes it from the old document. *)
Definition completed_patch (olddoc : FileDoc) (patch : DocPatch) : FullPatch :=
  {| full_Name := default (Name olddoc) (patch_Name patch);
     full_DirID := default (DirID olddoc) (patch_DirID patch);
     full_RestorePath := default (RestorePath olddoc) (patch_RestorePath patch);
     full_Tags := default (Tags olddoc) (patch_Tags patch);
     full_UpdatedAt := default (UpdatedAt olddoc) (patch_UpdatedAt patch);
     full_Executable := default (Executable olddoc) (patch_Executable patch) |}.

(** The document [ModifyFileMetadata] makes of the old document and the
    completed patch, its parent cache left aside. *)
Definition patched_doc (olddoc : FileDoc) (full : FullPatch) : FileDoc :=
  {| Type_ := consts_FileType; DocID := DocID olddoc; DocRev := DocRev olddoc;
     Name := full_Name full;
     DirID := if String.eqb (full_DirID full) "" then consts_RootDirID
              else full_DirID full;
     RestorePath := full_RestorePath full;
     CreatedAt := CreatedAt olddoc; UpdatedAt := full_UpdatedAt full;
     Size := Size olddoc; MD5Sum := MD5Sum olddoc; Mime := Mime olddoc;
     Class_ := Class_ olddoc; Executable := full_Executable full;
     Tags := uniqueTags (full_Tags full); ReferencedBy := [];
     parent := None |}.

(** The calls of the safe rename and of the change of mode that
    [ModifyFileMetadata] makes between two paths. *)
Definition rename_calls (oldpath newpath : string) : list Event :=
  if negb (String.eqb newpath oldpath) then
    [EvStat (path.Clean newpath);
     EvRename (path.Clean oldpath) (path.Clean newpath)]
  else [].

Definition chmod_calls (newpath : string) (olddoc newdoc : FileDoc)
  : list Event :=
  if negb (Bool.eqb (Executable newdoc) (Executable olddoc)) then
    [EvChmod newpath (getFileMode (Executable newdoc))]
  else [].

(** A patch that leaves the name, the directory and the executable bit as
    they are. *)
Definition metadata_only (patch : DocPatch) : Prop :=
  patch_Name patch = None /\ patch_DirID patch = None
  /\ patch_Executable patch = None.
End WriteSequences.

(** ** Reading and restoring on the in-memory instance *)

Module MemReading.
Import Mem.

Definition mem_Open (name : string) (s : MemFS) : MemFS * (os_error + string) :=
  if mem_elem name (unreadable s) then
    (s, inl (os_PathError "open" name EACCES))
  else
    match files s !! name with
    | Some _ => (s, inr name)
    | None => (s, inl (os_PathError "open" name ENOENT))
    end.

(** The handle of an open file is its name, and holds no offset: a read
    starts at the beginning of the content. *)
Definition mem_Read (h : string) (len : nat) (s : MemFS)
  : MemFS * (bytes * option os_error) :=
  match files s !! h with
  | Some f => (s, (firstn len (content f), None))
  | None => (s, ([], Some (os_PathError "read" h EBADF)))
  end.

Definition mem_Seek (h : string) (offset whence : Z) (s : MemFS)
  : MemFS * (Z * option os_error) :=
  match files s !! h with
  | Some _ => (s, (offset, None))
  | None => (s, (0, Some (os_PathError "seek" h EBADF)))
  end.

#[export] Instance reader : ContentReader MemFS string := {
  afero_Open := mem_Open;
  afero_File_Read := mem_Read;
  afero_File_Seek := mem_Seek;
}.

(** The name up to the last occurrence of the suffix. *)
Fixpoint cut_last (name suffix : string) : option string :=
  match name with
  | EmptyString => if String.prefix suffix "" then Some "" else None
  | String a rest =>
      match cut_last rest suffix with
      | Some r => Some (String a r)
      | None => if String.prefix suffix name then Some "" else None
      end
  end.

Definition mem_stripSuffix (name suffix : string) : string :=
  default name (cut_last name suffix).

(** The directory of a path: the root directory, or the first directory of
    the database whose path it is. *)
Definition dirFromPath (c : Context MemFS MemDB) (p : string)
  : result DirDoc :=
  match
    List.find
      (fun d => match mem_DirDoc_Path d c with
                | Ok q => String.eqb q p
                | Err _ => false
                end)
      (map snd (map_to_list (dirs (db c))))
  with
  | Some d => Ok d
  | None => Err (OsError os_ErrNotExist)
  end.

Definition mem_getRestoreDir (c : Context MemFS MemDB)
    (name restorePath : string) : result DirDoc :=
  if negb (strings_HasPrefix name "/.cozy_trash") then
    Err (ErrVfs "ErrFileNotInTrash")
  else dirFromPath c restorePath.

#[export] Instance restoring : PackageRestore MemFS MemDB := {
  conflictSuffix := " (__cozy__: ";
  stripSuffix := mem_stripSuffix;
  getRestoreDir := mem_getRestoreDir;
}.

(** A document that an album references. *)
Definition album : ResourceIdentifier :=
  {| ri_ID := "album1"; ri_Type := "io.cozy.photos.albums" |}.

(** The patches of a rename of /a.txt, and of new tags for it. *)
Definition rename_b : DocPatch :=
  {| patch_Name := Some "b.txt"; patch_DirID := None;
     patch_RestorePath := None; patch_Tags := None;
     patch_UpdatedAt := None; patch_Executable := None |}.

Definition retag : DocPatch :=
  {| patch_Name := None; patch_DirID := None; patch_RestorePath := None;
     patch_Tags := Some ["x"; "y"; "x"]; patch_UpdatedAt := Some 9;
     patch_Executable := None |}.
End MemReading.

(** ** A scenario on the in-memory instance: a file beside the trash *)

Module BesideTrash.
Import Mem Scenario.

(** A new document for .cozy_trash_notes.txt in the root directory: its
    name begins as the name of the trash directory does. *)
Definition doc_notes : FileDoc :=
  {| Type_ := "file"; DocID := ""; DocRev := "";
     Name := ".cozy_trash_notes.txt"; DirID := RootDirID; RestorePath := "";
     CreatedAt := 5; UpdatedAt := 5; Size := -1; MD5Sum := None;
     Mime := "text/plain"; Class_ := "text"; Executable := false;
     Tags := []; ReferencedBy := []; parent := None |}.

(** The context once the file has been created with the content [hello]
    and closed, and the document stored then. *)
Definition ctx_notes : Scenario.Ctx :=
  match stage 10 doc_notes None hello init with
  | Some (c, f) => fst (fst (File_Close f c))
  | None => init
  end.

Definition stored_notes : FileDoc :=
  {| Type_ := "file"; DocID := "id1"; DocRev := "1-1";
     Name := ".cozy_trash_notes.txt"; DirID := RootDirID; RestorePath := "";
     CreatedAt := 5; UpdatedAt := 5; Size := 5;
     MD5Sum := Some (checksum hello); Mime := "text/plain"; Class_ := "text";
     Executable := false; Tags := []; ReferencedBy := []; parent := None |}.
End BesideTrash.

(** * Properties *)

Lemma bytes_eqb_eq (a b : bytes) : bytes_eqb a b = true <-> a = b.
Proof.
  revert b; induction a as [|x a IH]; intros [|y b]; simpl; split;
    try congruence; try reflexivity.
  - intros [Hxy Hab]%andb_true_iff.
    apply Byte.byte_dec_bl in Hxy. apply IH in Hab. congruence.
  - intros [= -> ->]. apply andb_true_iff; split.
    + now apply Byte.byte_dec_lb.
    + now apply IH.
Qed.

Lemma bytes_Equal_true (a b : slice) :
  bytes_Equal a b = true <-> slice_bytes a = slice_bytes b.
Proof. unfold bytes_Equal. apply bytes_eqb_eq. Qed.

Lemma bytes_Equal_false (a b : slice) :
  bytes_Equal a b = false <-> slice_bytes a <> slice_bytes b.
Proof.
  rewrite <- bytes_Equal_true. destruct (bytes_Equal a b); split; congruence.
Qed.

Lemma is_nil_false {A} (o : option A) : negb (is_nil o) = true <-> o <> None.
Proof. destruct o; simpl; split; congruence. Qed.

Lemma is_nil_true {A} (o : option A) : is_nil o = true <-> o = None.
Proof. destruct o; simpl; split; congruence. Qed.

Lemma prefix_app (a b : string) : String.prefix a (a ++ b) = true.
Proof.
  induction a as [|ch a IH]; simpl.
  - now destruct b.
  - destruct (ascii_dec ch ch); [assumption | congruence].
Qed.

Lemma lies_under_HasPrefix (dir p : string) :
  lies_under dir p -> strings_HasPrefix p dir = true.
Proof.
  unfold strings_HasPrefix. intros [-> | [rest ->]].
  - assert (Hnil : dir ++ "" = dir)
      by (induction dir as [|ch d IH];
          [reflexivity | change (String ch (d ++ "") = String ch d); now f_equal]).
    rewrite <- Hnil at 2. apply prefix_app.
  - apply prefix_app.
Qed.

(** ** Paths *)

Section PathLemmas.
#[local] Arguments String.append !s1 s2 /.

Lemma append_nil_r (s : string) : s ++ "" = s.
Proof. induction s as [|c s IH]; simpl; congruence. Qed.

Lemma append_assoc (a b c : string) : (a ++ b) ++ c = a ++ (b ++ c).
Proof. induction a as [|x a IH]; simpl; congruence. Qed.

Lemma has_slash_app (a b : string) :
  path.has_slash (a ++ b) = path.has_slash a || path.has_slash b.
Proof.
  induction a as [|x a IH]; simpl; [reflexivity|].
  rewrite IH. apply orb_assoc.
Qed.

Lemma elements_no_slash (s cur : string) :
  path.has_slash s = false -> path.elements cur s = [cur ++ s].
Proof.
  revert cur. induction s as [|c s IH]; intros cur; simpl.
  - now rewrite append_nil_r.
  - intros [Hc Hs]%orb_false_iff. rewrite Hc, (IH _ Hs), append_assoc.
    reflexivity.
Qed.

Lemma elements_app_slash (a b cur : string) :
  path.elements cur (a ++ "/" ++ b)
  = (path.elements cur a ++ path.elements "" b)%list.
Proof.
  revert cur. induction a as [|c a IH]; intros cur; simpl.
  - reflexivity.
  - destruct (Ascii.eqb c path.slash); rewrite IH; reflexivity.
Qed.

Lemma clean_step_plain (rooted : bool) (kept : list string) (e : string) :
  plain_element e -> path.clean_step rooted kept e = e :: kept.
Proof.
  intros (_ & H0 & H1 & H2). unfold path.clean_step.
  apply String.eqb_neq in H0, H1, H2. now rewrite H0, H1, H2.
Qed.

Lemma join_slash_snoc (l : list string) (x : string) :
  l <> [] -> path.join_slash (l ++ [x]) = path.join_slash l ++ "/" ++ x.
Proof.
  induction l as [|a [|b l] IH]; intros Hne; [congruence | reflexivity |].
  change (a ++ "/" ++ path.join_slash ((b :: l) ++ [x])
          = (a ++ "/" ++ path.join_slash (b :: l)) ++ "/" ++ x).
  rewrite IH by discriminate. now rewrite !append_assoc.
Qed.

Lemma IsAbs_app (a b : string) :
  path.IsAbs a = true -> path.IsAbs (a ++ b) = true.
Proof. destruct a; simpl; [discriminate | auto]. Qed.

(** Under a clean absolute directory other than the root, a plain element
    joins to the directory, a slash and the element. *)
Lemma Join_plain (dir e : string) :
  path.Clean dir = dir -> path.IsAbs dir = true -> dir <> "/" ->
  plain_element e ->
  path.Join dir e = dir ++ "/" ++ e.
Proof.
  intros Hclean Habs Hroot He. unfold path.Join.
  destruct (String.eqb_spec dir ""); [subst; discriminate|].
  unfold path.Clean in *. rewrite (IsAbs_app _ _ Habs). rewrite Habs in Hclean.
  rewrite elements_app_slash, (elements_no_slash e "") by apply He.
  rewrite fold_left_app. simpl fold_left at 1.
  rewrite (clean_step_plain _ _ _ He). simpl rev.
  set (kept := rev (fold_left (path.clean_step true) (path.elements "" dir) [])) in *.
  destruct kept as [|k kept'] eqn:Hk.
  - simpl in Hclean. congruence.
  - rewrite join_slash_snoc by discriminate.
    rewrite <- Hclean, append_assoc. reflexivity.
Qed.

Lemma Join_lies_under (dir e : string) :
  path.Clean dir = dir -> path.IsAbs dir = true -> dir <> "/" ->
  plain_element e ->
  lies_under dir (path.Join dir e).
Proof. intros. right. exists e. now apply Join_plain. Qed.

Lemma Clean_root_child (e : string) :
  plain_element e -> path.Clean ("/" ++ e) = "/" ++ e.
Proof.
  intros He. unfold path.Clean. simpl path.IsAbs. cbv iota.
  change ("/" ++ e) with ("" ++ "/" ++ e).
  rewrite elements_app_slash, (elements_no_slash e "") by apply He.
  simpl. rewrite (clean_step_plain _ _ _ He). reflexivity.
Qed.

Lemma bakpath_plain (id rev : string) :
  path.has_slash id = false -> path.has_slash rev = false ->
  plain_element ("." ++ id ++ "_" ++ rev).
Proof.
  intros Hid Hrev. unfold plain_element.
  rewrite !has_slash_app, Hid, Hrev.
  split; [reflexivity|].
  destruct id as [|c [|c' id]]; simpl; repeat split; discriminate.
Qed.

Lemma Clean_bakpath (id rev : string) :
  path.has_slash id = false -> path.has_slash rev = false ->
  path.Clean ("/." ++ id ++ "_" ++ rev) = "/." ++ id ++ "_" ++ rev.
Proof.
  intros Hid Hrev.
  exact (Clean_root_child _ (bakpath_plain id rev Hid Hrev)).
Qed.
End PathLemmas.

(** Go's own table for [path.Clean]. *)
Example Clean_table :
  map path.Clean
    [""; "abc"; "abc/def"; "a/b/c"; "."; ".."; "../.."; "../../abc"; "/abc";
     "/"; "abc/"; "abc/def/"; "a/b/c/"; "./"; "../"; "../../"; "/abc/";
     "abc//def//ghi"; "//abc"; "///abc"; "//abc//"; "abc//"; "abc/./def";
     "/./abc/def"; "abc/."; "abc/def/ghi/../jkl"; "abc/def/../ghi/../jkl";
     "abc/def/.."; "abc/def/../.."; "/abc/def/../.."; "abc/def/../../..";
     "/abc/def/../../.."; "abc/def/../../../ghi/jkl/../../../mno";
     "abc/./../def"; "abc//./../def"; "abc/../../././../def"]
  = ["."; "abc"; "abc/def"; "a/b/c"; "."; ".."; "../.."; "../../abc"; "/abc";
     "/"; "abc"; "abc/def"; "a/b/c"; "."; ".."; "../.."; "/abc";
     "abc/def/ghi"; "/abc"; "/abc"; "/abc"; "abc"; "abc/def";
     "/abc/def"; "abc"; "abc/def/jkl"; "abc/jkl";
     "abc"; "."; "/"; "..";
     "/"; "../../mno";
     "def"; "def"; "../../def"].
Proof. reflexivity. Qed.

Example Join_Dir_table :
  (path.Join "/" "a.txt", path.Join "/docs" "b", path.Join "" "",
   path.Dir "/docs/b", path.Dir "/a.txt", path.Dir "a", path.Dir "")
  = ("/a.txt", "/docs/b", "", "/docs", "/", ".", ".").
Proof. reflexivity. Qed.

Section Properties.
Context {FS DB Handle : Type}.
Context {CS : ContentStore FS Handle} {MS : MetadataStore DB}
  {Pkg : Package FS DB}.

Abbreviation Ctx := (Context FS DB).

Lemma calls_since_app (c c' : Ctx) (l : list Event) :
  calls c' = (calls c ++ l)%list -> calls_since c c' = l.
Proof.
  unfold calls_since. intros ->. apply drop_app_length.
Qed.

Lemma FileDoc_Path_fields (c : Ctx) (f f' : FileDoc) (r : result string) :
  FileDoc_Path c f = (f', r) ->
  f' = f \/ exists p, f' = set_parent (Some p) f.
Proof.
  unfold FileDoc_Path, FileDoc_Parent.
  destruct (String.eqb (DirID f) consts_RootDirID); [intros [= <- <-]; auto|].
  destruct (getParentDir c (parent f) (DirID f)) as [p|e].
  - destruct (DirDoc_Path p c); intros [= <- <-]; eauto.
  - intros [= <- <-]; auto.
Qed.

(** C10: a valid name and an empty parent id give a document in the root
    directory. *)
Theorem NewFileDoc_empty_dirID_is_root (name : string) (size : Z)
    (md5Sum : slice) (mime class : string) (cdate : Time)
    (executable : bool) (tags : list string) :
  checkFileName name = None ->
  exists doc,
    NewFileDoc name "" size md5Sum mime class cdate executable tags = Ok doc
    /\ DirID doc = consts_RootDirID
    /\ Name doc = name.
Proof.
  intros Hname. unfold NewFileDoc. rewrite Hname. simpl.
  eexists; split; [reflexivity|]. split; reflexivity.
Qed.

(** *** The safe rename *)

Lemma safeRenameFile_unfold (oldpath newpath : string) (c : Ctx) :
  safeRenameFile oldpath newpath c =
    let n := path.Clean newpath in
    let o := path.Clean oldpath in
    if negb (path.IsAbs n) || negb (path.IsAbs o) then
      (c, Some ErrNonAbsolutePath)
    else
      let c1 := called (EvStat n) (fs c) (db c) c in
      match afero_Stat n (fs c) with
      | None => (c1, Some (OsError os_ErrExist))
      | Some e =>
          if os_error_IsNotExist e then
            (called (EvRename o n) (fst (afero_Rename o n (fs c))) (db c) c1,
             option_map OsError (snd (afero_Rename o n (fs c))))
          else (c1, Some (OsError e))
      end.
Proof.
  unfold safeRenameFile, FS_Stat, FS_Rename. cbv zeta.
  destruct (negb (path.IsAbs (path.Clean newpath))
            || negb (path.IsAbs (path.Clean oldpath))); [reflexivity|].
  destruct (afero_Stat (path.Clean newpath) (fs c)) as [e|]; [|reflexivity].
  simpl. destruct (os_error_IsNotExist e); simpl; [|reflexivity].
  destruct (afero_Rename _ _ (fs c)); reflexivity.
Qed.

(** C9 (amended): [safeRenameFile] normalises both paths; it fails with
    [ErrNonAbsolutePath] if one of them is not absolute; with
    [os.ErrExist] if the stat of the new path succeeds; with the error of
    the stat, and without renaming, if that error is not a not-found
    error; otherwise it returns the result of the store's rename of the
    normalised paths. The metadata store is never touched. *)
Theorem safeRenameFile_cases (oldpath newpath : string) (c : Ctx) :
  let n := path.Clean newpath in
  let o := path.Clean oldpath in
  let c' := fst (safeRenameFile oldpath newpath c) in
  let err := snd (safeRenameFile oldpath newpath c) in
  db c' = db c /\
  if negb (path.IsAbs n) || negb (path.IsAbs o) then
    err = Some ErrNonAbsolutePath /\ c' = c
  else
    match afero_Stat n (fs c) with
    | None =>
        err = Some (OsError os_ErrExist) /\ fs c' = fs c
        /\ calls c' = (calls c ++ [EvStat n])%list
    | Some e =>
        if os_error_IsNotExist e then
          err = option_map OsError (snd (afero_Rename o n (fs c)))
          /\ fs c' = fst (afero_Rename o n (fs c))
          /\ calls c' = (calls c ++ [EvStat n; EvRename o n])%list
        else
          err = Some (OsError e) /\ fs c' = fs c
          /\ calls c' = (calls c ++ [EvStat n])%list
    end.
Proof.
  cbv zeta. rewrite safeRenameFile_unfold. cbv zeta.
  destruct (negb (path.IsAbs (path.Clean newpath))
            || negb (path.IsAbs (path.Clean oldpath))); [simpl; auto|].
  destruct (afero_Stat (path.Clean newpath) (fs c)) as [e|]; [|simpl; auto].
  destruct (os_error_IsNotExist e); simpl; [|auto].
  rewrite <- app_assoc. auto.
Qed.

(** *** Destruction *)

(** C7: [DestroyFile] removes the content at the resolved path before it
    deletes the metadata document, and deletes no document when the path
    does not resolve or the removal fails: the error is returned and the
    metadata store is as it was. *)
Theorem DestroyFile_content_first (c : Ctx) (doc doc' : FileDoc)
    (r : result string) :
  FileDoc_Path c doc = (doc', r) ->
  let c' := fst (DestroyFile c doc) in
  let err := snd (DestroyFile c doc) in
  match r with
  | Err e => err = Some e /\ c' = c
  | Ok p =>
      fs c' = fst (afero_Remove p (fs c)) /\
      match snd (afero_Remove p (fs c)) with
      | Some e =>
          err = Some (OsError e) /\ db c' = db c
          /\ calls c' = (calls c ++ [EvRemove p])%list
      | None =>
          err = option_map CouchError (snd (couchdb_DeleteDoc doc' (db c)))
          /\ db c' = fst (couchdb_DeleteDoc doc' (db c))
          /\ calls c' = (calls c ++ [EvRemove p; EvDeleteDoc doc'])%list
      end
  end.
Proof.
  intros Hpath. unfold DestroyFile. rewrite Hpath.
  destruct r as [p|e]; [|simpl; auto].
  unfold FS_Remove, DeleteDoc, DB_DeleteDoc.
  destruct (afero_Remove p (fs c)) as [s [e|]]; simpl; [auto|].
  destruct (couchdb_DeleteDoc doc' (db c)) as [d o]; simpl.
  rewrite <- app_assoc. auto.
Qed.

(** *** Creation of a handle *)

Lemma CreateFile_replace_unfold (now : Time) (newdoc old : FileDoc) (c : Ctx)
    (newdoc' : FileDoc) (newpath : string) :
  FileDoc_Path c newdoc = (newdoc', Ok newpath) ->
  CreateFile now newdoc (Some old) c =
    let bakpath := "/." ++ ID old ++ "_" ++ Rev old in
    let c1 := fst (safeRenameFile newpath bakpath c) in
    match snd (safeRenameFile newpath bakpath c) with
    | Some e => (c1, Err (if os_IsNotExist e then ErrConflict else e))
    | None =>
        let d :=
          set_UpdatedAt now
            (set_CreatedAt (CreatedAt old)
               (SetRev (Rev old) (SetID (ID old) newdoc'))) in
        let c2 := fst (safeCreateFile newpath (Executable d) c1) in
        match snd (safeCreateFile newpath (Executable d) c1) with
        | inl e => (c2, Err (OsError e))
        | inr h =>
            (c2, Ok {| f_f := h;
                       f_fc := Some {| fc_w := 0; fc_newdoc := d;
                                       fc_olddoc := Some old;
                                       fc_newpath := newpath;
                                       fc_bakpath := bakpath;
                                       fc_checkHash := negb (is_nil (MD5Sum d));
                                       fc_hash := [];
                                       fc_err := None |} |})
        end
    end.
Proof.
  intros Hpath. unfold CreateFile. rewrite Hpath. cbv zeta.
  destruct (safeRenameFile newpath _ c) as [c1 [e|]]; simpl; [reflexivity|].
  destruct (safeCreateFile newpath _ c1) as [c2 [e|h]]; reflexivity.
Qed.

Lemma CreateFile_resolves (now : Time) (newdoc : FileDoc)
    (olddoc : option FileDoc) (c c' : Ctx) (f : File Handle) :
  CreateFile now newdoc olddoc c = (c', Ok f) ->
  exists d newpath, FileDoc_Path c newdoc = (d, Ok newpath).
Proof.
  unfold CreateFile. destruct (FileDoc_Path c newdoc) as [d [p|e]].
  - eauto.
  - intros [= _ ?].
Qed.

Lemma safeRenameFile_success (oldpath newpath : string) (c : Ctx) :
  snd (safeRenameFile oldpath newpath c) = None ->
  let n := path.Clean newpath in
  let o := path.Clean oldpath in
  let c' := fst (safeRenameFile oldpath newpath c) in
  snd (afero_Rename o n (fs c)) = None
  /\ fs c' = fst (afero_Rename o n (fs c))
  /\ db c' = db c
  /\ calls c' = (calls c ++ [EvStat n; EvRename o n])%list.
Proof.
  cbv zeta. rewrite safeRenameFile_unfold. cbv zeta.
  destruct (negb (path.IsAbs (path.Clean newpath))
            || negb (path.IsAbs (path.Clean oldpath))); [discriminate|].
  destruct (afero_Stat (path.Clean newpath) (fs c)) as [e|]; [|discriminate].
  destruct (os_error_IsNotExist e); [|discriminate].
  simpl. intros Hnil.
  destruct (snd (afero_Rename _ _ (fs c))); [discriminate|].
  rewrite <- app_assoc. auto.
Qed.

(** The safe rename calls the stat of the new path and the rename, and no
    other operation of the stores. *)
Lemma safeRenameFile_calls (oldpath newpath : string) (c : Ctx) (ev : Event) :
  In ev (calls_since c (fst (safeRenameFile oldpath newpath c))) ->
  ev = EvStat (path.Clean newpath)
  \/ ev = EvRename (path.Clean oldpath) (path.Clean newpath).
Proof.
  rewrite safeRenameFile_unfold. cbv zeta.
  destruct (negb (path.IsAbs (path.Clean newpath))
            || negb (path.IsAbs (path.Clean oldpath))).
  { simpl. unfold calls_since. rewrite skipn_all. intros []. }
  destruct (afero_Stat (path.Clean newpath) (fs c)) as [e|].
  - destruct (os_error_IsNotExist e); simpl.
    + rewrite (calls_since_app c _ [EvStat (path.Clean newpath);
                                    EvRename (path.Clean oldpath) (path.Clean newpath)]).
      * simpl. intuition.
      * simpl. now rewrite <- app_assoc.
    + rewrite (calls_since_app c _ [EvStat (path.Clean newpath)]);
        [simpl; intuition | reflexivity].
  - simpl. rewrite (calls_since_app c _ [EvStat (path.Clean newpath)]);
      [simpl; intuition | reflexivity].
Qed.

(** C8: a handle created over an old document holds a new document with
    the id, the revision and the creation time of the old one and with
    the current time as update time; every other field of the document
    is as the caller gave it. *)
Theorem CreateFile_inherits_identity (now : Time) (newdoc old : FileDoc)
    (c c' : Ctx) (f : File Handle) :
  CreateFile now newdoc (Some old) c = (c', Ok f) ->
  exists fc,
    f_fc f = Some fc /\
    DocID (fc_newdoc fc) = DocID old /\
    DocRev (fc_newdoc fc) = DocRev old /\
    CreatedAt (fc_newdoc fc) = CreatedAt old /\
    UpdatedAt (fc_newdoc fc) = now /\
    Type_ (fc_newdoc fc) = Type_ newdoc /\
    Name (fc_newdoc fc) = Name newdoc /\
    DirID (fc_newdoc fc) = DirID newdoc /\
    RestorePath (fc_newdoc fc) = RestorePath newdoc /\
    Size (fc_newdoc fc) = Size newdoc /\
    MD5Sum (fc_newdoc fc) = MD5Sum newdoc /\
    Mime (fc_newdoc fc) = Mime newdoc /\
    Class_ (fc_newdoc fc) = Class_ newdoc /\
    Executable (fc_newdoc fc) = Executable newdoc /\
    Tags (fc_newdoc fc) = Tags newdoc /\
    ReferencedBy (fc_newdoc fc) = ReferencedBy newdoc.
Proof.
  intros Hcreate.
  destruct (CreateFile_resolves _ _ _ _ _ _ Hcreate) as (d & newpath & Hpath).
  rewrite (CreateFile_replace_unfold now newdoc old c d newpath Hpath) in Hcreate.
  cbv zeta in Hcreate.
  destruct (snd (safeRenameFile newpath _ c)); [discriminate|].
  destruct (snd (safeCreateFile newpath _ _)) as [e|h]; [discriminate|].
  injection Hcreate as _ <-. eexists; split; [reflexivity|]. simpl.
  destruct (FileDoc_Path_fields _ _ _ _ Hpath) as [-> | [p ->]];
    repeat split; reflexivity.
Qed.

(** C5: when [CreateFile] is given an old document, the content at the
    resolved target path is renamed to the backup path made of the old id
    and revision before the target is opened, and the target is not
    opened when that rename fails; a rename that fails because its source
    does not exist makes [CreateFile] return [ErrConflict]. The
    normalisation of the safe rename leaves the backup path of an id and a
    revision without slash as it is. *)
Theorem CreateFile_backs_up_first (now : Time) (newdoc old : FileDoc)
    (c : Ctx) (newdoc' : FileDoc) (newpath : string) :
  FileDoc_Path c newdoc = (newdoc', Ok newpath) ->
  let bakpath := "/." ++ DocID old ++ "_" ++ DocRev old in
  let c1 := fst (safeRenameFile newpath bakpath c) in
  let c' := fst (CreateFile now newdoc (Some old) c) in
  let res := snd (CreateFile now newdoc (Some old) c) in
  let flag := Z.lor (Z.lor os_O_WRONLY os_O_CREATE) os_O_EXCL in
  let mode := getFileMode (Executable newdoc) in
  match snd (safeRenameFile newpath bakpath c) with
  | Some e =>
      c' = c1
      /\ (forall ev, In ev (calls_since c c') ->
           ev = EvStat (path.Clean bakpath)
           \/ ev = EvRename (path.Clean newpath) (path.Clean bakpath))
      /\ (os_IsNotExist e = true -> res = Err ErrConflict)
      /\ (os_IsNotExist e = false -> res = Err e)
  | None =>
      calls c' =
        (calls c ++ [EvStat (path.Clean bakpath);
                     EvRename (path.Clean newpath) (path.Clean bakpath);
                     EvOpenFile newpath flag mode])%list
      /\ snd (afero_Rename (path.Clean newpath) (path.Clean bakpath) (fs c)) = None
      /\ fs c' =
           fst (afero_OpenFile newpath flag mode
                  (fst (afero_Rename (path.Clean newpath) (path.Clean bakpath) (fs c))))
      /\ (forall f, res = Ok f ->
           exists fc, f_fc f = Some fc /\ fc_bakpath fc = bakpath
                      /\ fc_newpath fc = newpath /\ fc_olddoc fc = Some old)
  end
  /\ (path.has_slash (DocID old) = false ->
      path.has_slash (DocRev old) = false ->
      path.Clean bakpath = bakpath).
Proof.
  intros Hpath. cbv zeta. split; [|apply Clean_bakpath].
  rewrite (CreateFile_replace_unfold now newdoc old c newdoc' newpath Hpath).
  cbv zeta. unfold ID, Rev.
  set (bak := "/." ++ DocID old ++ "_" ++ DocRev old).
  destruct (snd (safeRenameFile newpath bak c)) as [e|] eqn:Hren.
  - simpl. split; [reflexivity|]. split.
    + intros ev Hin. exact (safeRenameFile_calls newpath bak c ev Hin).
    + split; intros ->; reflexivity.
  - destruct (safeRenameFile_success newpath bak c Hren)
      as (Hrn & Hfs & Hdb & Hcalls).
    assert (Hexec : Executable
              (set_UpdatedAt now (set_CreatedAt (CreatedAt old)
                 (SetRev (DocRev old) (SetID (DocID old) newdoc'))))
            = Executable newdoc).
    { destruct (FileDoc_Path_fields _ _ _ _ Hpath) as [-> | [p ->]];
        reflexivity. }
    rewrite Hexec. unfold safeCreateFile, FS_OpenFile.
    rewrite Hfs.
    destruct (afero_OpenFile newpath _ _ _) as [s [e|h]]; simpl;
      rewrite Hcalls, <- app_assoc; simpl;
      (split; [reflexivity|]); (split; [exact Hrn|]);
      (split; [reflexivity|]).
    + intros f [=].
    + intros f [= <-]. eexists. simpl. repeat split.
Qed.

(** *** Closing a handle *)

Lemma digest_test_valid (fc : fileCreation) :
  digest_test fc = false <-> digest_valid fc.
Proof.
  unfold digest_test, digest_valid.
  destruct (fc_checkHash fc); simpl.
  - rewrite negb_false_iff, bytes_Equal_true. simpl. intuition.
  - intuition discriminate.
Qed.

Lemma digest_test_invalid (fc : fileCreation) :
  digest_test fc = true <->
  fc_checkHash fc = true
  /\ slice_bytes (MD5Sum (fc_newdoc fc)) <> md5_Sum (fc_hash fc).
Proof.
  unfold digest_test. rewrite andb_true_iff, negb_true_iff, bytes_Equal_false.
  reflexivity.
Qed.

Lemma completed_newdoc_Size (fc : fileCreation) :
  Size (completed_newdoc fc) =
    if Size (fc_newdoc fc) <? 0 then fc_w fc else Size (fc_newdoc fc).
Proof.
  unfold completed_newdoc. cbv zeta.
  destruct (Size (fc_newdoc fc) <? 0); simpl;
    destruct (is_nil (MD5Sum (fc_newdoc fc))); reflexivity.
Qed.

Lemma size_test_valid (fc : fileCreation) :
  size_test fc = false <-> size_valid fc.
Proof.
  unfold size_test, size_valid. rewrite negb_false_iff, completed_newdoc_Size.
  destruct (Z.ltb_spec (Size (fc_newdoc fc)) 0).
  - rewrite Z.eqb_refl. intuition.
  - rewrite Z.eqb_eq. intuition lia.
Qed.

Lemma size_test_invalid (fc : fileCreation) :
  size_test fc = true <->
  0 <= Size (fc_newdoc fc) /\ Size (fc_newdoc fc) <> fc_w fc.
Proof.
  unfold size_test. rewrite negb_true_iff, completed_newdoc_Size.
  destruct (Z.ltb_spec (Size (fc_newdoc fc)) 0).
  - rewrite Z.eqb_refl. intuition (discriminate || lia).
  - rewrite Z.eqb_neq. intuition.
Qed.

Lemma File_Close_body_unfold (h : Handle) (fc : fileCreation) (c : Ctx) :
  File_Close_body h fc c =
    match snd (afero_File_Close h (fs c)) with
    | Some e => (closed h c, fc, Some (OsError e))
    | None =>
        if digest_test fc then (closed h c, fc, Some ErrInvalidHash)
        else if size_test fc then
          (closed h c, set_fc_newdoc (completed_newdoc fc) fc,
           Some ErrContentLengthMismatch)
        else
          match fc_olddoc fc with
          | Some _ =>
              match snd (couchdb_UpdateDoc (completed_newdoc fc) (db c)) with
              | inl e =>
                  (committed h fc c,
                   set_fc_newdoc (completed_newdoc fc) fc,
                   Some (CouchError e))
              | inr rev =>
                  (committed h fc c,
                   set_fc_newdoc (SetRev rev (completed_newdoc fc)) fc, None)
              end
          | None =>
              match snd (couchdb_CreateDoc (completed_newdoc fc) (db c)) with
              | inl e =>
                  (committed h fc c,
                   set_fc_newdoc (completed_newdoc fc) fc,
                   Some (CouchError e))
              | inr (id, rev) =>
                  (committed h fc c,
                   set_fc_newdoc (SetRev rev (SetID id (completed_newdoc fc))) fc,
                   None)
              end
          end
    end.
Proof.
  unfold File_Close_body, Handle_Close, committed, closed, commit_call,
    commit_db, digest_test, size_test, completed_newdoc.
  destruct (afero_File_Close h (fs c)) as [s [e|]]; simpl; [reflexivity|].
  destruct (fc_checkHash fc && _); [reflexivity|].
  cbv zeta.
  match goal with |- context [negb (Size ?d =? _)] =>
    destruct (negb (Size d =? fc_w fc)); [reflexivity|];
    generalize d; intros d0
  end.
  destruct (fc_olddoc fc).
  - unfold UpdateDoc, DB_UpdateDoc. simpl.
    destruct (couchdb_UpdateDoc d0 (db c)) as [d' [e|rev]]; reflexivity.
  - unfold CreateDoc, DB_CreateDoc. simpl.
    destruct (couchdb_CreateDoc d0 (db c)) as [d' [e|[id rev]]]; reflexivity.
Qed.

Lemma File_Close_write_mode (f : File Handle) (fc : fileCreation) (c : Ctx) :
  f_fc f = Some fc ->
  File_Close f c =
    (File_Close_deferred (snd (fst (File_Close_body (f_f f) fc c)))
       (snd (File_Close_body (f_f f) fc c))
       (fst (fst (File_Close_body (f_f f) fc c))),
     {| f_f := f_f f;
        f_fc := Some (snd (fst (File_Close_body (f_f f) fc c))) |},
     snd (File_Close_body (f_f f) fc c)).
Proof.
  intros Hfc. unfold File_Close. rewrite Hfc.
  destruct (File_Close_body (f_f f) fc c) as [[c1 fc1] err]. reflexivity.
Qed.

Lemma File_Close_deferred_calls (fc : fileCreation) (err : option error)
    (c : Ctx) :
  db (File_Close_deferred fc err c) = db c
  /\ calls (File_Close_deferred fc err c)
     = (calls c ++ cleanup_calls fc err)%list.
Proof.
  unfold File_Close_deferred, cleanup_calls, FS_Rename, FS_Remove.
  destruct (fc_olddoc fc);
    destruct (negb (is_nil err) || negb (is_nil (fc_err fc)));
    try destruct (afero_Rename _ _ (fs c));
    try destruct (afero_Remove _ (fs c)); simpl; auto using app_nil_r.
Qed.

(** The handle state the body returns differs from the one it was
    given by the new document only. *)
Lemma File_Close_body_keeps (h : Handle) (fc : fileCreation) (c : Ctx) :
  let fc1 := snd (fst (File_Close_body h fc c)) in
  fc_olddoc fc1 = fc_olddoc fc /\ fc_newpath fc1 = fc_newpath fc
  /\ fc_bakpath fc1 = fc_bakpath fc /\ fc_err fc1 = fc_err fc.
Proof.
  rewrite File_Close_body_unfold.
  destruct (snd (afero_File_Close h (fs c))); [simpl; auto|].
  destruct (digest_test fc); [simpl; auto|].
  destruct (size_test fc); [simpl; auto|].
  destruct (fc_olddoc fc) eqn:Hold.
  - destruct (snd (couchdb_UpdateDoc _ _)); simpl; auto.
  - destruct (snd (couchdb_CreateDoc _ _)) as [|[]]; simpl; auto.
Qed.

Lemma cleanup_calls_ext (fc fc1 : fileCreation) (err : option error) :
  fc_olddoc fc1 = fc_olddoc fc -> fc_newpath fc1 = fc_newpath fc ->
  fc_bakpath fc1 = fc_bakpath fc -> fc_err fc1 = fc_err fc ->
  cleanup_calls fc1 err = cleanup_calls fc err.
Proof. unfold cleanup_calls. intros -> -> -> ->. reflexivity. Qed.

Lemma cleanup_calls_no_commit (fc : fileCreation) (err : option error)
    (ev : Event) :
  In ev (cleanup_calls fc err) ->
  ev = EvRename (fc_bakpath fc) (fc_newpath fc)
  \/ ev = EvRemove (fc_bakpath fc) \/ ev = EvRemove (fc_newpath fc).
Proof.
  unfold cleanup_calls.
  destruct (fc_olddoc fc);
    destruct (negb (is_nil err) || negb (is_nil (fc_err fc)));
    simpl; intuition.
Qed.

Lemma no_commit_in_cleanup (fc : fileCreation) (err : option error)
    (d : FileDoc) :
  ~ (In (EvCreateDoc d) (EvClose :: cleanup_calls fc err)
     \/ In (EvUpdateDoc d) (EvClose :: cleanup_calls fc err)).
Proof.
  intros [[Hin|Hin]|[Hin|Hin]]; try discriminate;
    apply cleanup_calls_no_commit in Hin;
    destruct Hin as [?|[?|?]]; discriminate.
Qed.

(** [File.Close] in write mode, case by case: its error, the metadata
    store and the calls it has made. *)
Lemma File_Close_cases (f : File Handle) (fc : fileCreation) (c : Ctx) :
  f_fc f = Some fc ->
  let c' := fst (fst (File_Close f c)) in
  let err := snd (File_Close f c) in
  match snd (afero_File_Close (f_f f) (fs c)) with
  | Some e =>
      err = Some (OsError e) /\ db c' = db c
      /\ calls c' = (calls c ++ EvClose :: cleanup_calls fc err)%list
  | None =>
      if digest_test fc then
        err = Some ErrInvalidHash /\ db c' = db c
        /\ calls c' = (calls c ++ EvClose :: cleanup_calls fc err)%list
      else if size_test fc then
        err = Some ErrContentLengthMismatch /\ db c' = db c
        /\ calls c' = (calls c ++ EvClose :: cleanup_calls fc err)%list
      else
        err = option_map CouchError (commit_error fc (db c))
        /\ db c' = commit_db fc (db c)
        /\ calls c' =
             (calls c ++ EvClose :: commit_call fc :: cleanup_calls fc err)%list
  end.
Proof.
  intros Hfc. cbv zeta. rewrite (File_Close_write_mode f fc c Hfc). simpl.
  destruct (File_Close_body_keeps (f_f f) fc c) as (Ho & Hn & Hb & He).
  cbv zeta in Ho, Hn, Hb, He.
  destruct (File_Close_deferred_calls
              (snd (fst (File_Close_body (f_f f) fc c)))
              (snd (File_Close_body (f_f f) fc c))
              (fst (fst (File_Close_body (f_f f) fc c)))) as [Hdb Hcalls].
  rewrite Hdb, Hcalls, (cleanup_calls_ext fc _ _ Ho Hn Hb He).
  clear Hdb Hcalls Ho Hn Hb He.
  rewrite File_Close_body_unfold. unfold commit_error.
  destruct (snd (afero_File_Close (f_f f) (fs c))) as [e|].
  { simpl. rewrite <- app_assoc. auto. }
  destruct (digest_test fc). { simpl. rewrite <- app_assoc. auto. }
  destruct (size_test fc). { simpl. rewrite <- app_assoc. auto. }
  destruct (fc_olddoc fc).
  - destruct (snd (couchdb_UpdateDoc _ _)); simpl;
      rewrite <- !app_assoc; auto.
  - destruct (snd (couchdb_CreateDoc _ _)) as [|[]]; simpl;
      rewrite <- !app_assoc; auto.
Qed.

Lemma File_Close_handle (f : File Handle) (fc : fileCreation) (c : Ctx) :
  f_fc f = Some fc ->
  snd (afero_File_Close (f_f f) (fs c)) = None ->
  digest_test fc = false ->
  exists fc',
    f_fc (snd (fst (File_Close f c))) = Some fc'
    /\ Size (fc_newdoc fc') = Size (completed_newdoc fc).
Proof.
  intros Hfc Hclose Hdig. rewrite (File_Close_write_mode f fc c Hfc). simpl.
  eexists; split; [reflexivity|].
  rewrite File_Close_body_unfold, Hclose, Hdig.
  destruct (size_test fc); [reflexivity|].
  destruct (fc_olddoc fc).
  - destruct (snd (couchdb_UpdateDoc _ _)); reflexivity.
  - destruct (snd (couchdb_CreateDoc _ _)) as [|[]]; reflexivity.
Qed.

(** C1: once the underlying close has succeeded, [File.Close] returns
    [ErrInvalidHash] exactly when a digest was declared and differs from
    the digest computed over the bytes written; otherwise a negative
    declared size is replaced by the measured count, and
    [ErrContentLengthMismatch] is returned exactly when the declared size
    is not negative and differs from the measured count; the metadata
    document is committed (created without an old document, updated with
    one) when these validations pass and only then. *)
Theorem File_Close_validates (f : File Handle) (fc : fileCreation) (c : Ctx) :
  f_fc f = Some fc ->
  snd (afero_File_Close (f_f f) (fs c)) = None ->
  let declared := slice_bytes (MD5Sum (fc_newdoc fc)) in
  let computed := md5_Sum (fc_hash fc) in
  let size := Size (fc_newdoc fc) in
  let measured := fc_w fc in
  let c' := fst (fst (File_Close f c)) in
  let f' := snd (fst (File_Close f c)) in
  let err := snd (File_Close f c) in
  (err = Some ErrInvalidHash <->
     fc_checkHash fc = true /\ declared <> computed)
  /\ (digest_valid fc ->
      (err = Some ErrContentLengthMismatch <->
         0 <= size /\ size <> measured)
      /\ (size < 0 ->
          exists fc', f_fc f' = Some fc'
                      /\ Size (fc_newdoc fc') = measured))
  /\ (forall d,
        In (EvCreateDoc d) (calls_since c c')
        \/ In (EvUpdateDoc d) (calls_since c c') ->
        digest_valid fc /\ size_valid fc /\ d = completed_newdoc fc
        /\ Size d = measured)
  /\ (digest_valid fc -> size_valid fc ->
      db c' = commit_db fc (db c)
      /\ match fc_olddoc fc with
         | None => In (EvCreateDoc (completed_newdoc fc)) (calls_since c c')
         | Some _ => In (EvUpdateDoc (completed_newdoc fc)) (calls_since c c')
         end)
  /\ (~ (digest_valid fc /\ size_valid fc) -> db c' = db c).
Proof.
  intros Hfc Hclose. cbv zeta.
  pose proof (File_Close_cases f fc c Hfc) as Hc. cbv zeta in Hc.
  pose proof (File_Close_handle f fc c Hfc Hclose) as Hh.
  rewrite Hclose in Hc.
  pose proof (digest_test_valid fc) as Hdv.
  pose proof (digest_test_invalid fc) as Hdi.
  pose proof (size_test_valid fc) as Hsv.
  pose proof (size_test_invalid fc) as Hsi.
  pose proof (completed_newdoc_Size fc) as Hsz.
  destruct (digest_test fc).
  { destruct Hc as (Herr & Hdb & Hcalls).
    rewrite (calls_since_app _ _ _ Hcalls), Herr.
    assert (Hnv : ~ digest_valid fc) by (intros Hv; apply Hdv in Hv; discriminate).
    split; [split; [intros _; now apply Hdi | reflexivity]|].
    split; [intros Hv; exfalso; tauto|].
    split; [intros d Hin; exfalso; exact (no_commit_in_cleanup _ _ _ Hin)|].
    split; [intros Hv; exfalso; tauto | auto]. }
  assert (Hv : digest_valid fc) by (now apply Hdv).
  assert (Hni : ~ (fc_checkHash fc = true
                   /\ slice_bytes (MD5Sum (fc_newdoc fc)) <> md5_Sum (fc_hash fc)))
    by (intros Hx; apply Hdi in Hx; discriminate).
  destruct (Hh eq_refl) as (fc' & Hfc' & Hsize').
  destruct (size_test fc).
  { destruct Hc as (Herr & Hdb & Hcalls).
    rewrite (calls_since_app _ _ _ Hcalls), Herr.
    assert (Hnv : ~ size_valid fc) by (intros Hx; apply Hsv in Hx; discriminate).
    assert (Hinv : 0 <= Size (fc_newdoc fc) /\ Size (fc_newdoc fc) <> fc_w fc)
      by (now apply Hsi).
    split; [split; [discriminate | tauto]|].
    split; [intros _; split; [tauto | intros; lia]|].
    split; [intros d Hin; exfalso; exact (no_commit_in_cleanup _ _ _ Hin)|].
    split; [intros; exfalso; tauto | auto]. }
  assert (Hs : size_valid fc) by (now apply Hsv).
  assert (Hnsi : ~ (0 <= Size (fc_newdoc fc) /\ Size (fc_newdoc fc) <> fc_w fc))
    by (intros Hx; apply Hsi in Hx; discriminate).
  assert (Hmeasured : Size (completed_newdoc fc) = fc_w fc).
  { rewrite Hsz. destruct (Z.ltb_spec (Size (fc_newdoc fc)) 0); [reflexivity|].
    destruct Hs; lia. }
  destruct Hc as (Herr & Hdb & Hcalls).
  rewrite (calls_since_app _ _ _ Hcalls), Herr.
  assert (Hcouch : forall v,
             option_map CouchError (commit_error fc (db c)) = Some v ->
             exists e, v = CouchError e).
  { intros v. destruct (commit_error fc (db c)); simpl;
      [intros [= <-]; eauto | discriminate]. }
  split.
  { split; [|tauto]. intros Hx.
    destruct (Hcouch _ Hx) as [? ?]; discriminate. }
  split.
  { intros _. split.
    - split; [|tauto]. intros Hx.
      destruct (Hcouch _ Hx) as [? ?]; discriminate.
    - intros _. exists fc'. split; [assumption | congruence]. }
  split.
  { intros d Hin.
    assert (Hd : d = completed_newdoc fc).
    { unfold commit_call in Hin.
      destruct Hin as [[Hin|[Hin|Hin]]|[Hin|[Hin|Hin]]];
        try discriminate;
        try (apply cleanup_calls_no_commit in Hin;
             destruct Hin as [?|[?|?]]; discriminate);
        destruct (fc_olddoc fc); congruence. }
    subst d. auto. }
  split; [|intros; exfalso; tauto].
  intros _ _. split; [assumption|].
  unfold commit_call. destruct (fc_olddoc fc); simpl; auto.
Qed.

Lemma File_Close_body_fs (h : Handle) (fc : fileCreation) (c : Ctx) :
  fs (fst (fst (File_Close_body h fc c))) = fst (afero_File_Close h (fs c)).
Proof.
  rewrite File_Close_body_unfold.
  destruct (snd (afero_File_Close h (fs c))); [reflexivity|].
  destruct (digest_test fc); [reflexivity|].
  destruct (size_test fc); [reflexivity|].
  destruct (fc_olddoc fc).
  - destruct (snd (couchdb_UpdateDoc _ _)); reflexivity.
  - destruct (snd (couchdb_CreateDoc _ _)) as [|[]]; reflexivity.
Qed.

Lemma File_Close_deferred_fs (fc : fileCreation) (err : option error)
    (c : Ctx) :
  fs (File_Close_deferred fc err c) =
    match fc_olddoc fc with
    | Some _ =>
        if negb (is_nil err) || negb (is_nil (fc_err fc)) then
          fst (afero_Rename (fc_bakpath fc) (fc_newpath fc) (fs c))
        else fst (afero_Remove (fc_bakpath fc) (fs c))
    | None =>
        if negb (is_nil err) || negb (is_nil (fc_err fc)) then
          fst (afero_Remove (fc_newpath fc) (fs c))
        else fs c
    end.
Proof.
  unfold File_Close_deferred, FS_Rename, FS_Remove.
  destruct (fc_olddoc fc);
    destruct (negb (is_nil err) || negb (is_nil (fc_err fc)));
    try destruct (afero_Rename _ _ (fs c));
    try destruct (afero_Remove _ (fs c)); reflexivity.
Qed.

Lemma failed_test (err werr : option error) :
  negb (is_nil err) || negb (is_nil werr) = true <->
  err <> None \/ werr <> None.
Proof. rewrite orb_true_iff, !is_nil_false. reflexivity. Qed.

(** [File.Close] in write mode: the content store and the last call of
    the clean-up, from the content store [s1] the underlying close
    left. *)
Lemma File_Close_cleanup_cases (f : File Handle) (fc : fileCreation)
    (c : Ctx) :
  f_fc f = Some fc ->
  let s1 := fst (afero_File_Close (f_f f) (fs c)) in
  let c' := fst (fst (File_Close f c)) in
  let err := snd (File_Close f c) in
  fs c' =
    match fc_olddoc fc with
    | Some _ =>
        if negb (is_nil err) || negb (is_nil (fc_err fc)) then
          fst (afero_Rename (fc_bakpath fc) (fc_newpath fc) s1)
        else fst (afero_Remove (fc_bakpath fc) s1)
    | None =>
        if negb (is_nil err) || negb (is_nil (fc_err fc)) then
          fst (afero_Remove (fc_newpath fc) s1)
        else s1
    end
  /\ exists l, calls c' = (calls c ++ EvClose :: l ++ cleanup_calls fc err)%list
               /\ (l = [] \/ l = [commit_call fc]).
Proof.
  intros Hfc. cbv zeta. split.
  - rewrite (File_Close_write_mode f fc c Hfc). simpl.
    destruct (File_Close_body_keeps (f_f f) fc c) as (Ho & Hn & Hb & He).
    cbv zeta in Ho, Hn, Hb, He.
    rewrite File_Close_deferred_fs, Ho, Hn, Hb, He, File_Close_body_fs.
    reflexivity.
  - pose proof (File_Close_cases f fc c Hfc) as Hc. cbv zeta in Hc.
    destruct (snd (afero_File_Close (f_f f) (fs c))).
    { exists []. simpl. intuition. }
    destruct (digest_test fc). { exists []. simpl. intuition. }
    destruct (size_test fc). { exists []. simpl. intuition. }
    exists [commit_call fc]. simpl. intuition.
Qed.

(** C2: the clean-up of [File.Close]. With a backup, the backup is
    renamed back to the target path whenever the error of [Close] or the
    latched write error is set, and removed when neither is; without a
    backup, the target path is removed whenever one of the two errors is
    set. So a creation that fails with [ErrInvalidHash] or
    [ErrContentLengthMismatch] ends with the removal of the target path,
    and leaves nothing there when the store carries that removal out. *)
Theorem File_Close_cleanup (f : File Handle) (fc : fileCreation) (c : Ctx) :
  f_fc f = Some fc ->
  let s1 := fst (afero_File_Close (f_f f) (fs c)) in
  let c' := fst (fst (File_Close f c)) in
  let err := snd (File_Close f c) in
  let failed := err <> None \/ fc_err fc <> None in
  match fc_olddoc fc with
  | Some _ =>
      (failed ->
       fs c' = fst (afero_Rename (fc_bakpath fc) (fc_newpath fc) s1)
       /\ exists l, calls c' = (l ++ [EvRename (fc_bakpath fc) (fc_newpath fc)])%list)
      /\ (~ failed ->
          fs c' = fst (afero_Remove (fc_bakpath fc) s1)
          /\ exists l, calls c' = (l ++ [EvRemove (fc_bakpath fc)])%list)
  | None =>
      (failed ->
       fs c' = fst (afero_Remove (fc_newpath fc) s1)
       /\ exists l, calls c' = (l ++ [EvRemove (fc_newpath fc)])%list)
      /\ (~ failed -> fs c' = s1)
      /\ (err = Some ErrInvalidHash \/ err = Some ErrContentLengthMismatch ->
          db c' = db c
          /\ fs c' = fst (afero_Remove (fc_newpath fc) s1)
          /\ (Remove_removes ->
              snd (afero_Remove (fc_newpath fc) s1) = None ->
              exists e, afero_Stat (fc_newpath fc) (fs c') = Some e
                        /\ os_error_IsNotExist e = true))
  end.
Proof.
  intros Hfc. cbv zeta.
  destruct (File_Close_cleanup_cases f fc c Hfc) as (Hfs & l & Hcalls & _).
  cbv zeta in Hfs, Hcalls.
  pose proof (failed_test (snd (File_Close f c)) (fc_err fc)) as Hfailed.
  unfold cleanup_calls in Hcalls.
  destruct (fc_olddoc fc) eqn:Hold.
  - destruct (negb (is_nil (snd (File_Close f c))) || negb (is_nil (fc_err fc))).
    + split; [intros _ | intros Hn; exfalso; apply Hn; now apply Hfailed].
      split; [assumption|].
      exists (calls c ++ EvClose :: l)%list.
      rewrite Hcalls, <- app_assoc. reflexivity.
    + split; [intros Hn; apply Hfailed in Hn; discriminate | intros _].
      split; [assumption|].
      exists (calls c ++ EvClose :: l)%list.
      rewrite Hcalls, <- app_assoc. reflexivity.
  - assert (Hval : snd (File_Close f c) = Some ErrInvalidHash
                   \/ snd (File_Close f c) = Some ErrContentLengthMismatch ->
                   db (fst (fst (File_Close f c))) = db c).
    { intros Herr. pose proof (File_Close_cases f fc c Hfc) as Hc.
      cbv zeta in Hc.
      destruct (snd (afero_File_Close (f_f f) (fs c))); [tauto|].
      destruct (digest_test fc); [tauto|].
      destruct (size_test fc); [tauto|].
      destruct Hc as (He & _). exfalso.
      destruct (commit_error fc (db c)); simpl in He;
        destruct Herr as [Hx|Hx]; congruence. }
    destruct (negb (is_nil (snd (File_Close f c))) || negb (is_nil (fc_err fc))).
    + split; [intros _ | split; [intros Hn; exfalso; apply Hn; now apply Hfailed|]].
      * split; [assumption|].
        exists (calls c ++ EvClose :: l)%list.
        rewrite Hcalls, <- app_assoc. reflexivity.
      * intros Herr. split; [auto|]. split; [assumption|].
        intros Hlaw Hok. rewrite Hfs. apply Hlaw, Hok.
    + assert (Hnf : ~ (snd (File_Close f c) <> None \/ fc_err fc <> None))
        by (intros Hn; apply Hfailed in Hn; discriminate).
      split; [intros Hn; exfalso; tauto|].
      split; [intros _; assumption|].
      intros [Herr|Herr]; exfalso; apply Hnf; left; congruence.
Qed.

(** C4 (amended): when the underlying close and the validations succeed
    and the commit fails, [File.Close] returns the commit error and its
    clean-up runs as for any other error: a created target is removed,
    and in replace mode the backup is renamed back to the target path. *)
Theorem File_Close_commit_failure (f : File Handle) (fc : fileCreation)
    (c : Ctx) (e : couchdb_Error) :
  f_fc f = Some fc ->
  snd (afero_File_Close (f_f f) (fs c)) = None ->
  digest_valid fc -> size_valid fc ->
  commit_error fc (db c) = Some e ->
  let s1 := fst (afero_File_Close (f_f f) (fs c)) in
  let c' := fst (fst (File_Close f c)) in
  snd (File_Close f c) = Some (CouchError e)
  /\ db c' = commit_db fc (db c)
  /\ match fc_olddoc fc with
     | None =>
         fs c' = fst (afero_Remove (fc_newpath fc) s1)
         /\ calls c' =
              (calls c ++ [EvClose; EvCreateDoc (completed_newdoc fc);
                           EvRemove (fc_newpath fc)])%list
     | Some _ =>
         fs c' = fst (afero_Rename (fc_bakpath fc) (fc_newpath fc) s1)
         /\ calls c' =
              (calls c ++ [EvClose; EvUpdateDoc (completed_newdoc fc);
                           EvRename (fc_bakpath fc) (fc_newpath fc)])%list
     end.
Proof.
  intros Hfc Hclose Hd Hs Hcommit. cbv zeta.
  pose proof (File_Close_cases f fc c Hfc) as Hc. cbv zeta in Hc.
  destruct (File_Close_cleanup_cases f fc c Hfc) as (Hfs & _).
  cbv zeta in Hfs.
  apply digest_test_valid in Hd. apply size_test_valid in Hs.
  rewrite Hclose, Hd, Hs, Hcommit in Hc. destruct Hc as (Herr & Hdb & Hcalls).
  simpl in Herr. rewrite Herr in Hfs, Hcalls.
  unfold cleanup_calls, commit_call in Hcalls. simpl in Hfs, Hcalls.
  split; [assumption|]. split; [assumption|].
  destruct (fc_olddoc fc); auto.
Qed.

(** *** Writing *)

(** A write error of the underlying handle is latched. *)
Lemma File_Write_latches (f : File Handle) (fc : fileCreation) (p : bytes)
    (c : Ctx) (n : Z) (e : os_error) :
  f_fc f = Some fc ->
  snd (afero_File_Write (f_f f) p (fs c)) = (n, Some e) ->
  snd (File_Write f p c) = (n, Some (OsError e))
  /\ f_fc (snd (fst (File_Write f p c)))
     = Some (set_fc_err (Some (OsError e)) fc).
Proof.
  intros Hfc Hw. unfold File_Write, Handle_Write. rewrite Hfc.
  destruct (afero_File_Write (f_f f) p (fs c)) as [s [n' err]].
  simpl in Hw. injection Hw as -> ->. simpl. auto.
Qed.

(** A write that succeeds advances the count and the running digest and
    leaves the rest of the handle as it is. *)
Lemma File_Write_advances (f : File Handle) (fc : fileCreation) (p : bytes)
    (c : Ctx) (n : Z) :
  f_fc f = Some fc ->
  snd (afero_File_Write (f_f f) p (fs c)) = (n, None) ->
  snd (File_Write f p c) = (n, None)
  /\ f_fc (snd (fst (File_Write f p c))) = Some (fc_written n p fc).
Proof.
  intros Hfc Hw. unfold File_Write, Handle_Write. rewrite Hfc.
  destruct (afero_File_Write (f_f f) p (fs c)) as [s [n' err]].
  simpl in Hw. injection Hw as -> ->. simpl. auto.
Qed.

(** The latched write error has no part in what [File.Close] returns
    nor in whether it commits: with the close, the validations and the
    commit succeeding, [File.Close] returns nil and the document is
    committed, whatever was latched. *)
Lemma File_Close_ignores_latched_error (f : File Handle) (fc : fileCreation)
    (c : Ctx) :
  f_fc f = Some fc ->
  snd (afero_File_Close (f_f f) (fs c)) = None ->
  digest_valid fc -> size_valid fc ->
  commit_error fc (db c) = None ->
  snd (File_Close f c) = None
  /\ db (fst (fst (File_Close f c))) = commit_db fc (db c)
  /\ In (commit_call fc) (calls_since c (fst (fst (File_Close f c)))).
Proof.
  intros Hfc Hclose Hd Hs Hcommit.
  pose proof (File_Close_cases f fc c Hfc) as Hc. cbv zeta in Hc.
  apply digest_test_valid in Hd. apply size_test_valid in Hs.
  rewrite Hclose, Hd, Hs, Hcommit in Hc. destruct Hc as (Herr & Hdb & Hcalls).
  rewrite (calls_since_app _ _ _ Hcalls). simpl. auto.
Qed.

(** *** The metadata mutator and the trash *)

Lemma FileDoc_Path_keeps (c : Ctx) (f f' : FileDoc) (r : result string) :
  FileDoc_Path c f = (f', r) ->
  Name f' = Name f /\ DirID f' = DirID f /\ RestorePath f' = RestorePath f
  /\ DocID f' = DocID f /\ DocRev f' = DocRev f.
Proof.
  intros H. destruct (FileDoc_Path_fields _ _ _ _ H) as [-> | [p ->]];
    repeat split; reflexivity.
Qed.

Lemma UpdateDoc_keeps (doc doc' : FileDoc) (c c' : Ctx) (err : option error) :
  UpdateDoc doc c = (c', doc', err) ->
  Name doc' = Name doc /\ DirID doc' = DirID doc
  /\ RestorePath doc' = RestorePath doc /\ DocID doc' = DocID doc.
Proof.
  unfold UpdateDoc. destruct (DB_UpdateDoc doc c) as [c1 [e|rev]];
    intros [= _ <- _]; repeat split; reflexivity.
Qed.

(** The document [ModifyFileMetadata] returns carries the values of the
    patch, those of the old document where the patch is silent, and the
    identity of the old document. *)
Lemma ModifyFileMetadata_fields (c c' : Ctx) (olddoc olddoc' newdoc : FileDoc)
    (patch : DocPatch) (err : option error) :
  ModifyFileMetadata c olddoc patch = (c', olddoc', Some newdoc, err) ->
  Name newdoc = default (Name olddoc) (patch_Name patch)
  /\ DirID newdoc =
       (if String.eqb (default (DirID olddoc) (patch_DirID patch)) ""
        then consts_RootDirID
        else default (DirID olddoc) (patch_DirID patch))
  /\ RestorePath newdoc = default (RestorePath olddoc) (patch_RestorePath patch)
  /\ DocID newdoc = DocID olddoc.
Proof.
  unfold ModifyFileMetadata. cbv zeta.
  destruct (normalizeDocPatch _ patch (CreatedAt olddoc)) as [full|?] eqn:Hn;
    [|intros [=]].
  assert (Hfull : full_Name full = default (Name olddoc) (patch_Name patch)
                  /\ full_DirID full = default (DirID olddoc) (patch_DirID patch)
                  /\ full_RestorePath full
                     = default (RestorePath olddoc) (patch_RestorePath patch)).
  { unfold normalizeDocPatch in Hn. cbv zeta in Hn.
    destruct (validatePatch _ _); [discriminate|].
    injection Hn as <-. repeat split; reflexivity. }
  clear Hn.
  destruct (NewFileDoc _ _ _ _ _ _ _ _ _) as [nd|?] eqn:Hnew; [|intros [=]].
  assert (Hnd : Name nd = full_Name full
                /\ DirID nd = (if String.eqb (full_DirID full) ""
                               then consts_RootDirID else full_DirID full)).
  { unfold NewFileDoc in Hnew. destruct (checkFileName _); [discriminate|].
    injection Hnew as <-. split; reflexivity. }
  clear Hnew.
  set (d0 := set_RestorePath (full_RestorePath full) nd).
  assert (Hd0 : Name d0 = Name nd /\ DirID d0 = DirID nd
                /\ RestorePath d0 = full_RestorePath full)
    by (repeat split; reflexivity).
  clearbody d0.
  destruct (if negb (String.eqb (DirID d0) (DirID olddoc)) then _ else _)
    as [[d1 p'] e1] eqn:Hif.
  assert (Hd1 : Name d1 = Name d0 /\ DirID d1 = DirID d0
                /\ RestorePath d1 = RestorePath d0).
  { destruct (negb _).
    - unfold FileDoc_Parent in Hif. destruct (getParentDir _ _ _);
        injection Hif as <- _ _; repeat split; reflexivity.
    - injection Hif as <- _ _; repeat split; reflexivity. }
  clear Hif.
  destruct e1; [intros [=]|].
  set (d2 := set_parent p' _).
  assert (Hd2 : Name d2 = Name d1 /\ DirID d2 = DirID d1
                /\ RestorePath d2 = RestorePath d1 /\ DocID d2 = DocID olddoc)
    by (repeat split; reflexivity).
  clearbody d2.
  destruct (FileDoc_Path c olddoc) as [old1 [oldpath|?]]; [|intros [=]].
  destruct (FileDoc_Path c d2) as [d3 r3] eqn:Hp3.
  apply FileDoc_Path_keeps in Hp3.
  destruct r3 as [newpath|?]; [|intros [=]].
  destruct (if negb (String.eqb newpath oldpath) then _ else _) as [c1 [?|]];
    [intros [=]|].
  destruct (if negb (Bool.eqb (Executable d3) (Executable old1)) then _ else _)
    as [c2 [?|]]; [intros [=]|].
  destruct (UpdateDoc d3 c2) as [[c3 d4] e4] eqn:Hup.
  apply UpdateDoc_keeps in Hup.
  intros [= _ _ <- _].
  destruct Hup as (-> & -> & -> & ->).
  destruct Hp3 as (-> & -> & -> & -> & _).
  destruct Hd2 as (-> & -> & -> & ->).
  destruct Hd1 as (-> & -> & ->).
  destruct Hd0 as (-> & -> & ->).
  destruct Hnd as (-> & ->).
  destruct Hfull as (-> & -> & ->).
  repeat split; reflexivity.
Qed.

(** The old document [ModifyFileMetadata] hands back is the one it was
    given, but for its parent cache. *)
Lemma ModifyFileMetadata_olddoc (c c' : Ctx) (olddoc olddoc' : FileDoc)
    (patch : DocPatch) (newdoc : option FileDoc) (err : option error) :
  ModifyFileMetadata c olddoc patch = (c', olddoc', newdoc, err) ->
  DocID olddoc' = DocID olddoc /\ Name olddoc' = Name olddoc.
Proof.
  unfold ModifyFileMetadata. cbv zeta.
  destruct (normalizeDocPatch _ patch (CreatedAt olddoc)) as [full|?];
    [|intros [= _ <- _ _]; auto].
  destruct (NewFileDoc _ _ _ _ _ _ _ _ _) as [nd|?];
    [|intros [= _ <- _ _]; auto].
  destruct (if negb (String.eqb _ (DirID olddoc)) then _ else _)
    as [[d1 p'] [?|]]; [intros [= _ <- _ _]; auto|].
  destruct (FileDoc_Path c olddoc) as [old1 r1] eqn:Hp1.
  apply FileDoc_Path_keeps in Hp1. destruct Hp1 as (Hn & _ & _ & Hi & _).
  destruct r1 as [oldpath|?]; [|intros [= _ <- _ _]; auto].
  destruct (FileDoc_Path c _) as [d3 [newpath|?]];
    [|intros [= _ <- _ _]; auto].
  destruct (if negb (String.eqb newpath oldpath) then _ else _) as [c1 [?|]];
    [intros [= _ <- _ _]; auto|].
  destruct (if negb (Bool.eqb (Executable d3) (Executable old1)) then _ else _)
    as [c2 [?|]]; [intros [= _ <- _ _]; auto|].
  destruct (UpdateDoc d3 c2) as [[c3 d4] e4].
  intros [= _ <- _ _]; auto.
Qed.

(** The conflict namer ends with the call it made last: under the
    candidate name, or under an alternate name after the candidate
    collided. What the operation preserves holds when that call is
    made. *)
Lemma tryOrUseSuffix_from_last {St : Type} (name format : string)
    (do : string -> St -> St * option error) (P : St -> Prop)
    (retries : nat) :
  (forall nm s s' e, P s -> do nm s = (s', e) -> P s') ->
  forall (n : nat) (st st' : St) (err : option error),
    P st ->
    tryOrUseSuffix_from retries n name format do st = (st', err) ->
    exists k st0,
      (n <= k <= n + retries)%nat
      /\ P st0
      /\ do (candidate name format k) st0 = (st', err)
      /\ (k <> n ->
          exists st1 e, do (candidate name format n) st = (st1, Some e)
                        /\ os_IsExist e = true).
Proof.
  intros Hpres.
  induction retries as [|retries IH]; intros n st st' err HP; simpl;
    fold (candidate name format n);
    destruct (do (candidate name format n) st) as [st1 [e|]] eqn:Hdo.
  - destruct (os_IsExist e); intros [= <- <-];
      exists n, st; repeat split; (lia || assumption || congruence).
  - intros [= <- <-]. exists n, st.
    repeat split; (lia || assumption || congruence).
  - destruct (os_IsExist e) eqn:Hex.
    + intros Hrec. apply IH in Hrec; [|exact (Hpres _ _ _ _ HP Hdo)].
      destruct Hrec as (k & st0 & Hk & HP0 & Hlast & _).
      exists k, st0. split; [lia|]. split; [assumption|].
      split; [assumption|].
      intros _. exists st1, e. auto.
    + intros [= <- <-]. exists n, st.
      repeat split; (lia || assumption || congruence).
  - intros [= <- <-]. exists n, st.
    repeat split; (lia || assumption || congruence).
Qed.

(** [TrashFile] refuses a file whose path lies under the trash root, and
    calls no store. *)
Lemma TrashFile_in_trash (c : Ctx) (doc doc1 : FileDoc) (p : string) :
  FileDoc_Path c doc = (doc1, Ok p) ->
  lies_under TrashDirName p ->
  TrashFile c doc = (c, doc1, None, Some ErrFileInTrash).
Proof.
  intros Hp Hunder. unfold TrashFile. rewrite Hp.
  now rewrite (lies_under_HasPrefix _ _ Hunder).
Qed.

(** What [TrashFile] returns with a document is what the last call of
    [ModifyFileMetadata] returned, made under the name of the file or,
    after that name collided, under one of its suffixed variants. *)
Lemma TrashFile_last_attempt (c c' : Ctx) (olddoc olddoc1 olddoc' newdoc : FileDoc)
    (oldpath : string) (err : option error) :
  FileDoc_Path c olddoc = (olddoc1, Ok oldpath) ->
  TrashFile c olddoc = (c', olddoc', Some newdoc, err) ->
  exists k c0 od0,
    (k <= maxConflictRetries)%nat
    /\ DocID od0 = DocID olddoc
    /\ ModifyFileMetadata c0 od0
         (trash_patch (candidate (Name olddoc) conflictFormat k) (path.Dir oldpath))
       = (c', olddoc', Some newdoc, err)
    /\ (k <> O ->
        exists st1 e,
          TrashFile_do consts_TrashDirID (path.Dir oldpath) (Name olddoc)
            (c, olddoc1, None, None) = (st1, Some e)
          /\ os_IsExist e = true).
Proof.
  intros Hpath. unfold TrashFile. rewrite Hpath.
  destruct (strings_HasPrefix oldpath TrashDirName); [intros [=]|].
  cbv zeta. unfold tryOrUseSuffix.
  destruct (tryOrUseSuffix_from _ _ _ _ _ _) as [st' err0] eqn:Htry.
  simpl. intros ->.
  apply (tryOrUseSuffix_from_last _ _ _
           (fun st => DocID (snd (fst (fst st))) = DocID olddoc)) in Htry.
  2:{ intros nm [[[c0 od0] nd0] e0] s' e HP. unfold TrashFile_do.
      destruct (ModifyFileMetadata c0 od0 _) as [[[c1 od1] nd1] e1] eqn:Hmod.
      intros [= <- _]. simpl in *.
      apply ModifyFileMetadata_olddoc in Hmod. destruct Hmod as [-> _].
      assumption. }
  2:{ simpl. apply (FileDoc_Path_keeps _ _ _ _ Hpath). }
  destruct Htry as (k & [[[c0 od0] nd0] e0] & Hk & HP0 & Hlast & Hfirst).
  simpl in HP0.
  unfold TrashFile_do at 1 in Hlast.
  destruct (FileDoc_Path_keeps _ _ _ _ Hpath) as (Hn1 & _).
  rewrite Hn1 in *.
  destruct (ModifyFileMetadata c0 od0 _) as [[[c1 od1] nd1] e1] eqn:Hmod.
  injection Hlast as -> -> -> -> _.
  exists k, c0, od0. split; [lia|]. split; [assumption|].
  split; [exact Hmod | exact Hfirst].
Qed.

(** Once a file has been trashed, trashing the returned document fails with
    [ErrFileInTrash] and changes nothing, where the trash directory
    resolves to the trash root and the name of the document is a plain
    element. *)
Lemma TrashFile_twice (c c' : Ctx) (olddoc olddoc' newdoc : FileDoc) :
  TrashFile c olddoc = (c', olddoc', Some newdoc, None) ->
  consts_TrashDirID <> "" ->
  consts_TrashDirID <> consts_RootDirID ->
  path.Clean TrashDirName = TrashDirName ->
  path.IsAbs TrashDirName = true ->
  TrashDirName <> "/" ->
  plain_element (Name newdoc) ->
  (exists p,
      getParentDir c' (parent newdoc) consts_TrashDirID = Ok p
      /\ DirDoc_Path p c' = Ok TrashDirName) ->
  exists newdoc',
    TrashFile c' newdoc = (c', newdoc', None, Some ErrFileInTrash).
Proof.
  intros Hfirst Hid Hroot Hclean Habs Hslash Hname Hres.
  assert (Hp : exists od1 oldpath, FileDoc_Path c olddoc = (od1, Ok oldpath)).
  { unfold TrashFile in Hfirst.
    destruct (FileDoc_Path c olddoc) as [od1 [oldpath|e]]; [eauto|discriminate]. }
  destruct Hp as (od1 & oldpath & Hp).
  destruct (TrashFile_last_attempt _ _ _ _ _ _ _ _ Hp Hfirst)
    as (k & c0 & od0 & _ & _ & Hmod & _).
  apply ModifyFileMetadata_fields in Hmod. simpl in Hmod.
  destruct Hmod as (_ & Hdir & _).
  apply String.eqb_neq in Hid. rewrite Hid in Hdir.
  destruct Hres as (p & Hget & Hdp).
  assert (Hpath : FileDoc_Path c' newdoc
                  = (set_parent (Some p) newdoc,
                     Ok (path.Join TrashDirName (Name newdoc)))).
  { unfold FileDoc_Path, FileDoc_Parent. rewrite Hdir.
    apply String.eqb_neq in Hroot. rewrite Hroot, Hget, Hdp. reflexivity. }
  exists (set_parent (Some p) newdoc).
  apply (TrashFile_in_trash _ _ _ _ Hpath). now apply Join_lies_under.
Qed.

(** The handle [CreateFile] returns: nothing written, nothing latched, and
    the digest to be checked exactly when the new document declares one. *)
Lemma CreateFile_handle (now : Time) (newdoc : FileDoc)
    (olddoc : option FileDoc) (c c' : Ctx) (f : File Handle) :
  CreateFile now newdoc olddoc c = (c', Ok f) ->
  exists fc,
    f_fc f = Some fc
    /\ fc_w fc = 0 /\ fc_hash fc = [] /\ fc_err fc = None
    /\ fc_olddoc fc = olddoc
    /\ MD5Sum (fc_newdoc fc) = MD5Sum newdoc
    /\ Size (fc_newdoc fc) = Size newdoc
    /\ fc_checkHash fc = negb (is_nil (MD5Sum newdoc)).
Proof.
  unfold CreateFile.
  destruct (FileDoc_Path c newdoc) as [d [newpath|e]] eqn:Hpath; [|intros [=]].
  assert (Hd : MD5Sum d = MD5Sum newdoc /\ Size d = Size newdoc).
  { destruct (FileDoc_Path_fields _ _ _ _ Hpath) as [-> | [p ->]];
      split; reflexivity. }
  destruct Hd as [Hmd5 Hsize].
  destruct olddoc as [old|].
  - destruct (safeRenameFile newpath _ c) as [c1 [e|]]; [intros [=]|].
    destruct (safeCreateFile newpath _ c1) as [c2 [e|h]]; [intros [=]|].
    intros [= _ <-]. eexists. split; [reflexivity|]. simpl.
    rewrite Hmd5. repeat split; assumption.
  - destruct (safeCreateFile newpath _ c) as [c2 [e|h]]; [intros [=]|].
    intros [= _ <-]. eexists. split; [reflexivity|]. simpl.
    rewrite Hmd5. repeat split; assumption.
Qed.

(** A write changes the count, the running digest and the latched error
    only: what [File.Close] validates against stays as declared. *)
Lemma File_Write_keeps (f : File Handle) (fc : fileCreation) (p : bytes)
    (c : Ctx) :
  f_fc f = Some fc ->
  exists fc',
    f_fc (snd (fst (File_Write f p c))) = Some fc'
    /\ fc_newdoc fc' = fc_newdoc fc /\ fc_olddoc fc' = fc_olddoc fc
    /\ fc_newpath fc' = fc_newpath fc /\ fc_bakpath fc' = fc_bakpath fc
    /\ fc_checkHash fc' = fc_checkHash fc.
Proof.
  intros Hfc. unfold File_Write, Handle_Write. rewrite Hfc.
  destruct (afero_File_Write (f_f f) p (fs c)) as [s [n [e|]]]; simpl;
    eexists; (split; [reflexivity|]); repeat split.
Qed.

End Properties.

(** * The properties on the in-memory instance *)

Import Mem Scenario.

(** In the in-memory store a removal that succeeds leaves nothing at the
    path. *)
Lemma Mem_Remove_removes : Remove_removes (CS := Mem.store).
Proof.
  intros name s. simpl. unfold Remove, Stat.
  destruct (mem_elem name (unreadable s)) eqn:Hu; [discriminate|].
  destruct (files s !! name) eqn:Hl; [|discriminate]. intros _. simpl.
  rewrite Hu, lookup_delete_eq. eexists; split; reflexivity.
Qed.

(** Creating /a.txt and writing [hello] gives the handle and the context of
    the scenario. *)
Example stage_a :
  stage 10 doc_unset None hello init = Some (ctx_written, file_a doc_unset).
Proof. vm_compute. reflexivity. Qed.

(** Closing that handle stores the document of /a.txt. *)
Example stored_a_in_db : docs (db ctx_stored) !! "id1" = Some stored_a.
Proof. vm_compute. reflexivity. Qed.

(** C2 on the in-memory instance: a creation that declares a wrong digest
    fails with [ErrInvalidHash] and leaves nothing at /a.txt. *)
Lemma File_Close_cleanup_witness :
  f_fc (file_a doc_badhash) = Some (fc_a doc_badhash)
  /\ snd (File_Close (file_a doc_badhash) ctx_written) = Some ErrInvalidHash
  /\ exists e,
       afero_Stat "/a.txt" (fs (fst (fst (File_Close (file_a doc_badhash) ctx_written))))
       = Some e
       /\ os_error_IsNotExist e = true.
Proof.
  split; [reflexivity|]. split; [vm_compute; reflexivity|].
  destruct (File_Close_cleanup (file_a doc_badhash) (fc_a doc_badhash)
              ctx_written eq_refl) as (_ & _ & H).
  apply H.
  - left. vm_compute. reflexivity.
  - exact Mem_Remove_removes.
  - vm_compute. reflexivity.
Defined.

(** A handle that declares nothing passes both validations. *)
Lemma digest_valid_unset : digest_valid (fc_a doc_unset).
Proof. intros Hcheck. discriminate Hcheck. Defined.

Lemma size_valid_unset : size_valid (fc_a doc_unset).
Proof. left. reflexivity. Defined.

(** C4 as stated fails: with the database offline the commit of the
    created /a.txt fails, and the content does not stay at /a.txt. *)
Lemma commit_failure_counterexample :
  ~ commit_failure_leaves_content (file_a doc_unset) ctx_offline.
Proof.
  intros H.
  assert (Hclose : snd (afero_File_Close (f_f (file_a doc_unset)) (fs ctx_offline)) = None)
    by reflexivity.
  assert (Hcommit : commit_error (fc_a doc_unset) (db ctx_offline) = Some unavailable)
    by reflexivity.
  destruct (H (fc_a doc_unset) unavailable eq_refl Hclose
              digest_valid_unset size_valid_unset Hcommit) as (_ & _ & Hstat).
  vm_compute in Hstat. discriminate Hstat.
Qed.

(** C4 (amended) on the in-memory instance: with the database offline,
    [File.Close] returns the commit error and then removes /a.txt. *)
Lemma File_Close_commit_failure_witness :
  f_fc (file_a doc_unset) = Some (fc_a doc_unset)
  /\ snd (afero_File_Close (f_f (file_a doc_unset)) (fs ctx_offline)) = None
  /\ digest_valid (fc_a doc_unset)
  /\ size_valid (fc_a doc_unset)
  /\ commit_error (fc_a doc_unset) (db ctx_offline) = Some unavailable
  /\ snd (File_Close (file_a doc_unset) ctx_offline) = Some (CouchError unavailable)
  /\ calls (fst (fst (File_Close (file_a doc_unset) ctx_offline)))
     = (calls ctx_offline
          ++ [EvClose; EvCreateDoc (completed_newdoc (fc_a doc_unset));
              EvRemove "/a.txt"])%list.
Proof.
  split; [reflexivity|]. split; [reflexivity|].
  split; [exact digest_valid_unset|]. split; [exact size_valid_unset|].
  split; [reflexivity|].
  assert (Hclose : snd (afero_File_Close (f_f (file_a doc_unset)) (fs ctx_offline)) = None)
    by reflexivity.
  assert (Hcommit : commit_error (fc_a doc_unset) (db ctx_offline) = Some unavailable)
    by reflexivity.
  destruct (File_Close_commit_failure (file_a doc_unset) (fc_a doc_unset)
              ctx_offline unavailable eq_refl Hclose
              digest_valid_unset size_valid_unset Hcommit)
    as (Herr & _ & _ & Hcalls).
  split; [exact Herr | exact Hcalls].
Defined.

(** Replacing the stored /a.txt gives the handle and the context of the
    scenario. *)
Example replace_a :
  CreateFile 20 doc_unset (Some stored_a) ctx_stored
  = (ctx_replacing, Ok file_replace).
Proof. vm_compute. reflexivity. Qed.

(** C8 on the in-memory instance: the handle that replaces /a.txt holds a
    document with the stored id, revision and creation time, updated at the
    time of the call. *)
Lemma CreateFile_inherits_identity_witness :
  CreateFile 20 doc_unset (Some stored_a) ctx_stored
  = (ctx_replacing, Ok file_replace)
  /\ exists fc,
       f_fc file_replace = Some fc
       /\ DocID (fc_newdoc fc) = "id1" /\ DocRev (fc_newdoc fc) = "1-1"
       /\ CreatedAt (fc_newdoc fc) = 5 /\ UpdatedAt (fc_newdoc fc) = 20.
Proof.
  assert (H : CreateFile 20 doc_unset (Some stored_a) ctx_stored
              = (ctx_replacing, Ok file_replace)) by (vm_compute; reflexivity).
  split; [exact H|].
  destruct (CreateFile_inherits_identity 20 doc_unset stored_a ctx_stored
              ctx_replacing file_replace H)
    as (fc & Hfc & Hid & Hrev & Hct & Hut & _).
  exists fc. repeat split; assumption.
Defined.

(** C5 on the in-memory instance: replacing /a.txt stats the backup path,
    renames /a.txt to it, and only then opens /a.txt. *)
Lemma CreateFile_backs_up_first_witness :
  FileDoc_Path ctx_stored doc_unset = (doc_unset, Ok "/a.txt")
  /\ calls ctx_replacing
     = (calls ctx_stored
          ++ [EvStat "/.id1_1-1"; EvRename "/a.txt" "/.id1_1-1";
              EvOpenFile "/a.txt" 193 420])%list.
Proof.
  assert (H : FileDoc_Path ctx_stored doc_unset = (doc_unset, Ok "/a.txt"))
    by reflexivity.
  split; [exact H|].
  destruct (CreateFile_backs_up_first 20 doc_unset stored_a ctx_stored
              doc_unset "/a.txt" H) as ((Hcalls & _) & _).
  exact Hcalls.
Defined.

(** A writer whose target has been moved away meanwhile gets a conflict. *)
Example replace_lost_race :
  snd (CreateFile 20 doc_unset (Some stored_a) ctx_trashed) = Err ErrConflict.
Proof. vm_compute. reflexivity. Qed.

(** C7 on the in-memory instance: destroying /a.txt removes the content,
    then deletes the document. *)
Lemma DestroyFile_content_first_witness :
  FileDoc_Path ctx_stored stored_a = (stored_a, Ok "/a.txt")
  /\ snd (DestroyFile ctx_stored stored_a) = None
  /\ calls (fst (DestroyFile ctx_stored stored_a))
     = (calls ctx_stored ++ [EvRemove "/a.txt"; EvDeleteDoc stored_a])%list.
Proof.
  assert (H : FileDoc_Path ctx_stored stored_a = (stored_a, Ok "/a.txt"))
    by reflexivity.
  split; [exact H|].
  destruct (DestroyFile_content_first ctx_stored stored_a stored_a
              (Ok "/a.txt") H) as (_ & Herr & _ & Hcalls).
  split; [exact Herr | exact Hcalls].
Defined.

(** C6 on the in-memory instance: the file /.cozy_trash_notes.txt is stored
    in the root directory, and its path does not lie under the trash root
    /.cozy_trash; yet [TrashFile] refuses it with [ErrFileInTrash] and
    calls no store, because the path begins with the characters of the
    trash root. *)
Theorem TrashFile_refuses_file_beside_trash :
  checkFileName (Package := package) (Name BesideTrash.stored_notes) = None
  /\ docs (db BesideTrash.ctx_notes) !! "id1" = Some BesideTrash.stored_notes
  /\ files (fs BesideTrash.ctx_notes) !! "/.cozy_trash_notes.txt"
     = Some {| content := hello; mode := 420 |}
  /\ DirID BesideTrash.stored_notes = RootDirID
  /\ FileDoc_Path BesideTrash.ctx_notes BesideTrash.stored_notes
     = (BesideTrash.stored_notes, Ok "/.cozy_trash_notes.txt")
  /\ ~ lies_under (TrashDirName (Package := package)) "/.cozy_trash_notes.txt"
  /\ TrashFile BesideTrash.ctx_notes BesideTrash.stored_notes
     = (BesideTrash.ctx_notes, BesideTrash.stored_notes, None,
        Some ErrFileInTrash).
Proof.
  split; [reflexivity|]. split; [vm_compute; reflexivity|].
  split; [vm_compute; reflexivity|]. split; [reflexivity|].
  split; [vm_compute; reflexivity|]. split.
  - intros [H | [rest H]]; [discriminate H|].
    vm_compute in H. discriminate H.
  - vm_compute. reflexivity.
Qed.

(** Trashing /a.txt moves the content under the trash root and returns the
    trashed document. *)
Example trash_a :
  snd (fst (TrashFile ctx_stored stored_a)) = Some trashed_a
  /\ snd (TrashFile ctx_stored stored_a) = None
  /\ files (fs ctx_trashed) !! "/a.txt" = None
  /\ files (fs ctx_trashed) !! "/.cozy_trash/a.txt"
     = Some {| content := hello; mode := 420 |}.
Proof. vm_compute. repeat split; reflexivity. Qed.

(** Trashing it a second time fails and changes nothing. *)
Example trash_a_twice :
  TrashFile ctx_trashed trashed_a
  = (ctx_trashed, trashed_a, None, Some ErrFileInTrash).
Proof. vm_compute. reflexivity. Qed.

(** Trashing a second a.txt, while the first one is in the trash, gives it a
    suffixed name. *)
Example trash_second_a :
  option_map Name (snd (fst (TrashFile ctx_second second_a)))
  = Some "a.txt (__cozy__: 1)"
  /\ snd (TrashFile ctx_second second_a) = None.
Proof. vm_compute. split; reflexivity. Qed.

(** C9 as stated fails: when the new path cannot be examined,
    [safeRenameFile] returns the error of the stat and does not call the
    rename. *)
Lemma safeRenameFile_counterexample :
  ~ safeRenameFile_three_cases "/a.txt" "/b.txt" ctx_unreadable.
Proof.
  unfold safeRenameFile_three_cases. vm_compute.
  intros [[Hin | []] _]. discriminate Hin.
Qed.

(** On files of three bytes at most, the write of [hello] to the created
    /a.txt is cut short and fails. *)
Example stage_short :
  CreateFile 10 doc_unset None ctx_small = (ctx_created_small, Ok file_created)
  /\ File_Write file_created hello ctx_created_small
     = (ctx_short, file_short, (3, Some (OsError enospc))).
Proof. vm_compute. split; reflexivity. Qed.

(** C3 on the in-memory instance: a write to /a.txt fails and its error
    is latched; yet the [File.Close] that follows returns nil and commits
    the document, while its clean-up removes the content. *)
Theorem latched_write_error_not_returned :
  File_Write file_created hello ctx_created_small
  = (ctx_short, file_short, (3, Some (OsError enospc)))
  /\ fc_err fc_short = Some (OsError enospc)
  /\ snd (File_Close file_short ctx_short) = None
  /\ calls_since ctx_short (fst (fst (File_Close file_short ctx_short)))
     = [EvClose; EvCreateDoc (completed_newdoc fc_short); EvRemove "/a.txt"]
  /\ is_Some (docs (db (fst (fst (File_Close file_short ctx_short)))) !! "id1")
  /\ files (fs (fst (fst (File_Close file_short ctx_short)))) !! "/a.txt" = None.
Proof.
  split; [vm_compute; reflexivity|]. split; [reflexivity|].
  split; [vm_compute; reflexivity|]. split; [vm_compute; reflexivity|].
  split; [|vm_compute; reflexivity].
  eexists. vm_compute. reflexivity.
Qed.

(** C10 on the in-memory instance. *)
Lemma NewFileDoc_empty_dirID_is_root_witness :
  checkFileName "a.txt" = None
  /\ exists doc,
       NewFileDoc (Pkg := package) "a.txt" "" 5 None "text/plain" "text" 5 false ["x"; "x"] = Ok doc
       /\ DirID doc = RootDirID /\ Name doc = "a.txt".
Proof.
  split; [reflexivity|].
  apply (NewFileDoc_empty_dirID_is_root (Pkg := package)). reflexivity.
Defined.

(** C1 on the in-memory instance: closing the handle that declares a wrong
    digest for /a.txt fails with [ErrInvalidHash] and commits nothing. *)
Lemma File_Close_validates_witness :
  f_fc (file_a doc_badhash) = Some (fc_a doc_badhash)
  /\ snd (afero_File_Close (f_f (file_a doc_badhash)) (fs ctx_written)) = None
  /\ snd (File_Close (file_a doc_badhash) ctx_written) = Some ErrInvalidHash
  /\ db (fst (fst (File_Close (file_a doc_badhash) ctx_written))) = db ctx_written.
Proof.
  assert (Hclose : snd (afero_File_Close (f_f (file_a doc_badhash)) (fs ctx_written))
                   = None) by reflexivity.
  split; [reflexivity|]. split; [exact Hclose|].
  destruct (File_Close_validates (file_a doc_badhash) (fc_a doc_badhash)
              ctx_written eq_refl Hclose) as (Hhash & _ & _ & _ & Hdb).
  split.
  - apply Hhash. split; [reflexivity|]. vm_compute. discriminate.
  - apply Hdb. intros [Hvalid _].
    specialize (Hvalid eq_refl). vm_compute in Hvalid. discriminate Hvalid.
Defined.

(** The general statement on trashing twice applies to the trashed /a.txt. *)
Example trash_a_twice_general :
  exists newdoc',
    TrashFile ctx_trashed trashed_a
    = (ctx_trashed, newdoc', None, Some ErrFileInTrash).
Proof.
  apply (TrashFile_twice ctx_stored ctx_trashed stored_a stored_a trashed_a).
  - vm_compute. reflexivity.
  - discriminate.
  - discriminate.
  - reflexivity.
  - reflexivity.
  - discriminate.
  - repeat split; discriminate.
  - exists trashDir. split; reflexivity.
Qed.

(** A declared size that differs from the count fails the creation, which
    leaves nothing at /a.txt and commits nothing. *)
Example close_badsize :
  snd (File_Close (file_a doc_badsize) ctx_written) = Some ErrContentLengthMismatch
  /\ files (fs (fst (fst (File_Close (file_a doc_badsize) ctx_written)))) !! "/a.txt" = None
  /\ db (fst (fst (File_Close (file_a doc_badsize) ctx_written))) = db ctx_written.
Proof. vm_compute. repeat split; reflexivity. Qed.

(** The right size and digest: the document is committed as declared. *)
Example close_right :
  snd (File_Close (file_a doc_right) ctx_written) = None
  /\ docs (db (fst (fst (File_Close (file_a doc_right) ctx_written)))) !! "id1"
     = Some stored_a.
Proof. vm_compute. split; reflexivity. Qed.

(** A replacement from a stale revision: the commit fails with a conflict,
    and the clean-up puts the old content back at /a.txt. *)
Example close_stale_replace :
  match stale_replace with
  | Some (c, f) =>
      snd (File_Close f c) = Some (CouchError conflict)
      /\ files (fs c) !! "/a.txt" = Some {| content := world; mode := 420 |}
      /\ files (fs (fst (fst (File_Close f c)))) !! "/a.txt"
         = Some {| content := hello; mode := 420 |}
      /\ files (fs (fst (fst (File_Close f c)))) !! "/.id1_0-9" = None
      /\ docs (db (fst (fst (File_Close f c)))) !! "id1" = Some stored_a
  | None => False
  end.
Proof. vm_compute. repeat split; reflexivity. Qed.

(** * Further properties *)

(** ** Paths *)

Section MorePathLemmas.
#[local] Arguments String.append !s1 s2 /.

Lemma Join_root_plain (e : string) :
  plain_element e -> path.Join "/" e = "/" ++ e.
Proof.
  intros He. unfold path.Join. simpl String.eqb. cbv iota.
  unfold path.Clean. simpl path.IsAbs. cbv iota.
  change ("/" ++ "/" ++ e) with ("" ++ "/" ++ ("" ++ "/" ++ e)).
  rewrite !elements_app_slash, (elements_no_slash e "") by apply He.
  simpl. rewrite (clean_step_plain _ _ _ He). reflexivity.
Qed.

Lemma upto_last_slash_app (a e : string) :
  path.has_slash e = false ->
  path.upto_last_slash (a ++ "/" ++ e) = a ++ "/".
Proof.
  intros He.
  assert (Hnone : path.upto_last_slash e = "").
  { induction e as [|ch e IH]; [reflexivity|]. simpl in *.
    apply orb_false_iff in He as [Hc He]. rewrite Hc, (IH He). reflexivity. }
  induction a as [|ch a IH]; simpl.
  - now rewrite Hnone.
  - simpl in IH. rewrite IH. destruct (Ascii.eqb ch path.slash); [reflexivity|].
    destruct a; reflexivity.
Qed.

Lemma Clean_trailing_slash (dir : string) :
  path.IsAbs dir = true -> path.Clean (dir ++ "/") = path.Clean dir.
Proof.
  intros Habs. unfold path.Clean. rewrite (IsAbs_app _ _ Habs), Habs.
  change (dir ++ "/") with (dir ++ "/" ++ "").
  rewrite elements_app_slash, fold_left_app. reflexivity.
Qed.

(** The directory of a plain element joined to a clean absolute directory
    is that directory. *)
Lemma Dir_Join_plain (dir e : string) :
  path.Clean dir = dir -> path.IsAbs dir = true -> plain_element e ->
  path.Dir (path.Join dir e) = dir.
Proof.
  intros Hclean Habs He. unfold path.Dir.
  destruct (String.eqb_spec dir "/") as [->|Hroot].
  - rewrite (Join_root_plain _ He).
    change ("/" ++ e) with ("" ++ "/" ++ e).
    rewrite upto_last_slash_app by apply He. reflexivity.
  - rewrite (Join_plain _ _ Hclean Habs Hroot He).
    rewrite upto_last_slash_app by apply He.
    now rewrite (Clean_trailing_slash _ Habs).
Qed.
End MorePathLemmas.

(** ** Documents, handles and the metadata mutator *)

Section MoreProperties.
Context {FS DB Handle : Type}.
Context {CS : ContentStore FS Handle} {CR : ContentReader FS Handle}
  {MS : MetadataStore DB} {Pkg : Package FS DB} {PkgR : PackageRestore FS DB}.

Abbreviation Ctx := (Context FS DB).

(** *** Paths of documents *)

Lemma FileDoc_Path_in_root (c : Ctx) (f : FileDoc) :
  DirID f = consts_RootDirID ->
  FileDoc_Path c f = (f, Ok (path.Join "/" (Name f))).
Proof.
  intros Hroot. unfold FileDoc_Path. rewrite Hroot, String.eqb_refl.
  reflexivity.
Qed.

Lemma FileDoc_Path_in_dir (c : Ctx) (f : FileDoc) (p : DirDoc) (P : string) :
  DirID f <> consts_RootDirID ->
  getParentDir c (parent f) (DirID f) = Ok p ->
  DirDoc_Path p c = Ok P ->
  FileDoc_Path c f = (set_parent (Some p) f, Ok (path.Join P (Name f))).
Proof.
  intros Hroot Hget Hdir. unfold FileDoc_Path, FileDoc_Parent.
  apply String.eqb_neq in Hroot. rewrite Hroot, Hget, Hdir. reflexivity.
Qed.

(** X1: the resolved path of a file whose name is a plain element is the
    path of its parent directory, a slash and the name, and its directory is
    the path of the parent: in the root without any look-up, elsewhere with
    the parent kept in the cache of the document. A failed look-up of the
    parent is returned and leaves the document as it is. *)
Theorem FileDoc_Path_of_plain_name (c : Ctx) (f : FileDoc) :
  plain_element (Name f) ->
  (DirID f = consts_RootDirID ->
   FileDoc_Path c f = (f, Ok ("/" ++ Name f))
   /\ path.Dir ("/" ++ Name f) = "/")
  /\ (forall p P,
        DirID f <> consts_RootDirID ->
        getParentDir c (parent f) (DirID f) = Ok p ->
        DirDoc_Path p c = Ok P ->
        path.Clean P = P -> path.IsAbs P = true -> P <> "/" ->
        FileDoc_Path c f = (set_parent (Some p) f, Ok (P ++ "/" ++ Name f))
        /\ path.Dir (P ++ "/" ++ Name f) = P)
  /\ (forall e,
        DirID f <> consts_RootDirID ->
        getParentDir c (parent f) (DirID f) = Err e ->
        FileDoc_Path c f = (f, Err e)).
Proof.
  intros Hname. split; [|split].
  - intros Hroot. rewrite (FileDoc_Path_in_root c f Hroot).
    rewrite (Join_root_plain _ Hname). split; [reflexivity|].
    rewrite <- (Join_root_plain _ Hname).
    now apply Dir_Join_plain.
  - intros p P Hroot Hget Hdir Hclean Habs Hne.
    rewrite (FileDoc_Path_in_dir c f p P Hroot Hget Hdir).
    rewrite (Join_plain _ _ Hclean Habs Hne Hname). split; [reflexivity|].
    rewrite <- (Join_plain _ _ Hclean Habs Hne Hname).
    now apply Dir_Join_plain.
  - intros e Hroot Hget. unfold FileDoc_Path, FileDoc_Parent.
    apply String.eqb_neq in Hroot. rewrite Hroot, Hget. reflexivity.
Qed.

(** X2: with the conflict namer and the completion of patches as modelled, a
    document [TrashFile] returns has as restore path the path of the
    directory the file was in: the root for a file of the root directory,
    the resolved path of the parent otherwise. *)
Theorem TrashFile_restore_path_is_parent (c c' : Ctx)
    (olddoc olddoc' newdoc : FileDoc) (err : option error) :
  plain_element (Name olddoc) ->
  TrashFile c olddoc = (c', olddoc', Some newdoc, err) ->
  (DirID olddoc = consts_RootDirID -> RestorePath newdoc = "/")
  /\ (forall p P,
        DirID olddoc <> consts_RootDirID ->
        getParentDir c (parent olddoc) (DirID olddoc) = Ok p ->
        DirDoc_Path p c = Ok P ->
        path.Clean P = P -> path.IsAbs P = true ->
        RestorePath newdoc = P).
Proof.
  intros Hname Htrash.
  assert (Hrestore : forall od1 oldpath,
             FileDoc_Path c olddoc = (od1, Ok oldpath) ->
             RestorePath newdoc = path.Dir oldpath).
  { intros od1 oldpath Hpath.
    destruct (TrashFile_last_attempt _ _ _ _ _ _ _ _ Hpath Htrash)
      as (k & c0 & od0 & _ & _ & Hmod & _).
    apply ModifyFileMetadata_fields in Hmod. simpl in Hmod.
    now destruct Hmod as (_ & _ & Hr & _). }
  split.
  - intros Hroot.
    rewrite (Hrestore _ _ (FileDoc_Path_in_root c olddoc Hroot)).
    now apply Dir_Join_plain.
  - intros p P Hroot Hget Hdir Hclean Habs.
    rewrite (Hrestore _ _ (FileDoc_Path_in_dir c olddoc p P Hroot Hget Hdir)).
    now apply Dir_Join_plain.
Qed.

(** *** Sequences of writes *)

Lemma File_Write_each_step (f : File Handle) (fc : fileCreation) (p : bytes)
    (ps : list bytes) (c : Ctx) :
  f_fc f = Some fc ->
  snd (File_Write f p c) = (Z.of_nat (length p), None) ->
  f_fc (snd (fst (File_Write f p c)))
  = Some (fc_written (Z.of_nat (length p)) p fc)
  /\ File_Write_each f (p :: ps) c
     = File_Write_each (snd (fst (File_Write f p c))) ps
         (fst (fst (File_Write f p c))).
Proof.
  intros Hfc Hw. simpl.
  destruct (File_Write f p c) as [[c1 f1] [n err]] eqn:Hfw. simpl in *.
  injection Hw as -> ->. split; [|reflexivity].
  unfold File_Write, Handle_Write in Hfw. rewrite Hfc in Hfw.
  destruct (afero_File_Write (f_f f) p (fs c)) as [s [n' [e|]]];
    inversion Hfw; reflexivity.
Qed.

Lemma wrap64_small (z : Z) : - 2 ^ 63 <= z < 2 ^ 63 -> wrap64 z = z.
Proof. intros Hz. unfold wrap64. rewrite Z.mod_small; lia. Qed.

Lemma wrap64_range (z : Z) : - 2 ^ 63 <= wrap64 z < 2 ^ 63.
Proof.
  unfold wrap64. pose proof (Z.mod_pos_bound (z + 2 ^ 63) (2 ^ 64)). lia.
Qed.

Lemma wrap64_add (a b : Z) : wrap64 (wrap64 a + b) = wrap64 (a + b).
Proof.
  unfold wrap64. f_equal.
  replace ((a + 2 ^ 63) mod 2 ^ 64 - 2 ^ 63 + b + 2 ^ 63)
    with ((a + 2 ^ 63) mod 2 ^ 64 + b) by lia.
  rewrite Zplus_mod_idemp_l. f_equal. lia.
Qed.

(** Writes that the store carries out in full, one after the other, leave
    the handle with the count advanced by the number of bytes written (in
    64-bit arithmetic) and the running digest fed with the buffers in
    order; nothing else of the handle changes. *)
Lemma File_Write_each_state (ps : list bytes) :
  forall (f : File Handle) (fc : fileCreation) (c : Ctx),
    f_fc f = Some fc ->
    - 2 ^ 63 <= fc_w fc < 2 ^ 63 ->
    all_written f ps c ->
    snd (File_Write_each f ps c) = None
    /\ exists fc',
         f_fc (snd (fst (File_Write_each f ps c))) = Some fc'
         /\ fc_w fc' = wrap64 (fc_w fc + Z.of_nat (length (concat ps)))
         /\ fc_hash fc' = (fc_hash fc ++ concat ps)%list
         /\ fc_err fc' = fc_err fc
         /\ fc_newdoc fc' = fc_newdoc fc /\ fc_olddoc fc' = fc_olddoc fc
         /\ fc_newpath fc' = fc_newpath fc /\ fc_bakpath fc' = fc_bakpath fc
         /\ fc_checkHash fc' = fc_checkHash fc.
Proof.
  induction ps as [|p ps IH]; intros f fc c Hfc Hrange Hall.
  - simpl. split; [reflexivity|]. exists fc. split; [assumption|].
    rewrite Z.add_0_r, (wrap64_small _ Hrange), app_nil_r.
    repeat split; reflexivity.
  - destruct Hall as [Hw Hall].
    destruct (File_Write_each_step f fc p ps c Hfc Hw) as [Hfc1 ->].
    destruct (IH _ _ _ Hfc1 (wrap64_range _) Hall)
      as (Herr & fc' & Hfc' & Hw' & Hh' & He' & Hrest).
    split; [assumption|]. exists fc'. split; [assumption|].
    simpl in Hw', Hh', He', Hrest. unfold int64_add in Hw'.
    rewrite wrap64_add in Hw'.
    split.
    { rewrite Hw'. f_equal. simpl concat. rewrite length_app. lia. }
    split; [rewrite Hh'; simpl; now rewrite <- app_assoc|].
    split; assumption.
Qed.


(** X3: after [CreateFile] and writes that the store carries out in full,
    the handle has counted exactly the bytes written (as long as they are
    fewer than 2^63) and its running digest has been fed exactly these
    bytes, in order; no error is latched and the documents and paths of the
    handle are as [CreateFile] set them. *)
Theorem written_handle_counts_bytes (now : Time) (newdoc : FileDoc)
    (olddoc : option FileDoc) (c c1 : Ctx) (f : File Handle)
    (ps : list bytes) :
  CreateFile now newdoc olddoc c = (c1, Ok f) ->
  all_written f ps c1 ->
  snd (File_Write_each f ps c1) = None
  /\ exists fc fc',
       f_fc f = Some fc
       /\ f_fc (snd (fst (File_Write_each f ps c1))) = Some fc'
       /\ fc_w fc' = wrap64 (Z.of_nat (length (concat ps)))
       /\ (Z.of_nat (length (concat ps)) < 2 ^ 63 ->
           fc_w fc' = Z.of_nat (length (concat ps)))
       /\ fc_hash fc' = concat ps
       /\ fc_err fc' = None
       /\ fc_newdoc fc' = fc_newdoc fc /\ fc_olddoc fc' = olddoc
       /\ fc_newpath fc' = fc_newpath fc /\ fc_bakpath fc' = fc_bakpath fc.
Proof.
  intros Hcreate Hall.
  destruct (CreateFile_handle _ _ _ _ _ _ Hcreate)
    as (fc & Hfc & Hw0 & Hh0 & He0 & Ho0 & _).
  assert (Hrange : - 2 ^ 63 <= fc_w fc < 2 ^ 63) by (rewrite Hw0; lia).
  destruct (File_Write_each_state ps f fc c1 Hfc Hrange Hall)
    as (Herr & fc' & Hfc' & Hw & Hh & He & Hnd & Hod & Hnp & Hbp & _).
  split; [assumption|]. exists fc, fc'.
  rewrite Hw0 in Hw. rewrite Hh0 in Hh. simpl in Hw, Hh.
  split; [assumption|]. split; [assumption|]. split; [assumption|].
  split; [intros Hlt; rewrite Hw; apply wrap64_small; lia|].
  repeat split; congruence.
Qed.

Lemma completed_newdoc_MD5Sum (fc : fileCreation) :
  fc_checkHash fc = negb (is_nil (MD5Sum (fc_newdoc fc))) ->
  digest_valid fc ->
  slice_bytes (MD5Sum (completed_newdoc fc)) = md5_Sum (fc_hash fc).
Proof.
  unfold completed_newdoc, digest_valid. cbv zeta. intros Hcheck Hvalid.
  destruct (Size (fc_newdoc fc) <? 0); simpl;
    destruct (MD5Sum (fc_newdoc fc)) as [b|] eqn:Hmd5; simpl;
    rewrite ?Hmd5; simpl; try reflexivity;
    rewrite Hcheck in Hvalid; simpl in Hvalid; exact (Hvalid eq_refl).
Qed.

(** X4: creation, writes and close together: when the store carries the
    writes out in full and the underlying close succeeds, [File.Close] fails
    with [ErrInvalidHash] exactly when the new document declared a digest
    other than that of the bytes written, with [ErrContentLengthMismatch]
    exactly when the digest is fine and a size was declared other than the
    number of bytes written, and every document it commits carries the
    number and the digest of the bytes written. *)
Theorem Close_commits_what_was_written (now : Time) (newdoc : FileDoc)
    (olddoc : option FileDoc) (c c1 : Ctx) (f : File Handle)
    (ps : list bytes) :
  CreateFile now newdoc olddoc c = (c1, Ok f) ->
  all_written f ps c1 ->
  Z.of_nat (length (concat ps)) < 2 ^ 63 ->
  let c2 := fst (fst (File_Write_each f ps c1)) in
  let f2 := snd (fst (File_Write_each f ps c1)) in
  snd (afero_File_Close (f_f f2) (fs c2)) = None ->
  let c3 := fst (fst (File_Close f2 c2)) in
  let err := snd (File_Close f2 c2) in
  let total := Z.of_nat (length (concat ps)) in
  let digest := md5_Sum (concat ps) in
  let bad_digest :=
    MD5Sum newdoc <> None /\ slice_bytes (MD5Sum newdoc) <> digest in
  (err = Some ErrInvalidHash <-> bad_digest)
  /\ (err = Some ErrContentLengthMismatch <->
        ~ bad_digest /\ 0 <= Size newdoc /\ Size newdoc <> total)
  /\ (forall d,
        In (EvCreateDoc d) (calls_since c2 c3)
        \/ In (EvUpdateDoc d) (calls_since c2 c3) ->
        Size d = total /\ slice_bytes (MD5Sum d) = digest
        /\ ~ bad_digest /\ (Size newdoc < 0 \/ Size newdoc = total)).
Proof.
  intros Hcreate Hall Hlt. cbv zeta. intros Hclose.
  destruct (CreateFile_handle _ _ _ _ _ _ Hcreate)
    as (fc & Hfc & Hw0 & Hh0 & He0 & Ho0 & Hmd5 & Hsize & Hcheck).
  assert (Hrange : - 2 ^ 63 <= fc_w fc < 2 ^ 63) by (rewrite Hw0; lia).
  destruct (File_Write_each_state ps f fc c1 Hfc Hrange Hall)
    as (_ & fc2 & Hfc2 & Hw & Hh & _ & Hnd & _ & _ & _ & Hck).
  rewrite Hw0 in Hw. rewrite Hh0 in Hh. simpl in Hw, Hh.
  rewrite wrap64_small in Hw by lia.
  set (f2 := snd (fst (File_Write_each f ps c1))) in *.
  set (c2 := fst (fst (File_Write_each f ps c1))) in *.
  pose proof (File_Close_cases f2 fc2 c2 Hfc2) as Hc. cbv zeta in Hc.
  rewrite Hclose in Hc.
  pose proof (digest_test_valid fc2) as Hdv.
  pose proof (digest_test_invalid fc2) as Hdi.
  pose proof (size_test_valid fc2) as Hsv.
  pose proof (size_test_invalid fc2) as Hsi.
  assert (Hcheck2 : fc_checkHash fc2 = negb (is_nil (MD5Sum (fc_newdoc fc2))))
    by (rewrite Hck, Hnd, Hmd5; exact Hcheck).
  pose proof (completed_newdoc_MD5Sum fc2 Hcheck2) as Hcm.
  pose proof (completed_newdoc_Size fc2) as Hcs.
  rewrite Hck, Hcheck, Hnd, Hmd5, Hh, is_nil_false in Hdi.
  rewrite Hnd, Hsize, Hw in Hsi, Hcs. rewrite Hh in Hcm.
  unfold size_valid in Hsv. rewrite Hnd, Hsize, Hw in Hsv.
  destruct (digest_test fc2).
  { destruct Hc as (Herr & _ & Hcalls).
    rewrite (calls_since_app _ _ _ Hcalls), Herr.
    assert (Hbad := proj1 Hdi eq_refl).
    split; [tauto|]. split; [split; [discriminate | tauto]|].
    intros d Hin. exfalso. exact (no_commit_in_cleanup _ _ _ Hin). }
  assert (Hgood : ~ (MD5Sum newdoc <> None
                     /\ slice_bytes (MD5Sum newdoc) <> md5_Sum (concat ps)))
    by (intros Hx; apply Hdi in Hx; discriminate).
  specialize (Hcm (proj1 Hdv eq_refl)).
  destruct (size_test fc2).
  { destruct Hc as (Herr & _ & Hcalls).
    rewrite (calls_since_app _ _ _ Hcalls), Herr.
    assert (Hbad := proj1 Hsi eq_refl).
    split; [split; [discriminate | tauto]|]. split; [tauto|].
    intros d Hin. exfalso. exact (no_commit_in_cleanup _ _ _ Hin). }
  assert (Hsz : Size newdoc < 0 \/ Size newdoc = Z.of_nat (length (concat ps)))
    by (now apply Hsv).
  destruct Hc as (Herr & _ & Hcalls).
  rewrite (calls_since_app _ _ _ Hcalls), Herr.
  assert (Hcouch : forall v,
             option_map CouchError (commit_error fc2 (db c2)) = Some v ->
             exists e, v = CouchError e).
  { intros v. destruct (commit_error fc2 (db c2)); simpl;
      [intros [= <-]; eauto | discriminate]. }
  split.
  { split; [|tauto]. intros Hx. destruct (Hcouch _ Hx); discriminate. }
  split.
  { split; [|intros (_ & Hx); exfalso; destruct Hsz; lia].
    intros Hx. destruct (Hcouch _ Hx); discriminate. }
  intros d Hin.
  assert (Hd : d = completed_newdoc fc2).
  { unfold commit_call in Hin.
    destruct Hin as [[Hin|[Hin|Hin]]|[Hin|[Hin|Hin]]];
      try discriminate;
      try (apply cleanup_calls_no_commit in Hin;
           destruct Hin as [?|[?|?]]; discriminate);
      destruct (fc_olddoc fc2); congruence. }
  subst d. rewrite Hcs, Hcm.
  split; [|auto].
  destruct (Z.ltb_spec (Size newdoc) 0); [reflexivity|]. destruct Hsz; lia.
Qed.

(** A write keeps a handle in write mode, with its documents and paths,
    and never clears a latched error. *)
Lemma File_Write_keeps_latched (f : File Handle) (fc : fileCreation)
    (p : bytes) (c : Ctx) :
  f_fc f = Some fc ->
  exists fc',
    f_fc (snd (fst (File_Write f p c))) = Some fc'
    /\ fc_olddoc fc' = fc_olddoc fc
    /\ fc_newpath fc' = fc_newpath fc /\ fc_bakpath fc' = fc_bakpath fc
    /\ (fc_err fc <> None -> fc_err fc' <> None).
Proof.
  intros Hfc. unfold File_Write, Handle_Write. rewrite Hfc.
  destruct (afero_File_Write (f_f f) p (fs c)) as [s [n [e|]]]; simpl;
    eexists; (split; [reflexivity|]); simpl; repeat split; auto;
    intros _; discriminate.
Qed.

Lemma File_Write_all_keeps_latched (ps : list bytes) :
  forall (f : File Handle) (fc : fileCreation) (c : Ctx),
    f_fc f = Some fc ->
    exists fc',
      f_fc (snd (File_Write_all f ps c)) = Some fc'
      /\ fc_olddoc fc' = fc_olddoc fc
      /\ fc_newpath fc' = fc_newpath fc /\ fc_bakpath fc' = fc_bakpath fc
      /\ (fc_err fc <> None -> fc_err fc' <> None).
Proof.
  induction ps as [|p ps IH]; intros f fc c Hfc; simpl.
  - exists fc. repeat split; auto.
  - destruct (File_Write_keeps_latched f fc p c Hfc)
      as (fc1 & Hfc1 & Ho & Hn & Hb & He).
    destruct (File_Write f p c) as [[c1 f1] r]. simpl in Hfc1.
    destruct (IH f1 fc1 c1 Hfc1) as (fc' & Hfc' & Ho' & Hn' & Hb' & He').
    exists fc'. split; [assumption|]. repeat split; try congruence. auto.
Qed.

(** X5: once a write has failed, whatever is written afterwards and whatever
    [File.Close] then returns, the last thing [File.Close] does is to roll
    back: it renames the backup back over the target, or removes the created
    target when there is no backup. *)
Theorem failed_write_is_rolled_back (f : File Handle) (fc : fileCreation)
    (p : bytes) (c : Ctx) (n : Z) (e : error) (ps : list bytes) :
  f_fc f = Some fc ->
  snd (File_Write f p c) = (n, Some e) ->
  let c1 := fst (fst (File_Write f p c)) in
  let f1 := snd (fst (File_Write f p c)) in
  let c2 := fst (File_Write_all f1 ps c1) in
  let f2 := snd (File_Write_all f1 ps c1) in
  let c3 := fst (fst (File_Close f2 c2)) in
  (exists l, calls c3 = (l ++ [rollback_call fc])%list)
  /\ fs c3 =
       match fc_olddoc fc with
       | Some _ =>
           fst (afero_Rename (fc_bakpath fc) (fc_newpath fc)
                  (fst (afero_File_Close (f_f f2) (fs c2))))
       | None =>
           fst (afero_Remove (fc_newpath fc)
                  (fst (afero_File_Close (f_f f2) (fs c2))))
       end.
Proof.
  intros Hfc Hw. cbv zeta.
  assert (H1 : exists fc1,
             f_fc (snd (fst (File_Write f p c))) = Some fc1
             /\ fc_olddoc fc1 = fc_olddoc fc
             /\ fc_newpath fc1 = fc_newpath fc /\ fc_bakpath fc1 = fc_bakpath fc
             /\ fc_err fc1 <> None).
  { unfold File_Write, Handle_Write in *. rewrite Hfc in *.
    destruct (afero_File_Write (f_f f) p (fs c)) as [s [n' [e'|]]];
      simpl in *; [|discriminate].
    eexists. split; [reflexivity|]. simpl. repeat split. discriminate. }
  destruct H1 as (fc1 & Hfc1 & Ho1 & Hn1 & Hb1 & He1).
  set (f1 := snd (fst (File_Write f p c))) in *.
  set (c1 := fst (fst (File_Write f p c))) in *.
  destruct (File_Write_all_keeps_latched ps f1 fc1 c1 Hfc1)
    as (fc2 & Hfc2 & Ho2 & Hn2 & Hb2 & He2).
  specialize (He2 He1).
  set (f2 := snd (File_Write_all f1 ps c1)) in *.
  set (c2 := fst (File_Write_all f1 ps c1)) in *.
  destruct (File_Close_cleanup_cases f2 fc2 c2 Hfc2) as (Hfs & l & Hcalls & _).
  cbv zeta in Hfs, Hcalls.
  assert (Hfailed : negb (is_nil (snd (File_Close f2 c2)))
                    || negb (is_nil (fc_err fc2)) = true).
  { apply failed_test. right. assumption. }
  unfold cleanup_calls in Hcalls. rewrite Hfailed in Hfs, Hcalls.
  unfold rollback_call. rewrite Ho2, Ho1, Hn2, Hn1, Hb2, Hb1 in *.
  split.
  - eexists. rewrite Hcalls.
    destruct (fc_olddoc fc); rewrite app_comm_cons, app_assoc; reflexivity.
  - rewrite Hfs. destruct (fc_olddoc fc); reflexivity.
Qed.

(** *** The metadata store before the close *)

Lemma no_db_call_app (c c1 c2 : Ctx) (l1 l2 : list Event) :
  calls c1 = (calls c ++ l1)%list -> calls c2 = (calls c1 ++ l2)%list ->
  calls c2 = (calls c ++ l1 ++ l2)%list.
Proof. intros -> ->. now rewrite app_assoc. Qed.

Lemma File_Write_calls (f : File Handle) (p : bytes) (c : Ctx) :
  exists l, calls (fst (fst (File_Write f p c))) = (calls c ++ l)%list
            /\ forallb (fun ev => negb (is_db_call ev)) l = true
            /\ db (fst (fst (File_Write f p c))) = db c.
Proof.
  unfold File_Write, Handle_Write. destruct (f_fc f) as [fc|].
  - destruct (afero_File_Write (f_f f) p (fs c)) as [s [n [e|]]]; simpl;
      exists [EvWrite p]; repeat split.
  - exists []. simpl. rewrite app_nil_r. repeat split.
Qed.

Lemma File_Write_all_calls (ps : list bytes) :
  forall (f : File Handle) (c : Ctx),
    exists l, calls (fst (File_Write_all f ps c)) = (calls c ++ l)%list
              /\ forallb (fun ev => negb (is_db_call ev)) l = true
              /\ db (fst (File_Write_all f ps c)) = db c.
Proof.
  induction ps as [|p ps IH]; intros f c; simpl.
  - exists []. rewrite app_nil_r. repeat split.
  - destruct (File_Write_calls f p c) as (l1 & Hc1 & Hl1 & Hdb1).
    destruct (File_Write f p c) as [[c1 f1] r]. simpl in *.
    destruct (IH f1 c1) as (l2 & Hc2 & Hl2 & Hdb2).
    exists (l1 ++ l2)%list. split; [exact (no_db_call_app _ _ _ _ _ Hc1 Hc2)|].
    split; [rewrite forallb_app, Hl1, Hl2; reflexivity | congruence].
Qed.

Lemma safeRenameFile_no_db_call (oldpath newpath : string) (c : Ctx) :
  exists l, calls (fst (safeRenameFile oldpath newpath c)) = (calls c ++ l)%list
            /\ forallb (fun ev => negb (is_db_call ev)) l = true
            /\ db (fst (safeRenameFile oldpath newpath c)) = db c.
Proof.
  rewrite safeRenameFile_unfold. cbv zeta.
  destruct (negb (path.IsAbs (path.Clean newpath))
            || negb (path.IsAbs (path.Clean oldpath))).
  { exists []. simpl. rewrite app_nil_r. repeat split. }
  destruct (afero_Stat (path.Clean newpath) (fs c)) as [e|].
  - destruct (os_error_IsNotExist e); simpl.
    + eexists [_; _]. rewrite <- app_assoc. repeat split.
    + eexists [_]. repeat split.
  - eexists [_]. repeat split.
Qed.

Lemma CreateFile_no_db_call (now : Time) (newdoc : FileDoc)
    (olddoc : option FileDoc) (c : Ctx) :
  exists l, calls (fst (CreateFile now newdoc olddoc c)) = (calls c ++ l)%list
            /\ forallb (fun ev => negb (is_db_call ev)) l = true
            /\ db (fst (CreateFile now newdoc olddoc c)) = db c.
Proof.
  unfold CreateFile.
  destruct (FileDoc_Path c newdoc) as [d [newpath|e]].
  2:{ exists []. simpl. rewrite app_nil_r. repeat split. }
  assert (Hopen : forall (ex : bool) (c1 : Ctx),
             exists l, calls (fst (safeCreateFile (Handle := Handle) newpath ex c1))
                       = (calls c1 ++ l)%list
                       /\ forallb (fun ev => negb (is_db_call ev)) l = true
                       /\ db (fst (safeCreateFile (Handle := Handle) newpath ex c1))
                          = db c1).
  { intros ex c1. unfold safeCreateFile, FS_OpenFile.
    destruct (afero_OpenFile _ _ _ _) as [s r]. eexists [_]. repeat split. }
  destruct olddoc as [old|].
  - destruct (safeRenameFile_no_db_call newpath ("/." ++ ID old ++ "_" ++ Rev old) c)
      as (l1 & Hc1 & Hl1 & Hdb1).
    destruct (safeRenameFile newpath _ c) as [c1 [e|]]; simpl in *.
    { exists l1. repeat split; assumption. }
    match goal with |- context [safeCreateFile newpath ?ex c1] =>
      destruct (Hopen ex c1) as (l2 & Hc2 & Hl2 & Hdb2);
      destruct (safeCreateFile newpath ex c1) as [c2 [e|h]]
    end; simpl in *;
      (exists (l1 ++ l2)%list;
       split; [exact (no_db_call_app _ _ _ _ _ Hc1 Hc2)|];
       split; [rewrite forallb_app, Hl1, Hl2; reflexivity | congruence]).
  - match goal with |- context [safeCreateFile newpath ?ex c] =>
      destruct (Hopen ex c) as (l2 & Hc2 & Hl2 & Hdb2);
      destruct (safeCreateFile newpath ex c) as [c2 [e|h]]
    end; simpl in *; exists l2; repeat split; assumption.
Qed.

(** X6: neither [CreateFile] nor any write touches the metadata store: until
    [File.Close], whatever happens to the content, the documents stay as
    they were and the metadata store is not called. *)
Theorem metadata_untouched_before_Close (now : Time) (newdoc : FileDoc)
    (olddoc : option FileDoc) (c c1 : Ctx) (f : File Handle)
    (ps : list bytes) :
  CreateFile now newdoc olddoc c = (c1, Ok f) ->
  db c1 = db c
  /\ db (fst (File_Write_all f ps c1)) = db c
  /\ forall ev,
       In ev (calls_since c (fst (File_Write_all f ps c1))) ->
       is_db_call ev = false.
Proof.
  intros Hcreate.
  destruct (CreateFile_no_db_call now newdoc olddoc c) as (l1 & Hc1 & Hl1 & Hdb1).
  rewrite Hcreate in Hc1, Hdb1. simpl in Hc1, Hdb1.
  destruct (File_Write_all_calls ps f c1) as (l2 & Hc2 & Hl2 & Hdb2).
  split; [assumption|]. split; [congruence|].
  rewrite (calls_since_app _ _ _ (no_db_call_app _ _ _ _ _ Hc1 Hc2)).
  intros ev Hin.
  assert (Hall : forallb (fun ev => negb (is_db_call ev)) (l1 ++ l2) = true)
    by (rewrite forallb_app, Hl1, Hl2; reflexivity).
  rewrite forallb_forall in Hall. specialize (Hall ev Hin).
  now apply negb_true_iff in Hall.
Qed.

(** *** The metadata mutator *)

Lemma FileDoc_Path_content (c : Ctx) (f f' : FileDoc) (r : result string) :
  FileDoc_Path c f = (f', r) -> set_parent None f' = set_parent None f.
Proof.
  intros H. destruct (FileDoc_Path_fields _ _ _ _ H) as [-> | [p ->]];
    reflexivity.
Qed.

(** The path of a document depends on its directory, its name and its
    cached parent only. *)
Lemma FileDoc_Path_ext (c : Ctx) (f g : FileDoc) :
  DirID f = DirID g -> Name f = Name g -> parent f = parent g ->
  snd (FileDoc_Path c f) = snd (FileDoc_Path c g).
Proof.
  intros Hd Hn Hp. unfold FileDoc_Path, FileDoc_Parent.
  rewrite Hd, Hn, Hp.
  destruct (String.eqb (DirID g) consts_RootDirID); [reflexivity|].
  destruct (getParentDir c (parent g) (DirID g)) as [p|e]; [|reflexivity].
  simpl. destruct (DirDoc_Path p c); simpl; [rewrite Hn|]; reflexivity.
Qed.

Lemma normalizeDocPatch_completed (olddoc : FileDoc) (patch : DocPatch)
    (full : FullPatch) :
  normalizeDocPatch
    {| full_Name := Name olddoc; full_DirID := DirID olddoc;
       full_RestorePath := RestorePath olddoc; full_Tags := Tags olddoc;
       full_UpdatedAt := UpdatedAt olddoc;
       full_Executable := Executable olddoc |} patch (CreatedAt olddoc)
    = Ok full ->
  full = completed_patch olddoc patch.
Proof.
  unfold normalizeDocPatch. cbv zeta. destruct (validatePatch _ _);
    [discriminate|]. intros [= <-]. reflexivity.
Qed.

(** What [ModifyFileMetadata] has done when it returns a document. *)
Lemma ModifyFileMetadata_commit (c c' : Ctx) (olddoc olddoc' newdoc : FileDoc)
    (patch : DocPatch) (err : option error) :
  ModifyFileMetadata c olddoc patch = (c', olddoc', Some newdoc, err) ->
  let full := completed_patch olddoc patch in
  exists d2 d0 oldpath newpath,
    set_parent None d2 = patched_doc olddoc full
    /\ set_parent None d0 = patched_doc olddoc full
    /\ snd (FileDoc_Path c olddoc) = Ok oldpath
    /\ FileDoc_Path c d2 = (d0, Ok newpath)
    /\ (DirID (patched_doc olddoc full) = DirID olddoc ->
        parent d2 = parent olddoc)
    /\ calls c' = (calls c ++ rename_calls oldpath newpath
                     ++ chmod_calls newpath olddoc d0
                     ++ [EvUpdateDoc d0])%list
    /\ (rename_calls oldpath newpath = [] ->
        chmod_calls newpath olddoc d0 = [] -> fs c' = fs c)
    /\ db c' = fst (couchdb_UpdateDoc d0 (db c))
    /\ match snd (couchdb_UpdateDoc d0 (db c)) with
       | inl e => newdoc = d0 /\ err = Some (CouchError e)
       | inr rev => newdoc = SetRev rev d0 /\ err = None
       end.
Proof.
  unfold ModifyFileMetadata. cbv zeta.
  destruct (normalizeDocPatch _ patch (CreatedAt olddoc)) as [full|?] eqn:Hn;
    [|intros [=]].
  apply normalizeDocPatch_completed in Hn. subst full.
  set (full := completed_patch olddoc patch). clearbody full.
  destruct (NewFileDoc _ _ _ _ _ _ _ _ _) as [nd|?] eqn:Hnew; [|intros [=]].
  set (b := set_RestorePath (full_RestorePath full) nd).
  assert (Hb : forall p',
             set_parent p'
               (set_UpdatedAt (full_UpdatedAt full)
                  (SetRev (Rev olddoc) (SetID (ID olddoc) b)))
             = set_parent p' (patched_doc olddoc full)).
  { unfold NewFileDoc in Hnew. destruct (checkFileName _); [discriminate|].
    subst b. injection Hnew as <-. reflexivity. }
  assert (HbD : DirID b = DirID (patched_doc olddoc full)).
  { unfold NewFileDoc in Hnew. destruct (checkFileName _); [discriminate|].
    subst b. injection Hnew as <-. reflexivity. }
  clear Hnew. clearbody b.
  destruct (if negb (String.eqb (DirID b) (DirID olddoc)) then _ else _)
    as [[d1 p'] e1] eqn:Hif.
  assert (Hd1 : (d1 = b \/ exists p, d1 = set_parent (Some p) b)
                /\ (DirID b = DirID olddoc -> p' = parent olddoc)).
  { destruct (String.eqb_spec (DirID b) (DirID olddoc)) as [He|He]; simpl in Hif.
    - injection Hif as <- <- _. auto.
    - split; [|intros; contradiction].
      unfold FileDoc_Parent in Hif. destruct (getParentDir _ _ _);
        injection Hif as <- _ _; eauto. }
  clear Hif. destruct e1; [intros [=]|].
  set (d2 := set_parent p' _).
  assert (Hd2 : d2 = set_parent p' (patched_doc olddoc full)).
  { subst d2. rewrite <- Hb. destruct Hd1 as [[-> | [p ->]] _]; reflexivity. }
  clearbody d2. clear Hb.
  destruct (FileDoc_Path c olddoc) as [old1 [oldpath|?]] eqn:Hold;
    [|intros [=]].
  assert (Hex : Executable old1 = Executable olddoc).
  { destruct (FileDoc_Path_fields _ _ _ _ Hold) as [-> | [p ->]];
      reflexivity. }
  destruct (FileDoc_Path c d2) as [d3 r3] eqn:Hp3.
  destruct r3 as [newpath|?]; [|intros [=]].
  pose proof (FileDoc_Path_content _ _ _ _ Hp3) as Hd3.
  assert (Hex3 : Executable d3 = full_Executable full).
  { destruct (FileDoc_Path_fields _ _ _ _ Hp3) as [-> | [p ->]];
      rewrite Hd2; reflexivity. }
  rewrite Hex, Hex3.
  intros H. exists d2, d3, oldpath, newpath.
  assert (Hc2 : set_parent None d2 = patched_doc olddoc full)
    by (rewrite Hd2; reflexivity).
  split; [exact Hc2|]. split; [rewrite Hd3; exact Hc2|].
  split; [reflexivity|]. split; [exact Hp3|].
  split; [intros Hd; rewrite Hd2; simpl; apply Hd1; congruence|].
  revert H. unfold rename_calls, chmod_calls. rewrite Hex3.
  destruct (negb (String.eqb newpath oldpath)).
  - rewrite safeRenameFile_unfold. cbv zeta.
    destruct (negb (path.IsAbs (path.Clean newpath))
              || negb (path.IsAbs (path.Clean oldpath))); [intros [=]|].
    destruct (afero_Stat (path.Clean newpath) (fs c)) as [e|]; [|intros [=]].
    destruct (os_error_IsNotExist e); [|intros [=]].
    destruct (snd (afero_Rename _ _ (fs c))); simpl; [intros [=]|].
    destruct (negb (Bool.eqb (full_Executable full) (Executable olddoc))).
    + unfold FS_Chmod. simpl.
      destruct (afero_Chmod _ _ _) as [fs2 [?|]]; simpl; [intros [=]|].
      unfold UpdateDoc, DB_UpdateDoc. simpl.
      destruct (couchdb_UpdateDoc d3 (db c)) as [db3 [e3|rev]]; simpl;
        intros [= <- _ <- <-]; simpl;
        (split; [rewrite <- ?app_assoc; reflexivity|]);
        (split; [intros H1 H2;
                 first [discriminate H1 | discriminate H2 | reflexivity]|]);
        auto.
    + unfold UpdateDoc, DB_UpdateDoc. simpl.
      destruct (couchdb_UpdateDoc d3 (db c)) as [db3 [e3|rev]]; simpl;
        intros [= <- _ <- <-]; simpl;
        (split; [rewrite <- ?app_assoc; reflexivity|]);
        (split; [intros H1 H2;
                 first [discriminate H1 | discriminate H2 | reflexivity]|]);
        auto.
  - destruct (negb (Bool.eqb (full_Executable full) (Executable olddoc))).
    + unfold FS_Chmod. simpl.
      destruct (afero_Chmod _ _ _) as [fs2 [?|]]; simpl; [intros [=]|].
      unfold UpdateDoc, DB_UpdateDoc. simpl.
      destruct (couchdb_UpdateDoc d3 (db c)) as [db3 [e3|rev]]; simpl;
        intros [= <- _ <- <-]; simpl;
        (split; [rewrite <- ?app_assoc; reflexivity|]);
        (split; [intros H1 H2;
                 first [discriminate H1 | discriminate H2 | reflexivity]|]);
        auto.
    + unfold UpdateDoc, DB_UpdateDoc. simpl.
      destruct (couchdb_UpdateDoc d3 (db c)) as [db3 [e3|rev]]; simpl;
        intros [= <- _ <- <-]; simpl;
        (split; [rewrite <- ?app_assoc; reflexivity|]);
        (split; [intros H1 H2;
                 first [discriminate H1 | discriminate H2 | reflexivity]|]);
        auto.
Qed.

(** What [ModifyFileMetadata] has done when it returns no document. *)
Lemma ModifyFileMetadata_failure (c c' : Ctx) (olddoc olddoc' : FileDoc)
    (patch : DocPatch) (err : option error) :
  ModifyFileMetadata c olddoc patch = (c', olddoc', None, err) ->
  err <> None /\ db c' = db c
  /\ exists l, calls c' = (calls c ++ l)%list
               /\ forallb (fun ev => negb (is_db_call ev)) l = true.
Proof.
  assert (Hnil : forall e : error,
             Some e <> None /\ db c = db c
             /\ exists l, calls c = (calls c ++ l)%list
                  /\ forallb (fun ev => negb (is_db_call ev)) l = true).
  { intros e. split; [discriminate|]. split; [reflexivity|].
    exists []. rewrite app_nil_r. split; reflexivity. }
  unfold ModifyFileMetadata. cbv zeta.
  destruct (normalizeDocPatch _ patch (CreatedAt olddoc)) as [full|?];
    [|intros [= <- _ <-]; apply Hnil].
  destruct (NewFileDoc _ _ _ _ _ _ _ _ _) as [nd|?];
    [|intros [= <- _ <-]; apply Hnil].
  destruct (if negb (String.eqb _ (DirID olddoc)) then _ else _)
    as [[d1 p'] e1].
  destruct e1; [intros [= <- _ <-]; apply Hnil|].
  destruct (FileDoc_Path c olddoc) as [old1 [oldpath|?]];
    [|intros [= <- _ <-]; apply Hnil].
  destruct (FileDoc_Path c _) as [d3 [newpath|?]];
    [|intros [= <- _ <-]; apply Hnil].
  assert (Hren : exists c1 e1 l,
             (if negb (String.eqb newpath oldpath)
              then safeRenameFile oldpath newpath c else (c, None)) = (c1, e1)
             /\ calls c1 = (calls c ++ l)%list
             /\ forallb (fun ev => negb (is_db_call ev)) l = true
             /\ db c1 = db c).
  { destruct (negb (String.eqb newpath oldpath)).
    - destruct (safeRenameFile_no_db_call oldpath newpath c) as (l & ? & ? & ?).
      destruct (safeRenameFile oldpath newpath c) as [c1 e1]. eauto 8.
    - exists c, None, []. rewrite app_nil_r. auto. }
  destruct Hren as (c1 & e1 & l1 & -> & Hc1 & Hl1 & Hdb1).
  destruct e1 as [e1|].
  { intros [= <- _ <-]. split; [discriminate|]. eauto. }
  destruct (negb (Bool.eqb (Executable d3) (Executable old1))).
  - unfold FS_Chmod.
    destruct (afero_Chmod _ _ _) as [fs2 [e2|]]; simpl.
    + intros [= <- _ <-]. split; [discriminate|]. split; [assumption|].
      eexists (l1 ++ [_])%list. simpl. rewrite Hc1, <- app_assoc.
      split; [reflexivity|]. rewrite forallb_app, Hl1. reflexivity.
    + unfold UpdateDoc, DB_UpdateDoc. simpl.
      destruct (couchdb_UpdateDoc _ _) as [? [?|?]]; intros [=].
  - unfold UpdateDoc, DB_UpdateDoc. simpl.
    destruct (couchdb_UpdateDoc _ _) as [? [?|?]]; intros [=].
Qed.

Lemma calls_since_In (c c' : Ctx) (l : list Event) :
  calls c' = (calls c ++ l)%list -> calls_since c c' = l.
Proof.
  intros H. unfold calls_since. rewrite H.
  rewrite skipn_app, skipn_all, Nat.sub_diag. reflexivity.
Qed.

(** X7: of the calls that write to the metadata store ([CreateDoc],
    [UpdateDoc], [DeleteDoc]), [ModifyFileMetadata] makes at most one, an
    [UpdateDoc], as its last call, after the content store has been brought
    to the new path and mode: the calls it makes to the two stores are a
    check of the target and a rename when the path changes, a change of
    mode when the executable bit changes, and then the update of the
    document. When it returns no document it returns an error, has made
    none of the writing calls and has left the database as it was. The
    look-ups of parent directories that the resolution of paths makes read
    the metadata store; they are not among the recorded calls and this
    says nothing of them. *)
Theorem ModifyFileMetadata_updates_last (c : Ctx) (olddoc : FileDoc)
    (patch : DocPatch) :
  let '(c', _, newdoc, err) := ModifyFileMetadata c olddoc patch in
  match newdoc with
  | Some _ =>
      exists d2 d0 oldpath newpath,
        snd (FileDoc_Path c olddoc) = Ok oldpath
        /\ FileDoc_Path c d2 = (d0, Ok newpath)
        /\ DocID d0 = DocID olddoc /\ DocRev d0 = DocRev olddoc
        /\ calls_since c c'
           = (rename_calls oldpath newpath
                ++ chmod_calls newpath olddoc d0
                ++ [EvUpdateDoc d0])%list
        /\ db c' = fst (couchdb_UpdateDoc d0 (db c))
  | None =>
      err <> None /\ db c' = db c
      /\ forall ev, In ev (calls_since c c') -> is_db_call ev = false
  end.
Proof.
  destruct (ModifyFileMetadata c olddoc patch) as [[[c' old'] [nd|]] err]
    eqn:H.
  - apply ModifyFileMetadata_commit in H. cbv zeta in H.
    destruct H as (d2 & d0 & oldpath & newpath & _ & H0 & Ho & Hn & _ & Hc
                   & _ & Hdb & _).
    exists d2, d0, oldpath, newpath.
    pose proof (f_equal DocID H0) as HI. pose proof (f_equal DocRev H0) as HR.
    simpl in HI, HR.
    repeat split; try assumption. now apply calls_since_In.
  - apply ModifyFileMetadata_failure in H.
    destruct H as (He & Hdb & l & Hc & Hl).
    split; [assumption|]. split; [assumption|].
    rewrite (calls_since_In _ _ _ Hc). intros ev Hin.
    rewrite forallb_forall in Hl. apply Hl in Hin.
    now apply negb_true_iff in Hin.
Qed.

(** X8: whatever the patch, the document [ModifyFileMetadata] returns is a
    file document under the identifier of the old one, with its size, its
    digest, its media type, its class and its creation time; when the update
    failed it still carries the old revision. *)
Theorem ModifyFileMetadata_result (c c' : Ctx) (olddoc olddoc' newdoc : FileDoc)
    (patch : DocPatch) (err : option error) :
  ModifyFileMetadata c olddoc patch = (c', olddoc', Some newdoc, err) ->
  Type_ newdoc = consts_FileType /\ DocID newdoc = DocID olddoc
  /\ Size newdoc = Size olddoc /\ MD5Sum newdoc = MD5Sum olddoc
  /\ Mime newdoc = Mime olddoc /\ Class_ newdoc = Class_ olddoc
  /\ CreatedAt newdoc = CreatedAt olddoc
  /\ (err <> None -> DocRev newdoc = DocRev olddoc).
Proof.
  intros H. apply ModifyFileMetadata_commit in H. cbv zeta in H.
  destruct H as (d2 & d0 & oldpath & newpath & _ & H0 & _ & _ & _ & _ & _ & _
                 & Hr).
  assert (Hnd : set_parent None (SetRev (Rev olddoc) newdoc)
                = patched_doc olddoc (completed_patch olddoc patch)
                /\ (err <> None -> DocRev newdoc = DocRev olddoc)).
  { destruct (snd (couchdb_UpdateDoc d0 (db c))) as [e|rev];
      destruct Hr as [-> ->].
    - split.
      + rewrite <- H0. change (Rev olddoc) with
          (DocRev (patched_doc olddoc (completed_patch olddoc patch))).
        rewrite <- H0. destruct d0; reflexivity.
      + intros _. change (DocRev d0) with (DocRev (set_parent None d0)).
        rewrite H0. reflexivity.
    - split; [|intros []; reflexivity].
      rewrite <- H0. change (Rev olddoc) with
          (DocRev (patched_doc olddoc (completed_patch olddoc patch))).
      rewrite <- H0. destruct d0; reflexivity. }
  destruct Hnd as [Hnd Hrev].
  pose proof (f_equal Size Hnd) as HS. pose proof (f_equal MD5Sum Hnd) as HM.
  pose proof (f_equal Mime Hnd) as HMi. pose proof (f_equal Class_ Hnd) as HC.
  pose proof (f_equal CreatedAt Hnd) as HCr.
  pose proof (f_equal DocID Hnd) as HI. pose proof (f_equal Type_ Hnd) as HT.
  simpl in *. repeat split; assumption.
Qed.

(** X9: references added to a document are not carried over: after
    [AddReferencedBy], [ModifyFileMetadata] sends a document without
    references to the metadata store and returns one. *)
Theorem ModifyFileMetadata_drops_references (c c' : Ctx)
    (olddoc olddoc' newdoc : FileDoc) (ri : list ResourceIdentifier)
    (patch : DocPatch) (err : option error) :
  ModifyFileMetadata c (AddReferencedBy ri olddoc) patch
    = (c', olddoc', Some newdoc, err) ->
  ReferencedBy newdoc = []
  /\ exists d, last (calls c') = Some (EvUpdateDoc d)
               /\ ReferencedBy d = [].
Proof.
  intros H. apply ModifyFileMetadata_commit in H. cbv zeta in H.
  destruct H as (d2 & d0 & oldpath & newpath & _ & H0 & _ & _ & _ & Hc & _ & _
                 & Hr).
  pose proof (f_equal ReferencedBy H0) as HR. simpl in HR.
  split.
  - destruct (snd (couchdb_UpdateDoc d0 (db c))); destruct Hr as [-> _];
      exact HR.
  - exists d0. split; [|exact HR].
    rewrite Hc, !app_assoc. apply last_snoc.
Qed.

(** X10: with the completion of patches as modelled, a patch that sets
    neither the name, nor the directory, nor the executable bit leaves the
    content store alone: the only call of [ModifyFileMetadata] is the update
    of the document. *)
Theorem ModifyFileMetadata_metadata_only (c c' : Ctx)
    (olddoc olddoc' newdoc : FileDoc) (patch : DocPatch)
    (err : option error) :
  metadata_only patch -> DirID olddoc <> "" ->
  ModifyFileMetadata c olddoc patch = (c', olddoc', Some newdoc, err) ->
  fs c' = fs c
  /\ exists d, calls_since c c' = [EvUpdateDoc d]
               /\ Name d = Name olddoc /\ DirID d = DirID olddoc.
Proof.
  intros (HN & HD & HE) Hdir H.
  apply ModifyFileMetadata_commit in H. cbv zeta in H.
  destruct H as (d2 & d0 & oldpath & newpath & H2 & H0 & Ho & Hn & Hp & Hc
                 & Hfs & _ & _).
  assert (HDir : DirID (patched_doc olddoc (completed_patch olddoc patch))
                 = DirID olddoc).
  { simpl. rewrite HD. simpl. destruct (String.eqb_spec (DirID olddoc) "");
      [contradiction|reflexivity]. }
  assert (HName : Name (patched_doc olddoc (completed_patch olddoc patch))
                  = Name olddoc) by (simpl; rewrite HN; reflexivity).
  assert (Hpath : newpath = oldpath).
  { pose proof (FileDoc_Path_ext c d2 olddoc) as Hext.
    rewrite Hn, Ho in Hext. simpl in Hext.
    assert (Ok newpath = Ok oldpath) as [= ->]; [|reflexivity].
    apply Hext.
    - change (DirID d2) with (DirID (set_parent None d2)). now rewrite H2.
    - change (Name d2) with (Name (set_parent None d2)). now rewrite H2.
    - now apply Hp. }
  subst newpath.
  assert (Hren : rename_calls oldpath oldpath = []).
  { unfold rename_calls. now rewrite String.eqb_refl. }
  assert (Hch : chmod_calls oldpath olddoc d0 = []).
  { unfold chmod_calls.
    change (Executable d0) with (Executable (set_parent None d0)).
    rewrite H0. simpl. rewrite HE. simpl. now rewrite Bool.eqb_reflx. }
  split; [now apply Hfs|].
  exists d0. rewrite Hren, Hch in Hc. simpl in Hc.
  split; [now apply calls_since_In|].
  change (Name d0) with (Name (set_parent None d0)).
  change (DirID d0) with (DirID (set_parent None d0)).
  rewrite H0. split; assumption.
Qed.

(** *** The two modes of a handle *)

Lemma File_Write_all_mode (ps : list bytes) (f : File Handle) (c : Ctx) :
  f_fc f <> None -> f_fc (snd (File_Write_all f ps c)) <> None.
Proof.
  revert f c. induction ps as [|p ps IH]; intros f c Hf; simpl; [assumption|].
  destruct (File_Write f p c) as [[c1 f1] r] eqn:Hw. apply IH.
  destruct (f_fc f) as [fc|] eqn:Hfc; [|contradiction].
  destruct (File_Write_keeps f fc p c Hfc) as (fc' & Hfc' & _).
  rewrite Hw in Hfc'. simpl in Hfc'. congruence.
Qed.

Lemma File_Write_all_read_mode (ps : list bytes) (f : File Handle) (c : Ctx) :
  f_fc f = None -> File_Write_all f ps c = (c, f).
Proof.
  intros Hf. induction ps as [|p ps IH]; simpl; [reflexivity|].
  unfold File_Write. rewrite Hf. exact IH.
Qed.

(** X11: a handle that [CreateFile] returned is for writing only: whatever
    has been written through it, a read and a seek fail with
    [os.ErrInvalid], return nothing and reach no store. *)
Theorem write_handle_rejects_reads (now : Time) (newdoc : FileDoc)
    (olddoc : option FileDoc) (c c1 : Ctx) (f : File Handle)
    (ps : list bytes) (len : nat) (offset whence : Z) :
  CreateFile now newdoc olddoc c = (c1, Ok f) ->
  let c2 := fst (File_Write_all f ps c1) in
  let f2 := snd (File_Write_all f ps c1) in
  File_Read f2 len c2 = (c2, ([], 0, Some (OsError os_ErrInvalid)))
  /\ File_Seek f2 offset whence c2 = (c2, (0, Some (OsError os_ErrInvalid))).
Proof.
  intros Hcreate c2 f2.
  destruct (CreateFile_handle _ _ _ _ _ _ Hcreate) as (fc & Hfc & _).
  assert (Hmode : f_fc f2 <> None)
    by (apply File_Write_all_mode; congruence).
  unfold File_Read, File_Seek.
  destruct (f_fc f2); [split; reflexivity|contradiction].
Qed.

(** X12: a handle that [Open] returned is for reading only, and [Open]
    leaves the metadata store as it was: a write through the handle fails
    with [os.ErrInvalid], writes nothing and reaches no store, and
    [File.Close] closes the content handle and does nothing else, returning
    its error. *)
Theorem read_handle_rejects_writes (c c1 : Ctx) (doc : FileDoc)
    (f : File Handle) (ps : list bytes) (p : bytes) (c2 : Ctx) :
  Open c doc = (c1, Ok f) ->
  db c1 = db c
  /\ File_Write f p c2 = (c2, f, (0, Some (OsError os_ErrInvalid)))
  /\ File_Write_all f ps c2 = (c2, f)
  /\ File_Close f c2
     = (called EvClose (fst (afero_File_Close (f_f f) (fs c2))) (db c2) c2,
        f, option_map OsError (snd (afero_File_Close (f_f f) (fs c2)))).
Proof.
  unfold Open. destruct (FileDoc_Path c doc) as [d [name|e]]; [|intros [=]].
  destruct (afero_Open name (fs c)) as [s [e|h]]; intros [= <- <-].
  split; [reflexivity|]. split; [reflexivity|].
  split; [now apply File_Write_all_read_mode|].
  unfold File_Close, Handle_Close. simpl.
  destruct (afero_File_Close h (fs c2)); reflexivity.
Qed.

(** *** Restoring *)



End MoreProperties.

(** ** The trash *)

Section TrashProperties.
Context {FS DB Handle : Type}.
Context {CS : ContentStore FS Handle} {MS : MetadataStore DB}
  {Pkg : Package FS DB}.

Abbreviation Ctx := (Context FS DB).



End TrashProperties.

(** ** The further properties on the in-memory instance *)

Import MemReading.

Lemma a_txt_plain : plain_element "a.txt".
Proof.
  split; [reflexivity|]. split; [discriminate|]. split; discriminate.
Qed.

(** X1 on the in-memory instance: the paths of /a.txt, stored in the root
    directory and then trashed. *)
Lemma FileDoc_Path_of_plain_name_witness :
  plain_element (Name stored_a)
  /\ FileDoc_Path ctx_stored stored_a = (stored_a, Ok "/a.txt")
  /\ FileDoc_Path ctx_trashed trashed_a
     = (set_parent (Some trashDir) trashed_a, Ok "/.cozy_trash/a.txt")
  /\ path.Dir "/.cozy_trash/a.txt" = "/.cozy_trash".
Proof.
  split; [exact a_txt_plain|].
  destruct (FileDoc_Path_of_plain_name ctx_stored stored_a a_txt_plain)
    as (Hroot & _ & _).
  destruct (FileDoc_Path_of_plain_name ctx_trashed trashed_a a_txt_plain)
    as (_ & Hdir & _).
  split; [exact (proj1 (Hroot eq_refl))|].
  assert (Hparent : getParentDir ctx_trashed (parent trashed_a)
                      (DirID trashed_a) = Ok trashDir) by reflexivity.
  assert (Hpath : DirDoc_Path trashDir ctx_trashed = Ok "/.cozy_trash")
    by (vm_compute; reflexivity).
  assert (Hnot : DirID trashed_a <> @consts_RootDirID MemFS MemDB package)
    by discriminate.
  assert (Hsub : "/.cozy_trash" <> "/") by discriminate.
  exact (Hdir trashDir "/.cozy_trash" Hnot Hparent Hpath eq_refl eq_refl Hsub).
Defined.

(** X2 on the in-memory instance: trashing /a.txt records the root directory
    as the place to restore it to. *)
Lemma TrashFile_restore_path_is_parent_witness :
  plain_element (Name stored_a)
  /\ exists c' olddoc' newdoc err,
       TrashFile ctx_stored stored_a = (c', olddoc', Some newdoc, err)
       /\ RestorePath newdoc = "/".
Proof.
  split; [exact a_txt_plain|].
  destruct (TrashFile ctx_stored stored_a) as [[[c' od] [nd|]] err] eqn:H.
  - exists c', od, nd, err. split; [reflexivity|].
    exact (proj1 (TrashFile_restore_path_is_parent ctx_stored c' stored_a od
                    nd err a_txt_plain H) eq_refl).
  - exfalso. vm_compute in H. discriminate H.
Defined.

(** X3 on the in-memory instance: two buffers written through a fresh handle
    over /a.txt are counted and digested in order. *)
Lemma written_handle_counts_bytes_witness :
  exists c1 f,
    CreateFile 5 doc_unset None init = (c1, Ok f)
    /\ all_written f [hello; world] c1
    /\ snd (File_Write_each f [hello; world] c1) = None
    /\ exists fc',
         f_fc (snd (fst (File_Write_each f [hello; world] c1))) = Some fc'
         /\ fc_w fc' = 10 /\ fc_hash fc' = (hello ++ world)%list.
Proof.
  destruct (CreateFile 5 doc_unset None init) as [c1 [f|e]] eqn:H.
  2:{ exfalso. vm_compute in H. discriminate H. }
  assert (Hall : all_written f [hello; world] c1).
  { injection H as <- <-. vm_compute. repeat split; reflexivity. }
  exists c1, f. split; [reflexivity|]. split; [exact Hall|].
  destruct (written_handle_counts_bytes 5 doc_unset None init c1 f
              [hello; world] H Hall)
    as (Herr & fc & fc' & _ & Hfc' & _ & Hw & Hh & _).
  split; [exact Herr|]. exists fc'. split; [exact Hfc'|].
  split; [apply Hw; reflexivity | exact Hh].
Defined.

(** X4 on the in-memory instance: closing a handle that declared a wrong
    digest for what was written fails with [ErrInvalidHash]. *)
Lemma Close_commits_what_was_written_witness :
  exists c1 f,
    CreateFile 5 doc_badhash None init = (c1, Ok f)
    /\ all_written f [hello] c1
    /\ snd (File_Close (snd (fst (File_Write_each f [hello] c1)))
              (fst (fst (File_Write_each f [hello] c1))))
       = Some ErrInvalidHash.
Proof.
  destruct (CreateFile 5 doc_badhash None init) as [c1 [f|e]] eqn:H.
  2:{ exfalso. vm_compute in H. discriminate H. }
  assert (Hall : all_written f [hello] c1).
  { injection H as <- <-. vm_compute. repeat split; reflexivity. }
  assert (Hclose :
            snd (afero_File_Close
                   (f_f (snd (fst (File_Write_each f [hello] c1))))
                   (fs (fst (fst (File_Write_each f [hello] c1))))) = None)
    by reflexivity.
  exists c1, f. split; [reflexivity|]. split; [exact Hall|].
  destruct (Close_commits_what_was_written 5 doc_badhash None init c1 f
              [hello] H Hall eq_refl Hclose) as (Hhash & _).
  apply Hhash. split; [discriminate|]. vm_compute. discriminate.
Defined.

(** X5 on the in-memory instance: a write of five bytes where three fit
    fails; after one more write, [File.Close] ends by removing /a.txt. *)
Lemma failed_write_is_rolled_back_witness :
  f_fc file_created <> None
  /\ snd (File_Write file_created hello ctx_created_small)
     = (3, Some (OsError enospc))
  /\ let c1 := fst (fst (File_Write file_created hello ctx_created_small)) in
     let f1 := snd (fst (File_Write file_created hello ctx_created_small)) in
     let c3 :=
       fst (fst (File_Close (snd (File_Write_all f1 [world] c1))
                   (fst (File_Write_all f1 [world] c1)))) in
     (exists l, calls c3 = (l ++ [EvRemove "/a.txt"])%list)
     /\ files (fs c3) !! "/a.txt" = None.
Proof.
  assert (Hw : snd (File_Write file_created hello ctx_created_small)
               = (3, Some (OsError enospc))) by (vm_compute; reflexivity).
  split; [discriminate|]. split; [exact Hw|].
  destruct (failed_write_is_rolled_back file_created _ hello ctx_created_small
              3 (OsError enospc) [world] eq_refl Hw) as (Hcalls & Hfs).
  split; [exact Hcalls|]. rewrite Hfs. vm_compute. reflexivity.
Defined.

(** X6 on the in-memory instance: creating /a.txt and writing to it leaves
    the database as it was. *)
Lemma metadata_untouched_before_Close_witness :
  exists c1 f,
    CreateFile 5 doc_unset None init = (c1, Ok f)
    /\ db (fst (File_Write_all f [hello] c1)) = db init.
Proof.
  destruct (CreateFile 5 doc_unset None init) as [c1 [f|e]] eqn:H.
  2:{ exfalso. vm_compute in H. discriminate H. }
  exists c1, f. split; [reflexivity|].
  exact (proj1 (proj2 (metadata_untouched_before_Close 5 doc_unset None init
                         c1 f [hello] H))).
Defined.

(** X8 on the in-memory instance: the rename of /a.txt to /b.txt returns the
    same document under its new name. *)
Lemma ModifyFileMetadata_result_witness :
  exists c' olddoc' newdoc err,
    ModifyFileMetadata ctx_stored stored_a rename_b
    = (c', olddoc', Some newdoc, err)
    /\ DocID newdoc = "id1" /\ Size newdoc = 5
    /\ MD5Sum newdoc = Some (checksum hello).
Proof.
  destruct (ModifyFileMetadata ctx_stored stored_a rename_b)
    as [[[c' od] [nd|]] err] eqn:H.
  2:{ exfalso. vm_compute in H. discriminate H. }
  exists c', od, nd, err. split; [reflexivity|].
  destruct (ModifyFileMetadata_result ctx_stored c' stored_a od nd rename_b
              err H) as (_ & HI & HS & HM & _).
  repeat split; assumption.
Defined.

(** X9 on the in-memory instance: new tags for /a.txt, once an album
    references it: the returned document holds no reference. *)
Lemma ModifyFileMetadata_drops_references_witness :
  exists c' olddoc' newdoc err,
    ModifyFileMetadata ctx_stored (AddReferencedBy [album] stored_a) retag
    = (c', olddoc', Some newdoc, err)
    /\ ReferencedBy (AddReferencedBy [album] stored_a) = [album]
    /\ ReferencedBy newdoc = [].
Proof.
  destruct (ModifyFileMetadata ctx_stored (AddReferencedBy [album] stored_a)
              retag) as [[[c' od] [nd|]] err] eqn:H.
  2:{ exfalso. vm_compute in H. discriminate H. }
  exists c', od, nd, err. split; [reflexivity|]. split; [reflexivity|].
  exact (proj1 (ModifyFileMetadata_drops_references ctx_stored c' stored_a od
                  nd [album] retag err H)).
Defined.

(** X10 on the in-memory instance: new tags for /a.txt call the metadata
    store only. *)
Lemma ModifyFileMetadata_metadata_only_witness :
  metadata_only retag
  /\ exists c' olddoc' newdoc err,
       ModifyFileMetadata ctx_stored stored_a retag
       = (c', olddoc', Some newdoc, err)
       /\ fs c' = fs ctx_stored.
Proof.
  assert (Hm : metadata_only retag) by (repeat split; reflexivity).
  split; [exact Hm|].
  destruct (ModifyFileMetadata ctx_stored stored_a retag)
    as [[[c' od] [nd|]] err] eqn:H.
  2:{ exfalso. vm_compute in H. discriminate H. }
  exists c', od, nd, err. split; [reflexivity|].
  assert (Hdir : DirID stored_a <> "") by discriminate.
  exact (proj1 (ModifyFileMetadata_metadata_only ctx_stored c' stored_a od nd
                  retag err Hm Hdir H)).
Defined.

(** X11 on the in-memory instance: the handle of a new /a.txt cannot be read
    from. *)
Lemma write_handle_rejects_reads_witness :
  exists c1 f,
    CreateFile 5 doc_unset None init = (c1, Ok f)
    /\ snd (File_Read (snd (File_Write_all f [hello] c1)) 5
              (fst (File_Write_all f [hello] c1)))
       = ([], 0, Some (OsError os_ErrInvalid)).
Proof.
  destruct (CreateFile 5 doc_unset None init) as [c1 [f|e]] eqn:H.
  2:{ exfalso. vm_compute in H. discriminate H. }
  exists c1, f. split; [reflexivity|].
  rewrite (proj1 (write_handle_rejects_reads 5 doc_unset None init c1 f
                    [hello] 5%nat 0 0 H)).
  reflexivity.
Defined.

(** X12 on the in-memory instance: the handle of the stored /a.txt, opened
    for reading, cannot be written to. *)
Lemma read_handle_rejects_writes_witness :
  exists c1 f,
    Open ctx_stored stored_a = (c1, Ok f)
    /\ File_Write f world c1 = (c1, f, (0, Some (OsError os_ErrInvalid))).
Proof.
  destruct (Open ctx_stored stored_a) as [c1 [f|e]] eqn:H.
  2:{ exfalso. vm_compute in H. discriminate H. }
  exists c1, f. split; [reflexivity|].
  exact (proj1 (proj2 (read_handle_rejects_writes ctx_stored c1 stored_a f
                         [] world c1 H))).
Defined.


